(** * Domain configuration model of libvirt's [src/conf/domain_conf.c]

    A shallow embedding of the parts of the domain configuration code
    that decide the ABI-stability comparison, the memory and vCPU
    parsing rules, the boot-order bookkeeping, the post-parse phase,
    the device-info traversal, the singleton-device rules, the disk
    target-name checks and the formatter's flag handling; also the
    domain object's state, reason and taint word with their status XML,
    the character device target types, the sorted device lists and the
    implicit controllers, disk drive addresses and lookup by name,
    leases, vCPU pinning and the NIC lookup.

    C integers are modelled as [Z] with the wrap-around of their C type
    written out where the code can overflow; enumerations that the code
    only compares with [!=] are kept as their [int] values.  A [char *]
    that may be NULL is an [option string].  Fallible operations return
    [option]; for the ABI checker [None] stands for undefined behaviour
    (a NULL pointer handed to [strcmp]). *)

From Stdlib Require Import ZArith List String Ascii Bool Lia Permutation.
Import ListNotations.
Open Scope Z_scope.

(** ** String helpers of [internal.h] *)

(** [STRNEQ(a,b)] is [strcmp(a,b) != 0]; [strcmp] on a NULL pointer is
    undefined, rendered as [None]. *)
Definition STRNEQ (a b : option string) : option bool :=
  match a, b with
  | Some x, Some y => Some (negb (String.eqb x y))
  | _, _ => None
  end.

(** [STRNEQ_NULLABLE(a,b)]: two NULLs are equal, NULL differs from a
    string. *)
Definition STRNEQ_NULLABLE (a b : option string) : bool :=
  match a, b with
  | Some x, Some y => negb (String.eqb x y)
  | None, None => false
  | _, _ => true
  end.

(** [STREQ_NULLABLE(a,b)]. *)
Definition STREQ_NULLABLE (a b : option string) : bool :=
  negb (STRNEQ_NULLABLE a b).

(** [memcmp(a, b, n) != 0] on byte buffers of the same length. *)
Fixpoint memneq (a b : list Z) : bool :=
  match a, b with
  | x :: a', y :: b' => if Z.eqb x y then memneq a' b' else true
  | [], [] => false
  | _, _ => true
  end.

(** ** Data model (domain_conf.h) *)

(** The address union of [virDomainDeviceInfo], tagged by its [type]. *)
Inductive virDomainDeviceAddress :=
| AddrNone
| AddrPCI (domain bus slot function : Z)
| AddrDrive (controller bus unit : Z)
| AddrVirtioSerial (controller bus port : Z)
| AddrCCID (controller slot : Z)
| AddrUSB (bus port : Z)
| AddrSpaprVio (reg : Z)
| AddrVirtioS390
| AddrCCW (cssid ssid devno : Z).

(** [VIR_DOMAIN_DEVICE_ADDRESS_TYPE_*], in the order of the enum. *)
Definition addressType (a : virDomainDeviceAddress) : Z :=
  match a with
  | AddrNone => 0 | AddrPCI _ _ _ _ => 1 | AddrDrive _ _ _ => 2
  | AddrVirtioSerial _ _ _ => 3 | AddrCCID _ _ => 4 | AddrUSB _ _ => 5
  | AddrSpaprVio _ => 6 | AddrVirtioS390 => 7 | AddrCCW _ _ _ => 8
  end.

Record virDomainDeviceInfo := mkInfo {
  info_alias : option string;
  info_addr : virDomainDeviceAddress;
  info_bootIndex : Z;
}.

Record virDomainTimerDef := mkTimer {
  timer_name : Z;
  timer_present : Z;
  timer_frequency : Z;
  timer_mode : Z;
}.

Record virDomainDiskDef := mkDisk {
  disk_device : Z;
  disk_bus : Z;
  disk_dst : option string;
  disk_serial : option string;
  disk_readonly : bool;
  disk_shared : bool;
  disk_info : virDomainDeviceInfo;
}.

Record virDomainControllerDef := mkController {
  ctrl_type : Z;
  ctrl_idx : Z;
  ctrl_model : Z;
  ctrl_vioserial_ports : Z;
  ctrl_vioserial_vectors : Z;
  ctrl_info : virDomainDeviceInfo;
}.

Record virDomainFSDef := mkFS {
  fs_dst : option string;
  fs_readonly : bool;
  fs_info : virDomainDeviceInfo;
}.

Record virDomainNetDef := mkNet {
  net_mac : list Z;
  net_model : option string;
  net_info : virDomainDeviceInfo;
}.

Record virDomainInputDef := mkInput {
  input_type : Z;
  input_bus : Z;
  input_info : virDomainDeviceInfo;
}.

Record virDomainSoundDef := mkSound {
  sound_model : Z;
  sound_info : virDomainDeviceInfo;
}.

Record virDomainVideoAccelDef := mkAccel {
  accel_support2d : Z;
  accel_support3d : Z;
}.

Record virDomainVideoDef := mkVideo {
  video_type : Z;
  video_vram : Z;
  video_heads : Z;
  video_accel : option virDomainVideoAccelDef;
  video_primary : bool;
  video_info : virDomainDeviceInfo;
}.

(** [hostdev_info] is the record [hostdev->info] points to.
    [hostdev_parent_net] is [hostdev->parent] when its type is
    [VIR_DOMAIN_DEVICE_NET]: [Some j] for the host device embedded in
    [def->nets[j]], whose [info] pointer is [&def->nets[j]->info]. *)
Record virDomainHostdevDef := mkHostdev {
  hostdev_mode : Z;
  hostdev_subsys_type : Z;
  hostdev_info : virDomainDeviceInfo;
  hostdev_parent_net : option nat;
}.

Record virDomainSmartcardDef := mkSmartcard {
  smartcard_info : virDomainDeviceInfo;
}.

(** The character device record, shared by serials, parallels, channels
    and consoles. *)
Record virDomainChrDef := mkChr {
  chr_targetType : Z;
  chr_target_port : Z;
  chr_target_name : option string;
  chr_target_addr : list Z;
  chr_source_type : Z;
  chr_info : virDomainDeviceInfo;
}.

Record virDomainWatchdogDef := mkWatchdog {
  watchdog_model : Z;
  watchdog_info : virDomainDeviceInfo;
}.

Record virDomainMemballoonDef := mkMemballoon {
  memballoon_model : Z;
  memballoon_info : virDomainDeviceInfo;
}.

Record virDomainRNGDef := mkRNG {
  rng_model : Z;
  rng_info : virDomainDeviceInfo;
}.

Record virDomainHubDef := mkHub {
  hub_type : Z;
  hub_info : virDomainDeviceInfo;
}.

Record virDomainRedirdevDef := mkRedirdev {
  redirdev_bus : Z;
  redirdev_info : virDomainDeviceInfo;
}.

Record virDomainRedirFilterUsbDevDef := mkUsbDev {
  usbdev_usbClass : Z;
  usbdev_vendor : Z;
  usbdev_product : Z;
  usbdev_version : Z;
  usbdev_allow : bool;
}.

Record virDomainRedirFilterDef := mkRedirFilter {
  redirfilter_usbdevs : list virDomainRedirFilterUsbDevDef;
}.

(** The CPU definition of [cpu_conf.h] and the sysinfo record are
    collaborators; only the topology fields used by the parser are
    kept, the rest is opaque. *)
Record virCPUDef := mkCPU {
  cpu_sockets : Z;
  cpu_cores : Z;
  cpu_threads : Z;
  cpu_cells_cpus : Z;
  cpu_rest : list Z;
}.

Record virDomainDef := mkDef {
  def_virtType : Z;
  def_id : Z;
  def_uuid : list Z;
  def_max_balloon : Z;
  def_cur_balloon : Z;
  def_hugepage_backed : bool;
  def_vcpus : Z;
  def_maxvcpus : Z;
  def_os_type : option string;
  def_os_arch : Z;
  def_os_machine : option string;
  def_os_smbios_mode : Z;
  def_os_init : option string;
  def_features : Z;
  def_timers : list virDomainTimerDef;
  def_cpu : option virCPUDef;
  def_sysinfo : option (list Z);
  def_disks : list virDomainDiskDef;
  def_controllers : list virDomainControllerDef;
  def_fss : list virDomainFSDef;
  def_nets : list virDomainNetDef;
  def_inputs : list virDomainInputDef;
  def_sounds : list virDomainSoundDef;
  def_videos : list virDomainVideoDef;
  def_hostdevs : list virDomainHostdevDef;
  def_smartcards : list virDomainSmartcardDef;
  def_serials : list virDomainChrDef;
  def_parallels : list virDomainChrDef;
  def_channels : list virDomainChrDef;
  def_consoles : list virDomainChrDef;
  def_hubs : list virDomainHubDef;
  def_redirdevs : list virDomainRedirdevDef;
  def_redirfilter : option virDomainRedirFilterDef;
  def_watchdog : option virDomainWatchdogDef;
  def_memballoon : option virDomainMemballoonDef;
  def_rng : option virDomainRNGDef;
}.

(** ** ABI-stability checker (virDomain*CheckABIStability) *)

Module ABI.

(** Result of a comparator: [Some b] is the returned [bool], [None]
    marks undefined behaviour. *)
Definition abi := option bool.

(** [if (mismatch) { virReportError(...); return false; } k] *)
Definition guard (mismatch : bool) (k : abi) : abi :=
  if mismatch then Some false else k.

(** [if (STRNEQ(a, b)) { ...; return false; } k] *)
Definition guard_str (m : option bool) (k : abi) : abi :=
  match m with
  | None => None
  | Some true => Some false
  | Some false => k
  end.

(** [if (!f(...)) return false; k] *)
Definition andThen (r : abi) (k : abi) : abi :=
  match r with
  | Some true => k
  | _ => r
  end.

Notation "r &&& k" := (andThen r k) (at level 40, left associativity).

(** [for (i = 0; i < src->n; i++) if (!f(src[i], dst[i])) return false;]
    run once the two counts are known equal. *)
Fixpoint forall2 {A} (f : A -> A -> abi) (s d : list A) : abi :=
  match s, d with
  | x :: s', y :: d' => f x y &&& forall2 f s' d'
  | _, _ => Some true
  end.

Definition VIR_DOMAIN_TIMER_NAME_TSC := 4.

Definition virDomainTimerDefCheckABIStability (s d : virDomainTimerDef) : abi :=
  guard (negb (Z.eqb (timer_name s) (timer_name d)))
  (guard (negb (Z.eqb (timer_present s) (timer_present d)))
  (if Z.eqb (timer_name s) VIR_DOMAIN_TIMER_NAME_TSC then
     guard (negb (Z.eqb (timer_frequency s) (timer_frequency d)))
     (guard (negb (Z.eqb (timer_mode s) (timer_mode d))) (Some true))
   else Some true)).

Definition virDomainDeviceInfoCheckABIStability
  (s d : virDomainDeviceInfo) : abi :=
  guard (negb (Z.eqb (addressType (info_addr s)) (addressType (info_addr d))))
  (match info_addr s, info_addr d with
   | AddrPCI d1 b1 s1 f1, AddrPCI d2 b2 s2 f2 =>
       guard (negb (Z.eqb d1 d2 && Z.eqb b1 b2 && Z.eqb s1 s2 && Z.eqb f1 f2))
         (Some true)
   | AddrDrive c1 b1 u1, AddrDrive c2 b2 u2 =>
       guard (negb (Z.eqb c1 c2 && Z.eqb b1 b2 && Z.eqb u1 u2)) (Some true)
   | AddrVirtioSerial c1 b1 p1, AddrVirtioSerial c2 b2 p2 =>
       guard (negb (Z.eqb c1 c2 && Z.eqb b1 b2 && Z.eqb p1 p2)) (Some true)
   | AddrCCID c1 s1, AddrCCID c2 s2 =>
       guard (negb (Z.eqb c1 c2 && Z.eqb s1 s2)) (Some true)
   | _, _ => Some true
   end).

Definition virDomainDiskDefCheckABIStability (s d : virDomainDiskDef) : abi :=
  guard (negb (Z.eqb (disk_device s) (disk_device d)))
  (guard (negb (Z.eqb (disk_bus s) (disk_bus d)))
  (guard_str (STRNEQ (disk_dst s) (disk_dst d))
  (guard (STRNEQ_NULLABLE (disk_serial s) (disk_serial d))
  (guard (negb (Bool.eqb (disk_readonly s) (disk_readonly d))
          || negb (Bool.eqb (disk_shared s) (disk_shared d)))
  (virDomainDeviceInfoCheckABIStability (disk_info s) (disk_info d)))))).

Definition VIR_DOMAIN_CONTROLLER_TYPE_VIRTIO_SERIAL := 4.

Definition virDomainControllerDefCheckABIStability
  (s d : virDomainControllerDef) : abi :=
  guard (negb (Z.eqb (ctrl_type s) (ctrl_type d)))
  (guard (negb (Z.eqb (ctrl_idx s) (ctrl_idx d)))
  (guard (negb (Z.eqb (ctrl_model s) (ctrl_model d)))
  ((if Z.eqb (ctrl_type s) VIR_DOMAIN_CONTROLLER_TYPE_VIRTIO_SERIAL then
      guard (negb (Z.eqb (ctrl_vioserial_ports s) (ctrl_vioserial_ports d)))
      (guard (negb (Z.eqb (ctrl_vioserial_vectors s) (ctrl_vioserial_vectors d)))
        (Some true))
    else Some true)
   &&& virDomainDeviceInfoCheckABIStability (ctrl_info s) (ctrl_info d)))).

Definition virDomainFsDefCheckABIStability (s d : virDomainFSDef) : abi :=
  guard_str (STRNEQ (fs_dst s) (fs_dst d))
  (guard (negb (Bool.eqb (fs_readonly s) (fs_readonly d)))
  (virDomainDeviceInfoCheckABIStability (fs_info s) (fs_info d))).

Definition virDomainNetDefCheckABIStability (s d : virDomainNetDef) : abi :=
  guard (memneq (net_mac s) (net_mac d))
  (guard (STRNEQ_NULLABLE (net_model s) (net_model d))
  (virDomainDeviceInfoCheckABIStability (net_info s) (net_info d))).

Definition virDomainInputDefCheckABIStability (s d : virDomainInputDef) : abi :=
  guard (negb (Z.eqb (input_type s) (input_type d)))
  (guard (negb (Z.eqb (input_bus s) (input_bus d)))
  (virDomainDeviceInfoCheckABIStability (input_info s) (input_info d))).

Definition virDomainSoundDefCheckABIStability (s d : virDomainSoundDef) : abi :=
  guard (negb (Z.eqb (sound_model s) (sound_model d)))
  (virDomainDeviceInfoCheckABIStability (sound_info s) (sound_info d)).

Definition virDomainVideoDefCheckABIStability (s d : virDomainVideoDef) : abi :=
  guard (negb (Z.eqb (video_type s) (video_type d)))
  (guard (negb (Z.eqb (video_vram s) (video_vram d)))
  (guard (negb (Z.eqb (video_heads s) (video_heads d)))
  (match video_accel s, video_accel d with
   | Some a, None | None, Some a => Some false
   | Some a, Some b =>
       guard (negb (Z.eqb (accel_support2d a) (accel_support2d b)))
       (guard (negb (Z.eqb (accel_support3d a) (accel_support3d b)))
         (Some true))
   | None, None => Some true
   end
   &&& virDomainDeviceInfoCheckABIStability (video_info s) (video_info d)))).

Definition VIR_DOMAIN_HOSTDEV_MODE_SUBSYS := 0.

Definition virDomainHostdevDefCheckABIStability
  (s d : virDomainHostdevDef) : abi :=
  guard (negb (Z.eqb (hostdev_mode s) (hostdev_mode d)))
  (guard (Z.eqb (hostdev_mode s) VIR_DOMAIN_HOSTDEV_MODE_SUBSYS &&
          negb (Z.eqb (hostdev_subsys_type s) (hostdev_subsys_type d)))
  (virDomainDeviceInfoCheckABIStability (hostdev_info s) (hostdev_info d))).

Definition virDomainSmartcardDefCheckABIStability
  (s d : virDomainSmartcardDef) : abi :=
  virDomainDeviceInfoCheckABIStability (smartcard_info s) (smartcard_info d).

Definition virDomainSerialDefCheckABIStability (s d : virDomainChrDef) : abi :=
  guard (negb (Z.eqb (chr_target_port s) (chr_target_port d)))
  (virDomainDeviceInfoCheckABIStability (chr_info s) (chr_info d)).

Definition virDomainParallelDefCheckABIStability (s d : virDomainChrDef) : abi :=
  guard (negb (Z.eqb (chr_target_port s) (chr_target_port d)))
  (virDomainDeviceInfoCheckABIStability (chr_info s) (chr_info d)).

Definition VIR_DOMAIN_CHR_CHANNEL_TARGET_TYPE_GUESTFWD := 1.
Definition VIR_DOMAIN_CHR_CHANNEL_TARGET_TYPE_VIRTIO := 2.
Definition VIR_DOMAIN_CHR_TYPE_SPICEVMC := 10.

Definition virDomainChannelDefCheckABIStability (s d : virDomainChrDef) : abi :=
  guard (negb (Z.eqb (chr_targetType s) (chr_targetType d)))
  ((if Z.eqb (chr_targetType s) VIR_DOMAIN_CHR_CHANNEL_TARGET_TYPE_VIRTIO then
      guard (STRNEQ_NULLABLE (chr_target_name s) (chr_target_name d))
      (guard (negb (Z.eqb (chr_source_type s) (chr_source_type d)) &&
              (Z.eqb (chr_source_type s) VIR_DOMAIN_CHR_TYPE_SPICEVMC ||
               Z.eqb (chr_source_type d) VIR_DOMAIN_CHR_TYPE_SPICEVMC) &&
              match chr_target_name s with None => true | Some _ => false end)
        (Some true))
    else if Z.eqb (chr_targetType s) VIR_DOMAIN_CHR_CHANNEL_TARGET_TYPE_GUESTFWD
    then guard (memneq (chr_target_addr s) (chr_target_addr d)) (Some true)
    else Some true)
   &&& virDomainDeviceInfoCheckABIStability (chr_info s) (chr_info d)).

Definition virDomainConsoleDefCheckABIStability (s d : virDomainChrDef) : abi :=
  guard (negb (Z.eqb (chr_targetType s) (chr_targetType d)))
  (virDomainDeviceInfoCheckABIStability (chr_info s) (chr_info d)).

Definition virDomainWatchdogDefCheckABIStability
  (s d : virDomainWatchdogDef) : abi :=
  guard (negb (Z.eqb (watchdog_model s) (watchdog_model d)))
  (virDomainDeviceInfoCheckABIStability (watchdog_info s) (watchdog_info d)).

Definition virDomainMemballoonDefCheckABIStability
  (s d : virDomainMemballoonDef) : abi :=
  guard (negb (Z.eqb (memballoon_model s) (memballoon_model d)))
  (virDomainDeviceInfoCheckABIStability (memballoon_info s) (memballoon_info d)).

Definition virDomainRNGDefCheckABIStability
  (s d : option virDomainRNGDef) : abi :=
  match s, d with
  | None, None => Some true
  | Some s, Some d =>
      guard (negb (Z.eqb (rng_model s) (rng_model d)))
      (virDomainDeviceInfoCheckABIStability (rng_info s) (rng_info d))
  | _, _ => Some false
  end.

Definition virDomainHubDefCheckABIStability (s d : virDomainHubDef) : abi :=
  guard (negb (Z.eqb (hub_type s) (hub_type d)))
  (virDomainDeviceInfoCheckABIStability (hub_info s) (hub_info d)).

Definition usbDevCheck (s d : virDomainRedirFilterUsbDevDef) : abi :=
  guard (negb (Z.eqb (usbdev_usbClass s) (usbdev_usbClass d)))
  (guard (negb (Z.eqb (usbdev_vendor s) (usbdev_vendor d)))
  (guard (negb (Z.eqb (usbdev_product s) (usbdev_product d)))
  (guard (negb (Z.eqb (usbdev_version s) (usbdev_version d)))
  (guard (negb (Bool.eqb (usbdev_allow s) (usbdev_allow d))) (Some true))))).

Definition virDomainRedirFilterDefCheckABIStability
  (s d : virDomainRedirFilterDef) : abi :=
  guard (negb (Nat.eqb (List.length (redirfilter_usbdevs s))
                       (List.length (redirfilter_usbdevs d))))
  (forall2 usbDevCheck (redirfilter_usbdevs s) (redirfilter_usbdevs d)).

(** [if (src->n != dst->n) return false; for (...) check] *)
Definition listCheck {A} (f : A -> A -> abi) (s d : list A) (k : abi) : abi :=
  guard (negb (Nat.eqb (List.length s) (List.length d))) (forall2 f s d &&& k).

(** The optional singleton devices (redirfilter, watchdog, memballoon). *)
Definition optCheck {A} (f : A -> A -> abi) (s d : option A) (k : abi) : abi :=
  match s, d with
  | Some _, None | None, Some _ => Some false
  | Some x, Some y => f x y &&& k
  | None, None => k
  end.

Section Check.

(** [virCPUDefIsEqual] (cpu_conf.c) and [virSysinfoIsEqual] (sysinfo.c)
    live outside this file. *)
Variable virCPUDefIsEqual : option virCPUDef -> option virCPUDef -> bool.
Variable virSysinfoIsEqual : option (list Z) -> option (list Z) -> bool.

Definition virDomainDefCheckABIStability (s d : virDomainDef) : abi :=
  guard (negb (Z.eqb (def_virtType s) (def_virtType d)))
  (guard (memneq (def_uuid s) (def_uuid d))
  (guard (negb (Z.eqb (def_max_balloon s) (def_max_balloon d)))
  (guard (negb (Z.eqb (def_cur_balloon s) (def_cur_balloon d)))
  (guard (negb (Bool.eqb (def_hugepage_backed s) (def_hugepage_backed d)))
  (guard (negb (Z.eqb (def_vcpus s) (def_vcpus d)))
  (guard (negb (Z.eqb (def_maxvcpus s) (def_maxvcpus d)))
  (guard_str (STRNEQ (def_os_type s) (def_os_type d))
  (guard (negb (Z.eqb (def_os_arch s) (def_os_arch d)))
  (guard_str (STRNEQ (def_os_machine s) (def_os_machine d))
  (guard (negb (Z.eqb (def_os_smbios_mode s) (def_os_smbios_mode d)))
  (guard (negb (Z.eqb (def_features s) (def_features d)))
  (listCheck virDomainTimerDefCheckABIStability (def_timers s) (def_timers d)
  (guard (negb (virCPUDefIsEqual (def_cpu s) (def_cpu d)))
  (guard (negb (virSysinfoIsEqual (def_sysinfo s) (def_sysinfo d)))
  (listCheck virDomainDiskDefCheckABIStability (def_disks s) (def_disks d)
  (listCheck virDomainControllerDefCheckABIStability
     (def_controllers s) (def_controllers d)
  (listCheck virDomainFsDefCheckABIStability (def_fss s) (def_fss d)
  (listCheck virDomainNetDefCheckABIStability (def_nets s) (def_nets d)
  (listCheck virDomainInputDefCheckABIStability (def_inputs s) (def_inputs d)
  (listCheck virDomainSoundDefCheckABIStability (def_sounds s) (def_sounds d)
  (listCheck virDomainVideoDefCheckABIStability (def_videos s) (def_videos d)
  (listCheck virDomainHostdevDefCheckABIStability
     (def_hostdevs s) (def_hostdevs d)
  (listCheck virDomainSmartcardDefCheckABIStability
     (def_smartcards s) (def_smartcards d)
  (listCheck virDomainSerialDefCheckABIStability (def_serials s) (def_serials d)
  (listCheck virDomainParallelDefCheckABIStability
     (def_parallels s) (def_parallels d)
  (listCheck virDomainChannelDefCheckABIStability
     (def_channels s) (def_channels d)
  (listCheck virDomainConsoleDefCheckABIStability
     (def_consoles s) (def_consoles d)
  (listCheck virDomainHubDefCheckABIStability (def_hubs s) (def_hubs d)
  (optCheck virDomainRedirFilterDefCheckABIStability
     (def_redirfilter s) (def_redirfilter d)
  (optCheck virDomainWatchdogDefCheckABIStability
     (def_watchdog s) (def_watchdog d)
  (optCheck virDomainMemballoonDefCheckABIStability
     (def_memballoon s) (def_memballoon d)
  (virDomainRNGDefCheckABIStability (def_rng s) (def_rng d))))))))))))))))))))))))))))))))).

End Check.

(** A definition of a container guest: OS type "exe", no machine type
    (the capabilities of such guests carry no default machine, so the
    parser leaves [os.machine] NULL), no devices. *)
Definition exe_def : virDomainDef :=
  {| def_virtType := 4; def_id := -1; def_uuid := repeat 7 16;
     def_max_balloon := 524288; def_cur_balloon := 524288;
     def_hugepage_backed := false; def_vcpus := 1; def_maxvcpus := 1;
     def_os_type := Some "exe"%string; def_os_arch := 0;
     def_os_machine := None; def_os_smbios_mode := 0;
     def_os_init := Some "/bin/sh"%string; def_features := 0;
     def_timers := []; def_cpu := None; def_sysinfo := None;
     def_disks := []; def_controllers := []; def_fss := []; def_nets := [];
     def_inputs := []; def_sounds := []; def_videos := []; def_hostdevs := [];
     def_smartcards := []; def_serials := []; def_parallels := [];
     def_channels := []; def_consoles := []; def_hubs := [];
     def_redirdevs := []; def_redirfilter := None; def_watchdog := None;
     def_memballoon := None; def_rng := None |}.

End ABI.
(** ** Memory sizing (virDomainParseMemory, virDomainDefParseXML) *)

Module Memory.

Definition ull (x : Z) : Z := x mod 2 ^ 64.
Definition LLONG_MAX : Z := 2 ^ 63 - 1.

(** [VIR_DIV_UP(x, y)] evaluated in [unsigned long long]. *)
Definition VIR_DIV_UP (x y : Z) : Z := ull (x + y - 1) / y.

(** Result of [virXPathULongLong]: no node (-1), not a number (-2), or
    a value together with the [unit] attribute when there is one. *)
Inductive xpathNum :=
| XAbsent
| XMalformed
| XValue (v : Z) (unit : option string).

Section Scale.
(** [virScaleInteger] (util, not in this file): scales the value by the
    multiplier of the unit suffix, or by [scale] when there is none;
    [None] when it reports an error (an unknown suffix, or a result
    above [limit]). *)
Variable virScaleInteger : Z -> option string -> Z -> Z -> option Z.

(** [*val] is set to 0 first; [ret] already holds the 0 that
    [virXPathULongLong] returned when [virScaleInteger] fails, so that
    failure returns success with a value of 0. *)
Definition virDomainParseScaledValue (x : xpathNum) (scale max : Z)
  (required : bool) : option Z :=
  match x with
  | XMalformed => None
  | XAbsent => if required then None else Some 0
  | XValue bytes unit =>
      match virScaleInteger bytes unit scale max with
      | None => Some 0
      | Some b => Some b
      end
  end.

(** On a 64-bit host [max] is [LLONG_MAX]; the result is in KiB. *)
Definition virDomainParseMemory (x : xpathNum) (required : bool) : option Z :=
  match virDomainParseScaledValue x 1024 LLONG_MAX required with
  | None => None
  | Some bytes => Some (VIR_DIV_UP bytes 1024)
  end.

(** The [cur_balloon] adjustment of [virDomainDefParseXML]. *)
Definition balloonFixup (cur max : Z) : option Z :=
  if cur >? max then
    if VIR_DIV_UP cur 4096 >? VIR_DIV_UP max 4096 then None
    else Some max
  else if cur =? 0 then Some max
  else Some cur.

(** The memory part of [virDomainDefParseXML]: [./memory[1]] (required),
    [./currentMemory[1]] (optional), then the adjustment; returns
    [(max_balloon, cur_balloon)]. *)
Definition parseDomainMemory (xmax xcur : xpathNum) : option (Z * Z) :=
  match virDomainParseMemory xmax true with
  | None => None
  | Some max =>
      match virDomainParseMemory xcur false with
      | None => None
      | Some cur =>
          match balloonFixup cur max with
          | None => None
          | Some cur' => Some (max, cur')
          end
      end
  end.

End Scale.

(** A sample [virScaleInteger] for the examples: no suffix or "KiB"
    scales by [scale] or 1024, "MiB" by 1048576; any other suffix, or
    a result above [limit], is an error. *)
Definition sampleScaleInteger (value : Z) (unit : option string) (scale limit : Z) : option Z :=
  let m := match unit with
           | None => Some scale
           | Some u => if String.eqb u "KiB" then Some 1024
                       else if String.eqb u "MiB" then Some 1048576 else None
           end in
  let value := ull value in
  match m with
  | None => None
  | Some m => if negb (value =? 0) && (value >? limit / m) then None
              else Some (ull (value * m))
  end.

End Memory.
(** ** vCPU counts (virDomainDefParseXML) *)

Module Vcpu.

(** Result of [virXPathULong]: -1 (no node), -2 (not an integer) or an
    [unsigned long]. *)
Inductive xpathULong :=
| UAbsent
| UMalformed
| UValue (count : Z).

(** [(unsigned short) count] and [unsigned int] arithmetic. *)
Definition ushort (x : Z) : Z := x mod 2 ^ 16.
Definition uint (x : Z) : Z := x mod 2 ^ 32.

(** [./vcpu[1]]: the maximum. *)
Definition parseMaxVcpus (x : xpathULong) : option Z :=
  match x with
  | UMalformed => None
  | UAbsent => Some 1
  | UValue count =>
      if (count =? 0) || negb (ushort count =? count) then None
      else Some (ushort count)
  end.

(** [./vcpu[1]/@current]: the current count, given the maximum. *)
Definition parseCurVcpus (x : xpathULong) (maxvcpus : Z) : option Z :=
  match x with
  | UMalformed => None
  | UAbsent => Some maxvcpus
  | UValue count =>
      if (count =? 0) || negb (ushort count =? count) then None
      else if maxvcpus <? count then None
      else Some (ushort count)
  end.

(** The checks made once [./cpu[1]] has been parsed. *)
Definition cpuTopologyCheck (cpu : option virCPUDef) (maxvcpus : Z) : bool :=
  match cpu with
  | None => true
  | Some c =>
      negb (negb (cpu_sockets c =? 0) &&
            (maxvcpus >? uint (uint (cpu_sockets c * cpu_cores c) * cpu_threads c)))
      && negb (cpu_cells_cpus c >? maxvcpus)
  end.

(** The vCPU part of [virDomainDefParseXML]; returns
    [(vcpus, maxvcpus)]. *)
Definition parseVcpus (xmax xcur : xpathULong) (cpu : option virCPUDef)
  : option (Z * Z) :=
  match parseMaxVcpus xmax with
  | None => None
  | Some maxvcpus =>
      match parseCurVcpus xcur maxvcpus with
      | None => None
      | Some vcpus =>
          if cpuTopologyCheck cpu maxvcpus then Some (vcpus, maxvcpus) else None
      end
  end.

End Vcpu.
(** ** Boot ordering (virDomainDefParseBootXML, virDomainDeviceBootParseXML) *)

Module Boot.

(** [virBitmap] of a fixed size. *)
Definition virBitmap := list bool.













End Boot.
(** ** Device-info traversal (virDomainDeviceInfoIterateInternal) *)

Module Iterate.

(** The [virDomainDeviceDef] handed to the callback, named by its list
    and position ([device.type] plus [device.data]). *)
Inductive DevRef :=
| RDisk (i : nat) | RNet (i : nat) | RSound (i : nat) | RHostdev (i : nat)
| RVideo (i : nat) | RController (i : nat) | RSmartcard (i : nat)
| RSerial (i : nat) | RParallel (i : nat) | RChannel (i : nat)
| RConsole (i : nat) | RInput (i : nat) | RFS (i : nat)
| RWatchdog | RMemballoon | RRNG | RHub (i : nat).

Definition VIR_DOMAIN_CHR_CONSOLE_TARGET_TYPE_NONE := 0.
Definition VIR_DOMAIN_CHR_CONSOLE_TARGET_TYPE_SERIAL := 1.

Section Visit.

(** The callback, with whatever it records (its events [E]); the
    callback result is the [int] it returns. *)
Context {E : Type}.
Variable cb : DevRef -> virDomainDeviceInfo -> Z * list E.

(** Outcome of a traversal prefix: whether it is still running, and
    the events so far. *)
Definition res := (bool * list E)%type.

Definition seqR (a : res) (b : res) : res :=
  if fst a then (fst b, snd a ++ snd b) else a.

(** [if (cb(def, &device, info, opaque) < 0) return -1;] then go on. *)
Definition visit (r : DevRef) (info : virDomainDeviceInfo) (k : res) : res :=
  let (ret, ev) := cb r info in
  if ret <? 0 then (false, ev) else seqR (true, ev) k.

(** [for (i = 0; i < n; i++) visit(list[i])] *)
Fixpoint visitList {A} (mk : nat -> DevRef) (info : A -> virDomainDeviceInfo)
  (i : nat) (xs : list A) : res :=
  match xs with
  | [] => (true, [])
  | x :: xs' => visit (mk i) (info x) (visitList mk info (S i) xs')
  end.

(** The console loop with its [continue]. *)
Fixpoint visitConsoles (def : virDomainDef) (all : bool) (i : nat)
  (xs : list virDomainChrDef) : res :=
  match xs with
  | [] => (true, [])
  | c :: xs' =>
      if negb all && Nat.eqb i 0 &&
         ((chr_targetType c =? VIR_DOMAIN_CHR_CONSOLE_TARGET_TYPE_SERIAL) ||
          (chr_targetType c =? VIR_DOMAIN_CHR_CONSOLE_TARGET_TYPE_NONE)) &&
         STREQ_NULLABLE (def_os_type def) (Some "hvm"%string)
      then visitConsoles def all (S i) xs'
      else visit (RConsole i) (chr_info c) (visitConsoles def all (S i) xs')
  end.

Definition visitOpt {A} (r : DevRef) (info : A -> virDomainDeviceInfo)
  (o : option A) : res :=
  match o with
  | None => (true, [])
  | Some x => visit r (info x) (true, [])
  end.

(** [virDomainDeviceInfoIterateInternal]: returns 0 or -1 and the
    events of the callbacks that ran. *)
Definition virDomainDeviceInfoIterateInternal (def : virDomainDef) (all : bool)
  : Z * list E :=
  let r :=
    seqR (visitList RDisk disk_info 0 (def_disks def))
   (seqR (visitList RNet net_info 0 (def_nets def))
   (seqR (visitList RSound sound_info 0 (def_sounds def))
   (seqR (visitList RHostdev hostdev_info 0 (def_hostdevs def))
   (seqR (visitList RVideo video_info 0 (def_videos def))
   (seqR (visitList RController ctrl_info 0 (def_controllers def))
   (seqR (visitList RSmartcard smartcard_info 0 (def_smartcards def))
   (seqR (visitList RSerial chr_info 0 (def_serials def))
   (seqR (visitList RParallel chr_info 0 (def_parallels def))
   (seqR (visitList RChannel chr_info 0 (def_channels def))
   (seqR (visitConsoles def all 0 (def_consoles def))
   (seqR (visitList RInput input_info 0 (def_inputs def))
   (seqR (visitList RFS fs_info 0 (def_fss def))
   (seqR (visitOpt RWatchdog watchdog_info (def_watchdog def))
   (seqR (visitOpt RMemballoon memballoon_info (def_memballoon def))
   (seqR (visitOpt RRNG rng_info (def_rng def))
         (visitList RHub hub_info 0 (def_hubs def))))))))))))))))) in
  (if fst r then 0 else -1, snd r).

(** The same loop body run over an explicit list of devices. *)
Fixpoint walkR (l : list (DevRef * virDomainDeviceInfo)) : res :=
  match l with
  | [] => (true, [])
  | (r, info) :: l' => visit r info (walkR l')
  end.

End Visit.

(** The order stated by the specification: every entry of the device
    lists, in the order disks, network interfaces, sound, host devices,
    video, controllers, smartcards, serial, parallel, channel, console,
    input, filesystem, watchdog, memory balloon, RNG, hub; the first
    console is left out when [all] is false, its target type is serial
    or unset and the OS type is "hvm". *)
Definition indexed {A} (mk : nat -> DevRef) (info : A -> virDomainDeviceInfo)
  (xs : list A) : list (DevRef * virDomainDeviceInfo) :=
  combine (map mk (seq 0 (List.length xs))) (map info xs).

Definition specConsoles (def : virDomainDef) (all : bool)
  : list (DevRef * virDomainDeviceInfo) :=
  match def_consoles def with
  | c :: rest =>
      if negb all && ((chr_targetType c =? 1) || (chr_targetType c =? 0))
         && (match def_os_type def with
             | Some t => String.eqb t "hvm"
             | None => false end)
      then combine (map RConsole (seq 1 (List.length rest))) (map chr_info rest)
      else indexed RConsole chr_info (def_consoles def)
  | [] => []
  end.

Definition specOpt {A} (r : DevRef) (info : A -> virDomainDeviceInfo)
  (o : option A) : list (DevRef * virDomainDeviceInfo) :=
  match o with None => [] | Some x => [(r, info x)] end.

Definition specOrder (def : virDomainDef) (all : bool)
  : list (DevRef * virDomainDeviceInfo) :=
  indexed RDisk disk_info (def_disks def) ++
  indexed RNet net_info (def_nets def) ++
  indexed RSound sound_info (def_sounds def) ++
  indexed RHostdev hostdev_info (def_hostdevs def) ++
  indexed RVideo video_info (def_videos def) ++
  indexed RController ctrl_info (def_controllers def) ++
  indexed RSmartcard smartcard_info (def_smartcards def) ++
  indexed RSerial chr_info (def_serials def) ++
  indexed RParallel chr_info (def_parallels def) ++
  indexed RChannel chr_info (def_channels def) ++
  specConsoles def all ++
  indexed RInput input_info (def_inputs def) ++
  indexed RFS fs_info (def_fss def) ++
  specOpt RWatchdog watchdog_info (def_watchdog def) ++
  specOpt RMemballoon memballoon_info (def_memballoon def) ++
  specOpt RRNG rng_info (def_rng def) ++
  indexed RHub hub_info (def_hubs def).

(** Visiting a list and stopping at the first callback error: -1 and
    the events up to and including the failing call. *)
Fixpoint walk {E} (cb : DevRef -> virDomainDeviceInfo -> Z * list E)
  (l : list (DevRef * virDomainDeviceInfo)) : Z * list E :=
  match l with
  | [] => (0, [])
  | (r, info) :: l' =>
      let (ret, ev) := cb r info in
      if ret <? 0 then (-1, ev)
      else let (ret', ev') := walk cb l' in (ret', ev ++ ev')
  end.

(** Which device list a [DevRef] points into, in traversal order. *)
Definition devKind (r : DevRef) : nat :=
  match r with
  | RDisk _ => 0 | RNet _ => 1 | RSound _ => 2 | RHostdev _ => 3
  | RVideo _ => 4 | RController _ => 5 | RSmartcard _ => 6
  | RSerial _ => 7 | RParallel _ => 8 | RChannel _ => 9 | RConsole _ => 10
  | RInput _ => 11 | RFS _ => 12 | RWatchdog => 13 | RMemballoon => 14
  | RRNG => 15 | RHub _ => 16
  end.

(** The device whose embedded [virDomainDeviceInfo] the info pointer
    passed with [r] designates: its own, except for a host device
    embedded in a network interface, whose [info] is [&net->info]. *)
Definition infoOwner (def : virDomainDef) (r : DevRef) : DevRef :=
  match r with
  | RHostdev i =>
      match nth_error (def_hostdevs def) i with
      | Some h => match hostdev_parent_net h with Some j => RNet j | None => r end
      | None => r
      end
  | _ => r
  end.

(** A definition with one interface and one host device; with
    [parent = Some 0] the host device is the one embedded in the
    interface, as [virDomainDefParseXML] inserts it for
    <interface type='hostdev'>. *)
Definition netHostdevDef (parent : option nat) : virDomainDef :=
  {| def_virtType := 2; def_id := -1; def_uuid := [];
     def_max_balloon := 0; def_cur_balloon := 0; def_hugepage_backed := false;
     def_vcpus := 1; def_maxvcpus := 1; def_os_type := Some "hvm"%string;
     def_os_arch := 0; def_os_machine := None; def_os_smbios_mode := 0;
     def_os_init := None; def_features := 0; def_timers := []; def_cpu := None;
     def_sysinfo := None; def_disks := []; def_controllers := []; def_fss := [];
     def_nets := [mkNet [] None (mkInfo None AddrNone 0)];
     def_inputs := []; def_sounds := []; def_videos := [];
     def_hostdevs := [mkHostdev 1 0 (mkInfo None AddrNone 0) parent];
     def_smartcards := []; def_serials := []; def_parallels := [];
     def_channels := []; def_consoles := []; def_hubs := []; def_redirdevs := [];
     def_redirfilter := None; def_watchdog := None; def_memballoon := None;
     def_rng := None |}.

(** A stretch of the order: no repetition, all from one device list. *)
Definition seg_ok (S : list DevRef) (k : nat) : Prop :=
  NoDup S /\ Forall (fun r => devKind r = k) S.

End Iterate.
(** ** Post-parse phase (virDomainDefPostParse) *)

Module PostParse.
Import Iterate.

(** What runs during the phase, in the order it runs. *)
Inductive Event :=
| EvDomainCb                  (* xmlopt->config.domainPostParseCallback *)
| EvDeviceCb (r : DevRef)     (* xmlopt->config.devicesPostParseCallback *)
| EvDeviceInternal (r : DevRef) (* virDomainDeviceDefPostParseInternal *)
| EvDefInternal.              (* virDomainDefPostParseInternal *)

(** The driver hooks of [virDomainXMLOption]: the domain callback
    returns its [int] and the definition it leaves behind; the device
    callback returns its [int] (changes it makes to the device are not
    tracked). *)
Record virDomainDefParserConfig := mkParserConfig {
  domainPostParseCallback : option (virDomainDef -> Z * virDomainDef);
  devicesPostParseCallback : option (DevRef -> virDomainDef -> Z);
}.

Definition virDomainXMLOption := option virDomainDefParserConfig.

Definition domainCb (xmlopt : virDomainXMLOption) :=
  match xmlopt with Some c => domainPostParseCallback c | None => None end.

Definition devicesCb (xmlopt : virDomainXMLOption) :=
  match xmlopt with Some c => devicesPostParseCallback c | None => None end.

(** [virDomainDeviceDefPostParse]: the driver callback, then the
    built-in device pass (which always returns 0). *)
Definition virDomainDeviceDefPostParse (xmlopt : virDomainXMLOption)
  (def : virDomainDef) (r : DevRef) : Z * list Event :=
  match devicesCb xmlopt with
  | Some g =>
      let ret := g r def in
      if ret <? 0 then (ret, [EvDeviceCb r])
      else (0, [EvDeviceCb r; EvDeviceInternal r])
  | None => (0, [EvDeviceInternal r])
  end.

(** The effect of the built-in device pass on consoles (every entry of
    [def->consoles] is parsed from a <console> element and so has device
    type CONSOLE): target type NONE becomes SERIAL. *)
Definition consoleFix (c : virDomainChrDef) : virDomainChrDef :=
  if chr_targetType c =? VIR_DOMAIN_CHR_CONSOLE_TARGET_TYPE_NONE then
    mkChr VIR_DOMAIN_CHR_CONSOLE_TARGET_TYPE_SERIAL (chr_target_port c)
      (chr_target_name c) (chr_target_addr c) (chr_source_type c) (chr_info c)
  else c.

Definition setConsoles (d : virDomainDef) (cs : list virDomainChrDef) : virDomainDef :=
  {| def_virtType := def_virtType d; def_id := def_id d; def_uuid := def_uuid d;
     def_max_balloon := def_max_balloon d; def_cur_balloon := def_cur_balloon d;
     def_hugepage_backed := def_hugepage_backed d; def_vcpus := def_vcpus d;
     def_maxvcpus := def_maxvcpus d; def_os_type := def_os_type d;
     def_os_arch := def_os_arch d; def_os_machine := def_os_machine d;
     def_os_smbios_mode := def_os_smbios_mode d; def_os_init := def_os_init d;
     def_features := def_features d; def_timers := def_timers d;
     def_cpu := def_cpu d; def_sysinfo := def_sysinfo d;
     def_disks := def_disks d; def_controllers := def_controllers d;
     def_fss := def_fss d; def_nets := def_nets d; def_inputs := def_inputs d;
     def_sounds := def_sounds d; def_videos := def_videos d;
     def_hostdevs := def_hostdevs d; def_smartcards := def_smartcards d;
     def_serials := def_serials d; def_parallels := def_parallels d;
     def_channels := def_channels d; def_consoles := cs;
     def_hubs := def_hubs d; def_redirdevs := def_redirdevs d;
     def_redirfilter := def_redirfilter d; def_watchdog := def_watchdog d;
     def_memballoon := def_memballoon d; def_rng := def_rng d |}.

(** [virDomainDefPostParseInternal], as far as its result goes: the
    init-path check for "exe" guests and the serial-console check for
    "hvm" guests ([STREQ] on a NULL [os.type] gives [None]; the
    rearrangement of serials and consoles is not tracked). *)
Definition virDomainDefPostParseInternal (def : virDomainDef) : option Z :=
  match STRNEQ (def_os_type def) (Some "exe"%string),
        STRNEQ (def_os_type def) (Some "hvm"%string) with
  | Some neq_exe, Some neq_hvm =>
      if negb neq_exe && match def_os_init def with None => true | _ => false end
      then Some (-1)
      else match def_consoles def with
           | c :: rest =>
               if negb neq_hvm &&
                  ((chr_targetType c =? VIR_DOMAIN_CHR_CONSOLE_TARGET_TYPE_SERIAL) ||
                   (chr_targetType c =? VIR_DOMAIN_CHR_CONSOLE_TARGET_TYPE_NONE)) &&
                  existsb (fun c' => chr_targetType c' =? VIR_DOMAIN_CHR_CONSOLE_TARGET_TYPE_SERIAL) rest
               then Some (-1) else Some 0
           | [] => Some 0
           end
  | _, _ => None
  end.

(** [virDomainDefPostParseDeviceIterator] *)
Definition virDomainDefPostParseDeviceIterator (xmlopt : virDomainXMLOption)
  (def : virDomainDef) (r : DevRef) (_ : virDomainDeviceInfo) : Z * list Event :=
  virDomainDeviceDefPostParse xmlopt def r.

(** [virDomainDefPostParse]: return value and the trace of what ran. *)
Definition virDomainDefPostParse (def : virDomainDef) (xmlopt : virDomainXMLOption)
  : option (Z * list Event) :=
  let stage2 (def1 : virDomainDef) (pre : list Event) :=
    let (ret, ev) := virDomainDeviceInfoIterateInternal
                       (virDomainDefPostParseDeviceIterator xmlopt def1) def1 true in
    if ret <? 0 then Some (ret, pre ++ ev)
    else
      match virDomainDefPostParseInternal
              (setConsoles def1 (map consoleFix (def_consoles def1))) with
      | None => None
      | Some r => Some (if r <? 0 then r else 0, pre ++ ev ++ [EvDefInternal])
      end in
  match domainCb xmlopt with
  | Some f =>
      let (ret, def1) := f def in
      if ret <? 0 then Some (ret, [EvDomainCb]) else stage2 def1 [EvDomainCb]
  | None => stage2 def []
  end.

(** A definition with one console and a configuration whose two
    driver callbacks accept everything. *)
Definition console0 : virDomainChrDef :=
  mkChr VIR_DOMAIN_CHR_CONSOLE_TARGET_TYPE_SERIAL 0 None [] 0 (mkInfo None AddrNone 0).

Definition acceptAll : virDomainXMLOption :=
  Some (mkParserConfig (Some (fun d => (0, d))) (Some (fun _ _ => 0))).

(** A configuration whose device callback rejects consoles. *)
Definition keepDef (d : virDomainDef) : Z * virDomainDef := (0, d).

Definition rejectConsolesCb (r : DevRef) (_ : virDomainDef) : Z :=
  match r with RConsole _ => -1 | _ => 0 end.

Definition rejectConsoles : virDomainXMLOption :=
  Some (mkParserConfig (Some keepDef) (Some rejectConsolesCb)).

(** The events of one device whose driver callback succeeds. *)
Definition devEvents (r : DevRef) : list Event := [EvDeviceCb r; EvDeviceInternal r].

End PostParse.
(** ** Disk device category and target name (virDomainDiskDefParseXML) *)

Module DiskParse.

Definition VIR_DOMAIN_DISK_DEVICE_DISK := 0.
Definition VIR_DOMAIN_DISK_DEVICE_CDROM := 1.
Definition VIR_DOMAIN_DISK_DEVICE_FLOPPY := 2.
Definition VIR_DOMAIN_DISK_DEVICE_LUN := 3.

(** [VIR_ENUM_IMPL(virDomainDiskDevice, ..., "disk", "cdrom", "floppy", "lun")] *)
Definition virDomainDiskDeviceTypeFromString (s : string) : Z :=
  if String.eqb s "disk" then 0
  else if String.eqb s "cdrom" then 1
  else if String.eqb s "floppy" then 2
  else if String.eqb s "lun" then 3
  else -1.

(** [STRPREFIX(a, b)]: [strncmp(a, b, strlen(b)) == 0]. *)
Definition STRPREFIX (a b : string) : bool := String.prefix b a.

(** [def->device] as set from the [device] attribute. *)
Definition diskDevice (device : option string) : Z :=
  match device with
  | Some d => virDomainDiskDeviceTypeFromString d
  | None => VIR_DOMAIN_DISK_DEVICE_DISK
  end.

(** The checks of [virDomainDiskDefParseXML] between reading the
    [device] attribute and the snapshot setting. [source_present] stands
    for [source != NULL || hosts != NULL || def->srcpool]; [target] is the
    [dev] attribute of <target>. The result is [def->device], the target
    and [def->readonly], or [None] for [goto error]. *)
Definition virDomainDiskDefParseTarget (device : option string)
  (source_present : bool) (target : option string) (readonly : bool)
  : option (Z * string * bool) :=
  let dev := diskDevice device in
  if dev <? 0 then None
  else if negb source_present &&
          negb (dev =? VIR_DOMAIN_DISK_DEVICE_CDROM) &&
          negb (dev =? VIR_DOMAIN_DISK_DEVICE_FLOPPY) then None
  else match target with
  | None => None
  | Some t =>
      if (dev =? VIR_DOMAIN_DISK_DEVICE_FLOPPY) && negb (STRPREFIX t "fd") then None
      else
        let ro := if dev =? VIR_DOMAIN_DISK_DEVICE_CDROM then true else readonly in
        if ((dev =? VIR_DOMAIN_DISK_DEVICE_DISK) || (dev =? VIR_DOMAIN_DISK_DEVICE_LUN)) &&
           negb (STRPREFIX t "hd") && negb (STRPREFIX t "sd") &&
           negb (STRPREFIX t "vd") && negb (STRPREFIX t "xvd") &&
           negb (STRPREFIX t "ubd")
        then None
        else Some (dev, t, ro)
  end.

Definition harddiskPrefixes : list string := ["hd"; "sd"; "vd"; "xvd"; "ubd"]%string.

End DiskParse.
(** ** Single-instance devices and the primary video (virDomainDefParseXML) *)

Module Singletons.

Definition VIR_DOMAIN_VIRT_QEMU := 0.
Definition VIR_DOMAIN_VIRT_KQEMU := 1.
Definition VIR_DOMAIN_VIRT_KVM := 2.
Definition VIR_DOMAIN_VIRT_XEN := 3.
Definition VIR_DOMAIN_MEMBALLOON_MODEL_VIRTIO := 0.
Definition VIR_DOMAIN_MEMBALLOON_MODEL_XEN := 1.

(** A zero-filled [virDomainDeviceInfo], as [VIR_ALLOC] leaves it. *)
Definition info0 : virDomainDeviceInfo := mkInfo None AddrNone 0.

(** The devices produced by this stretch of the parser. *)
Record parsedDevices := mkParsed {
  p_videos : list virDomainVideoDef;
  p_watchdog : option virDomainWatchdogDef;
  p_memballoon : option virDomainMemballoonDef;
  p_rng : option virDomainRNGDef;
  p_redirfilter : option virDomainRedirFilterDef;
}.

Section Parse.

(** XML nodes and the per-element parsers are collaborators. *)
Variable xmlNode : Type.
Variable virDomainVideoDefParseXML : xmlNode -> option virDomainVideoDef.
Variable virDomainWatchdogDefParseXML : xmlNode -> option virDomainWatchdogDef.
Variable virDomainMemballoonDefParseXML : xmlNode -> option virDomainMemballoonDef.
Variable virDomainRNGDefParseXML : xmlNode -> option virDomainRNGDef.
Variable virDomainRedirFilterDefParseXML : xmlNode -> option virDomainRedirFilterDef.
(** [virDomainVideoDefaultType(def)] and [virDomainVideoDefaultRAM(def, type)]. *)
Variable videoDefaultType : Z.
Variable videoDefaultRAM : Z -> Z.

(** The video loop: a primary video goes to index 0
    ([VIR_INSERT_ELEMENT_INPLACE] at [ii = 0]), any other one at the end;
    a second primary video is an error. *)
Fixpoint videoLoop (primaryVideo : bool) (videos : list virDomainVideoDef)
  (nodes : list xmlNode) : option (list virDomainVideoDef) :=
  match nodes with
  | [] => Some videos
  | n :: ns =>
      match virDomainVideoDefParseXML n with
      | None => None
      | Some video =>
          if video_primary video then
            if primaryVideo then None
            else videoLoop true (video :: videos) ns
          else videoLoop primaryVideo (videos ++ [video]) ns
      end
  end.

(** The compatibility video added when there is <graphics> but no <video>. *)
Definition compatVideo (ngraphics : nat) (videos : list virDomainVideoDef)
  : option (list virDomainVideoDef) :=
  match ngraphics, videos with
  | S _, [] =>
      if videoDefaultType <? 0 then None
      else Some [mkVideo videoDefaultType (videoDefaultRAM videoDefaultType) 1 None false info0]
  | _, _ => Some videos
  end.

(** [n > 1] is an error, [n == 1] parses [nodes[0]]. *)
Definition atMostOne {A} (parse : xmlNode -> option A) (nodes : list xmlNode)
  : option (option A) :=
  match nodes with
  | [] => Some None
  | [n] => match parse n with Some x => Some (Some x) | None => None end
  | _ => None
  end.

(** The memory balloon, with the default one for xen/qemu/kqemu/kvm. *)
Definition parseMemballoon (virtType : Z) (nodes : list xmlNode)
  : option (option virDomainMemballoonDef) :=
  match nodes with
  | [] =>
      if (virtType =? VIR_DOMAIN_VIRT_XEN) || (virtType =? VIR_DOMAIN_VIRT_QEMU) ||
         (virtType =? VIR_DOMAIN_VIRT_KQEMU) || (virtType =? VIR_DOMAIN_VIRT_KVM)
      then Some (Some (mkMemballoon
                   (if virtType =? VIR_DOMAIN_VIRT_XEN
                    then VIR_DOMAIN_MEMBALLOON_MODEL_XEN
                    else VIR_DOMAIN_MEMBALLOON_MODEL_VIRTIO) info0))
      else Some None
  | _ => atMostOne virDomainMemballoonDefParseXML nodes
  end.

(** Videos, (host devices), watchdog, memory balloon, RNG, (hubs,
    redirected devices), redirection filter, in the order of
    [virDomainDefParseXML]; the sections in parentheses neither read nor
    write these fields and are left out. *)
Definition parseSingletons (virtType : Z) (ngraphics : nat)
  (videoNodes watchdogNodes memballoonNodes rngNodes redirfilterNodes : list xmlNode)
  : option parsedDevices :=
  match videoLoop false [] videoNodes with
  | None => None
  | Some vs =>
  match compatVideo ngraphics vs with
  | None => None
  | Some videos =>
  match atMostOne virDomainWatchdogDefParseXML watchdogNodes with
  | None => None
  | Some watchdog =>
  match parseMemballoon virtType memballoonNodes with
  | None => None
  | Some memballoon =>
  match atMostOne virDomainRNGDefParseXML rngNodes with
  | None => None
  | Some rng =>
  match atMostOne virDomainRedirFilterDefParseXML redirfilterNodes with
  | None => None
  | Some redirfilter => Some (mkParsed videos watchdog memballoon rng redirfilter)
  end end end end end end.

(** Nodes whose video parses as primary. *)
Definition primaryNodes (nodes : list xmlNode) : list xmlNode :=
  filter (fun n => match virDomainVideoDefParseXML n with
                   | Some v => video_primary v | None => false end) nodes.

End Parse.

Definition countPrimary (videos : list virDomainVideoDef) : nat :=
  List.length (filter video_primary videos).

(** Sample element parsers: node 0 is a primary video. *)
Definition sampleVideo (n : nat) : option virDomainVideoDef :=
  Some (mkVideo 0 0 1 None (Nat.eqb n 0) info0).
Definition sampleWatchdog (_ : nat) : option virDomainWatchdogDef := Some (mkWatchdog 0 info0).
Definition sampleMemballoon (_ : nat) : option virDomainMemballoonDef :=
  Some (mkMemballoon 0 info0).
Definition sampleRNG (_ : nat) : option virDomainRNGDef := Some (mkRNG 0 info0).
Definition sampleRedirFilter (_ : nat) : option virDomainRedirFilterDef :=
  Some (mkRedirFilter []).

End Singletons.
(** ** Formatter flags and header (virDomainDefFormat) *)

Module Format.

(** [virDomainXMLInternalFlags] *)
Definition VIR_DOMAIN_XML_INTERNAL_STATUS := Z.shiftl 1 16.
Definition VIR_DOMAIN_XML_INTERNAL_ACTUAL_NET := Z.shiftl 1 17.
Definition VIR_DOMAIN_XML_INTERNAL_PCI_ORIG_STATES := Z.shiftl 1 18.

Definition INTERNAL_FLAGS :=
  Z.lor (Z.lor VIR_DOMAIN_XML_INTERNAL_STATUS VIR_DOMAIN_XML_INTERNAL_ACTUAL_NET)
        VIR_DOMAIN_XML_INTERNAL_PCI_ORIG_STATES.

(** [VIR_ENUM_IMPL(virDomainVirt, ...)] *)
Definition virDomainVirtTypeToString (t : Z) : option string :=
  if t <? 0 then None
  else nth_error ["qemu"; "kqemu"; "kvm"; "xen"; "lxc"; "uml"; "openvz"; "test";
                  "vmware"; "hyperv"; "vbox"; "phyp"; "parallels"]%string (Z.to_nat t).

(** [%d] *)
Fixpoint digits (fuel : nat) (n : Z) (acc : string) : string :=
  match fuel with
  | O => acc
  | S fuel' =>
      let acc' := String (Ascii.ascii_of_nat (48 + Z.to_nat (n mod 10))) acc in
      if n <? 10 then acc' else digits fuel' (n / 10) acc'
  end.

Definition string_of_Z (z : Z) : string :=
  if z <? 0 then String (Ascii.ascii_of_nat 45) (digits 20 (- z) EmptyString) else digits 20 z EmptyString.

Definition nl : string := String (Ascii.ascii_of_nat 10) EmptyString.

(** [virCheckFlags(supported, retval)]: whether no unsupported bit is set. *)
Definition virCheckFlags (supported flags : Z) : bool :=
  Z.land flags (Z.lnot supported) =? 0.

Section Formatter.

(** The public [virDomainXMLFlags] come from the public header. *)
Variables VIR_DOMAIN_XML_SECURE VIR_DOMAIN_XML_INACTIVE
          VIR_DOMAIN_XML_UPDATE_CPU VIR_DOMAIN_XML_MIGRATABLE : Z.

Definition DUMPXML_FLAGS :=
  Z.lor (Z.lor (Z.lor VIR_DOMAIN_XML_SECURE VIR_DOMAIN_XML_INACTIVE)
               VIR_DOMAIN_XML_UPDATE_CPU) VIR_DOMAIN_XML_MIGRATABLE.

(** The namespace attribute of [def->ns.href] and everything the
    formatter writes after the opening tag (from <name> on), both driven
    by the definition and the flags, are collaborators here. *)
Variable nsAttr : virDomainDef -> string.
Variable formatBody : virDomainDef -> Z -> option string.

(** [virDomainDefFormatInternal]: [None] for -1. *)
Definition virDomainDefFormatInternal (def : virDomainDef) (flags : Z) : option string :=
  if negb (virCheckFlags (Z.lor DUMPXML_FLAGS INTERNAL_FLAGS) flags) then None
  else
    match virDomainVirtTypeToString (def_virtType def) with
    | None => None
    | Some type =>
        let flags := if def_id def =? -1 then Z.lor flags VIR_DOMAIN_XML_INACTIVE else flags in
        let header :=
          ("<domain type='" ++ type ++ "'" ++
           (if (Z.land flags VIR_DOMAIN_XML_INACTIVE =? 0)%Z
            then " id='" ++ string_of_Z (def_id def) ++ "'" else "") ++
           nsAttr def ++ ">" ++ nl)%string in
        match formatBody def flags with
        | None => None
        | Some body => Some (header ++ body)%string
        end
    end.

(** [virDomainDefFormat]: [None] for NULL. *)
Definition virDomainDefFormat (def : virDomainDef) (flags : Z) : option string :=
  if negb (virCheckFlags DUMPXML_FLAGS flags) then None
  else virDomainDefFormatInternal def flags.

(** The opening tag written for an inactive projection. *)
Definition inactiveHeader (def : virDomainDef) (type : string) : string :=
  ("<domain type='" ++ type ++ "'" ++ nsAttr def ++ ">" ++ nl)%string.

End Formatter.

(** Sample collaborators: no namespace, and a body that only says
    whether the inactive flag (2 in the public header) is set. *)
Definition noNs (_ : virDomainDef) : string := EmptyString.
Definition sampleBody (_ : virDomainDef) (flags : Z) : option string :=
  Some (if (Z.land flags 2 =? 0)%Z then "live" else "inactive")%string.

End Format.

(** ** Enumeration tables ([VIR_ENUM_IMPL]) *)

Module Enum.

(** [virEnumToString]: the name at index [type], NULL out of range. *)
Definition virEnumToString (types : list string) (type : Z) : option string :=
  if type <? 0 then None else nth_error types (Z.to_nat type).

Fixpoint enumIndex (types : list string) (type : string) (i : Z) : Z :=
  match types with
  | [] => -1
  | t :: ts => if String.eqb t type then i else enumIndex ts type (i + 1)
  end.

(** [virEnumFromString]: the first index whose name is [type]; -1 for a
    NULL or unknown name. *)
Definition virEnumFromString (types : list string) (type : option string) : Z :=
  match type with
  | None => -1
  | Some s => enumIndex types s 0
  end.

End Enum.

(** ** Domain object state and the status XML (virDomainObjSetState, virDomainObjFormat) *)

Module Status.
Import Enum.

Definition VIR_DOMAIN_NOSTATE := 0.
Definition VIR_DOMAIN_RUNNING := 1.
Definition VIR_DOMAIN_BLOCKED := 2.
Definition VIR_DOMAIN_PAUSED := 3.
Definition VIR_DOMAIN_SHUTDOWN := 4.
Definition VIR_DOMAIN_SHUTOFF := 5.
Definition VIR_DOMAIN_CRASHED := 6.
Definition VIR_DOMAIN_PMSUSPENDED := 7.
Definition VIR_DOMAIN_LAST := 8.

Definition virDomainStateList : list string :=
  ["nostate"; "running"; "blocked"; "paused"; "shutdown"; "shutoff";
   "crashed"; "pmsuspended"]%string.
Definition virDomainNostateReasonList : list string := ["unknown"]%string.
Definition virDomainRunningReasonList : list string :=
  ["unknown"; "booted"; "migrated"; "restored"; "from snapshot"; "unpaused";
   "migration canceled"; "save canceled"; "wakeup"]%string.
Definition virDomainBlockedReasonList : list string := ["unknown"]%string.
Definition virDomainPausedReasonList : list string :=
  ["unknown"; "user"; "migration"; "save"; "dump"; "ioerror"; "watchdog";
   "from snapshot"; "shutdown"; "snapshot"]%string.
Definition virDomainShutdownReasonList : list string := ["unknown"; "user"]%string.
Definition virDomainShutoffReasonList : list string :=
  ["unknown"; "shutdown"; "destroyed"; "crashed"; "migrated"; "saved"; "failed";
   "from snapshot"]%string.
Definition virDomainCrashedReasonList : list string := ["unknown"]%string.
Definition virDomainPMSuspendedReasonList : list string := ["unknown"]%string.
Definition virDomainTaintList : list string :=
  ["custom-argv"; "custom-monitor"; "high-privileges"; "shell-scripts";
   "disk-probing"; "external-launch"; "host-cpu"]%string.

(** [VIR_DOMAIN_*_LAST]; [VIR_ENUM_IMPL] checks at compile time that each
    is the size of its table. *)
Definition VIR_DOMAIN_NOSTATE_LAST := 1.
Definition VIR_DOMAIN_RUNNING_LAST := 9.
Definition VIR_DOMAIN_BLOCKED_LAST := 1.
Definition VIR_DOMAIN_PAUSED_LAST := 10.
Definition VIR_DOMAIN_SHUTDOWN_LAST := 2.
Definition VIR_DOMAIN_SHUTOFF_LAST := 8.
Definition VIR_DOMAIN_CRASHED_LAST := 1.
Definition VIR_DOMAIN_PMSUSPENDED_LAST := 1.
Definition VIR_DOMAIN_TAINT_LAST := 7.
Definition VIR_DOMAIN_SHUTOFF_UNKNOWN := 0.

Definition virDomainStateTypeToString := virEnumToString virDomainStateList.
Definition virDomainStateTypeFromString := virEnumFromString virDomainStateList.
Definition virDomainTaintTypeToString := virEnumToString virDomainTaintList.
Definition virDomainTaintTypeFromString := virEnumFromString virDomainTaintList.

(** The reason table the switches of [virDomainStateReasonToString] and
    [virDomainStateReasonFromString] dispatch to; [None] for
    [VIR_DOMAIN_LAST] and any other value. *)
Definition reasonTable (state : Z) : option (list string) :=
  if state =? VIR_DOMAIN_NOSTATE then Some virDomainNostateReasonList
  else if state =? VIR_DOMAIN_RUNNING then Some virDomainRunningReasonList
  else if state =? VIR_DOMAIN_BLOCKED then Some virDomainBlockedReasonList
  else if state =? VIR_DOMAIN_PAUSED then Some virDomainPausedReasonList
  else if state =? VIR_DOMAIN_SHUTDOWN then Some virDomainShutdownReasonList
  else if state =? VIR_DOMAIN_SHUTOFF then Some virDomainShutoffReasonList
  else if state =? VIR_DOMAIN_CRASHED then Some virDomainCrashedReasonList
  else if state =? VIR_DOMAIN_PMSUSPENDED then Some virDomainPMSuspendedReasonList
  else None.

Definition virDomainStateReasonToString (state reason : Z) : option string :=
  match reasonTable state with
  | Some types => virEnumToString types reason
  | None => None
  end.

Definition virDomainStateReasonFromString (state : Z) (reason : option string) : Z :=
  match reasonTable state with
  | Some types => virEnumFromString types reason
  | None => -1
  end.

(** [dom->state.state], [dom->state.reason] and [dom->taint]. *)
Record virDomainObj := mkObj {
  obj_state : Z;
  obj_reason : Z;
  obj_taint : Z;
}.

Definition virDomainObjGetState (dom : virDomainObj) : Z * Z :=
  (obj_state dom, obj_reason dom).

(** The [last] of the switch in [virDomainObjSetState]. *)
Definition stateReasonLast (state : Z) : Z :=
  if state =? VIR_DOMAIN_NOSTATE then VIR_DOMAIN_NOSTATE_LAST
  else if state =? VIR_DOMAIN_RUNNING then VIR_DOMAIN_RUNNING_LAST
  else if state =? VIR_DOMAIN_BLOCKED then VIR_DOMAIN_BLOCKED_LAST
  else if state =? VIR_DOMAIN_PAUSED then VIR_DOMAIN_PAUSED_LAST
  else if state =? VIR_DOMAIN_SHUTDOWN then VIR_DOMAIN_SHUTDOWN_LAST
  else if state =? VIR_DOMAIN_SHUTOFF then VIR_DOMAIN_SHUTOFF_LAST
  else if state =? VIR_DOMAIN_CRASHED then VIR_DOMAIN_CRASHED_LAST
  else if state =? VIR_DOMAIN_PMSUSPENDED then VIR_DOMAIN_PMSUSPENDED_LAST
  else -1.

(** An invalid state is logged and ignored; a reason outside
    [1, last) is stored as 0. *)
Definition virDomainObjSetState (dom : virDomainObj) (state reason : Z) : virDomainObj :=
  let last := stateReasonLast state in
  if last <? 0 then dom
  else mkObj state (if (reason >? 0) && (reason <? last) then reason else 0)
             (obj_taint dom).

Definition virDomainObjTaint (obj : virDomainObj) (taint : Z) : bool * virDomainObj :=
  let flag := Z.shiftl 1 taint in
  if negb (Z.land (obj_taint obj) flag =? 0) then (false, obj)
  else (true, mkObj (obj_state obj) (obj_reason obj) (Z.lor (obj_taint obj) flag)).

(** [virDomainObjNew]: a zero-filled object, then shut off for an
    unknown reason. *)
Definition virDomainObjNew : virDomainObj :=
  virDomainObjSetState (mkObj 0 0 0) VIR_DOMAIN_SHUTOFF VIR_DOMAIN_SHUTOFF_UNKNOWN.

(** The status part of the [<domstatus>] document: the [state] and
    [reason] attribute values and the [flag] of each [<taint>] element. *)
Record statusXML := mkStatusXML {
  sx_state : option string;
  sx_reason : option string;
  sx_taints : list (option string);
}.

(** [virDomainObjFormat]: the [<domstatus state= reason=>] attributes
    and one [<taint flag=>] for each set bit below
    [VIR_DOMAIN_TAINT_LAST]. *)
Definition virDomainObjFormatStatus (obj : virDomainObj) : statusXML :=
  let (state, reason) := virDomainObjGetState obj in
  mkStatusXML (virDomainStateTypeToString state)
              (virDomainStateReasonToString state reason)
              (flat_map (fun i =>
                 if negb (Z.land (obj_taint obj) (Z.shiftl 1 (Z.of_nat i)) =? 0)
                 then [virDomainTaintTypeToString (Z.of_nat i)] else [])
                 (seq 0 (Z.to_nat VIR_DOMAIN_TAINT_LAST))).

(** [virXPathString]: an empty string reads as NULL. *)
Definition virXPathString (v : option string) : option string :=
  match v with
  | Some EmptyString => None
  | _ => v
  end.

(** The taint loop of [virDomainObjParseXML]: an element without [flag]
    is skipped, an unknown flag is an error. *)
Fixpoint parseTaints (obj : virDomainObj) (flags : list (option string))
  : option virDomainObj :=
  match flags with
  | [] => Some obj
  | None :: fs => parseTaints obj fs
  | Some str :: fs =>
      let flag := virDomainTaintTypeFromString (Some str) in
      if flag <? 0 then None
      else parseTaints (snd (virDomainObjTaint obj flag)) fs
  end.

(** The state, reason and taint part of [virDomainObjParseXML], on the
    object [virDomainObjNew] returns. *)
Definition virDomainObjParseStatus (x : statusXML) : option virDomainObj :=
  match virXPathString (sx_state x) with
  | None => None
  | Some tmp =>
      let state := virDomainStateTypeFromString (Some tmp) in
      if state <? 0 then None
      else
        let reason :=
          match virXPathString (sx_reason x) with
          | None => Some 0
          | Some tmp =>
              let r := virDomainStateReasonFromString state (Some tmp) in
              if r <? 0 then None else Some r
          end in
        match reason with
        | None => None
        | Some reason =>
            parseTaints (virDomainObjSetState virDomainObjNew state reason) (sx_taints x)
        end
  end.

(** An object whose state and reason name an entry of the tables. *)
Definition stateOk (obj : virDomainObj) : Prop :=
  0 <= obj_state obj < VIR_DOMAIN_LAST /\
  0 <= obj_reason obj < stateReasonLast (obj_state obj).

End Status.

(** ** Character device target types (virDomainChrTargetTypeFromString) *)

Module ChrTarget.
Import Enum.

Definition VIR_DOMAIN_CHR_DEVICE_TYPE_PARALLEL := 0.
Definition VIR_DOMAIN_CHR_DEVICE_TYPE_SERIAL := 1.
Definition VIR_DOMAIN_CHR_DEVICE_TYPE_CONSOLE := 2.
Definition VIR_DOMAIN_CHR_DEVICE_TYPE_CHANNEL := 3.
Definition VIR_DOMAIN_CHR_DEVICE_TYPE_LAST := 4.
Definition VIR_DOMAIN_CHR_CONSOLE_TARGET_TYPE_NONE := 0.
Definition VIR_DOMAIN_CHR_SERIAL_TARGET_TYPE_ISA := 0.

Definition virDomainChrSerialTargetList : list string := ["isa-serial"; "usb-serial"]%string.
Definition virDomainChrChannelTargetList : list string := ["none"; "guestfwd"; "virtio"]%string.
Definition virDomainChrConsoleTargetList : list string :=
  ["none"; "serial"; "xen"; "uml"; "virtio"; "lxc"; "openvz"; "sclp"; "sclplm"]%string.

Definition virDomainChrDefaultTargetType (devtype : Z) : Z :=
  if devtype =? VIR_DOMAIN_CHR_DEVICE_TYPE_CHANNEL then -1
  else if devtype =? VIR_DOMAIN_CHR_DEVICE_TYPE_CONSOLE then VIR_DOMAIN_CHR_CONSOLE_TARGET_TYPE_NONE
  else if devtype =? VIR_DOMAIN_CHR_DEVICE_TYPE_SERIAL then VIR_DOMAIN_CHR_SERIAL_TARGET_TYPE_ISA
  else 0.

(** The target type, and whether [def->targetTypeAttr] was set.  A
    [devtype] outside the enum matches no case and keeps [ret = -1]. *)
Definition virDomainChrTargetTypeFromString (devtype : Z) (targetType : option string)
  : Z * bool :=
  match targetType with
  | None => (virDomainChrDefaultTargetType devtype, false)
  | Some _ =>
      (if devtype =? VIR_DOMAIN_CHR_DEVICE_TYPE_CHANNEL
       then virEnumFromString virDomainChrChannelTargetList targetType
       else if devtype =? VIR_DOMAIN_CHR_DEVICE_TYPE_CONSOLE
       then virEnumFromString virDomainChrConsoleTargetList targetType
       else if devtype =? VIR_DOMAIN_CHR_DEVICE_TYPE_SERIAL
       then virEnumFromString virDomainChrSerialTargetList targetType
       else if (devtype =? VIR_DOMAIN_CHR_DEVICE_TYPE_PARALLEL) ||
               (devtype =? VIR_DOMAIN_CHR_DEVICE_TYPE_LAST)
       then 0
       else -1, true)
  end.

Definition virDomainChrTargetTypeToString (deviceType targetType : Z) : option string :=
  if deviceType =? VIR_DOMAIN_CHR_DEVICE_TYPE_CHANNEL
  then virEnumToString virDomainChrChannelTargetList targetType
  else if deviceType =? VIR_DOMAIN_CHR_DEVICE_TYPE_CONSOLE
  then virEnumToString virDomainChrConsoleTargetList targetType
  else if deviceType =? VIR_DOMAIN_CHR_DEVICE_TYPE_SERIAL
  then virEnumToString virDomainChrSerialTargetList targetType
  else None.

End ChrTarget.

(** A pointer tested for non-NULL. *)
Definition nonNull {A : Type} (p : option A) : bool :=
  match p with Some _ => true | None => false end.

(** ** Device lists (virDomainControllerInsertPreAlloced, virDomainDiskInsertPreAlloced) *)

Module DeviceLists.

Definition VIR_DOMAIN_CONTROLLER_TYPE_IDE := 0.
Definition VIR_DOMAIN_CONTROLLER_TYPE_FDC := 1.
Definition VIR_DOMAIN_CONTROLLER_TYPE_SCSI := 2.
Definition VIR_DOMAIN_CONTROLLER_TYPE_SATA := 3.
Definition VIR_DOMAIN_CONTROLLER_TYPE_VIRTIO_SERIAL := ABI.VIR_DOMAIN_CONTROLLER_TYPE_VIRTIO_SERIAL.
Definition VIR_DOMAIN_CONTROLLER_TYPE_CCID := 5.
Definition VIR_DOMAIN_CONTROLLER_TYPE_USB := 6.
Definition VIR_DOMAIN_CONTROLLER_MODEL_USB_NONE := 10.

Definition VIR_DOMAIN_DISK_BUS_IDE := 0.
Definition VIR_DOMAIN_DISK_BUS_FDC := 1.
Definition VIR_DOMAIN_DISK_BUS_SCSI := 2.
Definition VIR_DOMAIN_DISK_BUS_SATA := 7.

Definition VIR_DOMAIN_CHR_CHANNEL_TARGET_TYPE_VIRTIO := 2.
Definition VIR_DOMAIN_CHR_CONSOLE_TARGET_TYPE_VIRTIO := 4.

(** The conversion of an [unsigned int] field to [int]. *)
Definition uintToInt (x : Z) : Z := if x >=? 2 ^ 31 then x - 2 ^ 32 else x.

Section Insert.
Context {A : Type}.
(** The field that must match ([type], [bus]) and the one the entries
    are ordered by ([idx], the drive index of [dst]). *)
Variable group : A -> Z.
Variable key : A -> Z.

(** The backwards loop of the [*InsertPreAlloced] functions; [i] is the
    number of entries not yet visited. *)
Fixpoint insertAtScan (l : list A) (x : A) (i : nat) (insertAt : Z) : Z :=
  match i with
  | O => insertAt
  | S i' =>
      let insertAt' :=
        match nth_error l i' with
        | Some y =>
            if (group y =? group x) && (key y >? key x) then Z.of_nat i'
            else if (group y =? group x) && (insertAt =? -1) then Z.of_nat i' + 1
            else insertAt
        | None => insertAt
        end in
      insertAtScan l x i' insertAt'
  end.

(** Insertion into an array with room for one more entry; the entries
    from [insertAt] on move up by one ([memmove]). *)
Definition insertPreAlloced (l : list A) (x : A) : list A :=
  let insertAt := insertAtScan l x (List.length l) (-1) in
  let insertAt := if insertAt =? -1 then Z.of_nat (List.length l) else insertAt in
  firstn (Z.to_nat insertAt) l ++ x :: skipn (Z.to_nat insertAt) l.

(** Within each group, the entries are in increasing key order. *)
Definition groupSorted (l : list A) : Prop :=
  forall i j x y, (i < j)%nat -> nth_error l i = Some x -> nth_error l j = Some y ->
    group x = group y -> key x <= key y.

End Insert.

(** The [*Remove(def, i)] functions: the entry at [i] is returned and the
    ones after it move down; [None] for an [i] past the end, which reads
    outside the array. *)
Definition removeAt {A : Type} (l : list A) (i : nat) : option (A * list A) :=
  match nth_error l i with
  | None => None
  | Some x => Some (x, if 1 <? Z.of_nat (List.length l) then firstn i l ++ skipn (S i) l else [])
  end.

(** *** Controllers *)

Definition virDomainControllerInsertPreAlloced :
  list virDomainControllerDef -> virDomainControllerDef -> list virDomainControllerDef :=
  insertPreAlloced ctrl_type ctrl_idx.

Fixpoint controllerFindFrom (l : list virDomainControllerDef) (type idx i : Z) : Z :=
  match l with
  | [] => -1
  | c :: cs =>
      if (ctrl_type c =? type) && (ctrl_idx c =? idx) then i
      else controllerFindFrom cs type idx (i + 1)
  end.

Definition virDomainControllerFind (l : list virDomainControllerDef) (type idx : Z) : Z :=
  controllerFindFrom l type idx 0.

Definition virDomainControllerRemove (l : list virDomainControllerDef) (i : nat) :=
  removeAt l i.

(** [virDomainDefMaybeAddController] on [def->controllers]: a zero-filled
    controller of [type] and [idx] is appended unless one exists. *)
Definition virDomainDefMaybeAddController (l : list virDomainControllerDef) (type idx : Z)
  : list virDomainControllerDef :=
  if existsb (fun c => (ctrl_type c =? type) && (ctrl_idx c =? idx)) l then l
  else
    let vioserial := if type =? VIR_DOMAIN_CONTROLLER_TYPE_VIRTIO_SERIAL then -1 else 0 in
    l ++ [mkController type idx (-1) vioserial vioserial Singletons.info0].

(** The first loop of [virDomainDefAddDiskControllersForType]: the
    largest drive controller (as [int]) of the disks on [diskBus]. *)
Definition maxDriveController (disks : list virDomainDiskDef) (diskBus : Z) : Z :=
  fold_left (fun maxController d =>
    if negb (disk_bus d =? diskBus) then maxController
    else match info_addr (disk_info d) with
         | AddrDrive controller _ _ =>
             if uintToInt controller >? maxController then uintToInt controller
             else maxController
         | _ => maxController
         end) disks (-1).

Definition virDomainDefAddDiskControllersForType (disks : list virDomainDiskDef)
  (controllers : list virDomainControllerDef) (controllerType diskBus : Z)
  : list virDomainControllerDef :=
  fold_left (fun cs i => virDomainDefMaybeAddController cs controllerType (Z.of_nat i))
    (seq 0 (Z.to_nat (maxDriveController disks diskBus + 1))) controllers.

(** [virDomainDefMaybeAddVirtioSerialController]. *)
Definition vioserialIdx (chr : virDomainChrDef) : Z :=
  match info_addr (chr_info chr) with
  | AddrVirtioSerial controller _ _ => uintToInt controller
  | _ => 0
  end.

Definition virDomainDefMaybeAddVirtioSerialController (channels consoles : list virDomainChrDef)
  (controllers : list virDomainControllerDef) : list virDomainControllerDef :=
  let cs := fold_left (fun cs chr =>
      if chr_targetType chr =? VIR_DOMAIN_CHR_CHANNEL_TARGET_TYPE_VIRTIO
      then virDomainDefMaybeAddController cs VIR_DOMAIN_CONTROLLER_TYPE_VIRTIO_SERIAL
             (vioserialIdx chr)
      else cs) channels controllers in
  fold_left (fun cs chr =>
      if chr_targetType chr =? VIR_DOMAIN_CHR_CONSOLE_TARGET_TYPE_VIRTIO
      then virDomainDefMaybeAddController cs VIR_DOMAIN_CONTROLLER_TYPE_VIRTIO_SERIAL
             (vioserialIdx chr)
      else cs) consoles cs.

(** [virDomainDefMaybeAddSmartcardController]: the loop updates the
    smartcards in place, so the scan for the largest slot sees the
    slots given to earlier smartcards. *)
Definition maxCcidSlot (smartcards : list virDomainSmartcardDef) : Z :=
  fold_left (fun max sc =>
    match info_addr (smartcard_info sc) with
    | AddrCCID controller slot =>
        if (controller =? 0) && (uintToInt slot >? max) then uintToInt slot else max
    | _ => max
    end) smartcards (-1).

Fixpoint replaceNth {A : Type} (l : list A) (n : nat) (x : A) : list A :=
  match l, n with
  | [], _ => []
  | _ :: ys, O => x :: ys
  | y :: ys, S n' => y :: replaceNth ys n' x
  end.

Fixpoint smartcardLoop (i : nat) (n : nat) (smartcards : list virDomainSmartcardDef)
  (controllers : list virDomainControllerDef)
  : list virDomainSmartcardDef * list virDomainControllerDef :=
  match n with
  | O => (smartcards, controllers)
  | S n' =>
      match nth_error smartcards i with
      | None => (smartcards, controllers)
      | Some sc =>
          let info := smartcard_info sc in
          let '(idx, smartcards') :=
            match info_addr info with
            | AddrCCID controller _ => (uintToInt controller, smartcards)
            | AddrNone =>
                let max := maxCcidSlot smartcards in
                (0, replaceNth smartcards i
                      (mkSmartcard (mkInfo (info_alias info) (AddrCCID 0 (max + 1))
                                           (info_bootIndex info))))
            | _ => (0, smartcards)
            end in
          smartcardLoop (S i) n' smartcards'
            (virDomainDefMaybeAddController controllers VIR_DOMAIN_CONTROLLER_TYPE_CCID idx)
      end
  end.

Definition virDomainDefMaybeAddSmartcardController (smartcards : list virDomainSmartcardDef)
  (controllers : list virDomainControllerDef)
  : list virDomainSmartcardDef * list virDomainControllerDef :=
  smartcardLoop 0 (List.length smartcards) smartcards controllers.

(** [virDomainDefAddImplicitControllers], on the lists it reads and
    writes: the new controllers and smartcards. *)
Definition virDomainDefAddImplicitControllers (disks : list virDomainDiskDef)
  (channels consoles : list virDomainChrDef) (smartcards : list virDomainSmartcardDef)
  (controllers : list virDomainControllerDef)
  : list virDomainSmartcardDef * list virDomainControllerDef :=
  let cs := virDomainDefAddDiskControllersForType disks controllers
              VIR_DOMAIN_CONTROLLER_TYPE_SCSI VIR_DOMAIN_DISK_BUS_SCSI in
  let cs := virDomainDefAddDiskControllersForType disks cs
              VIR_DOMAIN_CONTROLLER_TYPE_FDC VIR_DOMAIN_DISK_BUS_FDC in
  let cs := virDomainDefAddDiskControllersForType disks cs
              VIR_DOMAIN_CONTROLLER_TYPE_IDE VIR_DOMAIN_DISK_BUS_IDE in
  let cs := virDomainDefAddDiskControllersForType disks cs
              VIR_DOMAIN_CONTROLLER_TYPE_SATA VIR_DOMAIN_DISK_BUS_SATA in
  let cs := virDomainDefMaybeAddVirtioSerialController channels consoles cs in
  virDomainDefMaybeAddSmartcardController smartcards cs.

(** *** Disks *)

Section Disks.
(** [virDiskNameToIndex] (util): the drive index of a target name such
    as [sdb], negative for a name it does not understand. *)
Variable virDiskNameToIndex : option string -> Z.

Definition diskIndex (d : virDomainDiskDef) : Z := virDiskNameToIndex (disk_dst d).

Definition virDomainDiskInsertPreAlloced :
  list virDomainDiskDef -> virDomainDiskDef -> list virDomainDiskDef :=
  insertPreAlloced disk_bus diskIndex.

Definition setDriveAddress (def : virDomainDiskDef) (controller bus unit : Z)
  : virDomainDiskDef :=
  mkDisk (disk_device def) (disk_bus def) (disk_dst def) (disk_serial def)
         (disk_readonly def) (disk_shared def)
         (mkInfo (info_alias (disk_info def)) (AddrDrive controller bus unit)
                 (info_bootIndex (disk_info def))).

(** [virDomainDiskDefAssignAddress]; [hasWideScsiBus] is the flag of the
    driver's XML options. [None] is the error return. *)
Definition virDomainDiskDefAssignAddress (hasWideScsiBus : bool) (def : virDomainDiskDef)
  : option virDomainDiskDef :=
  let idx := diskIndex def in
  if idx <? 0 then None
  else if disk_bus def =? VIR_DOMAIN_DISK_BUS_SCSI then
    if hasWideScsiBus then
      let unit := Z.rem idx 15 in
      Some (setDriveAddress def (Z.quot idx 15) 0 (if unit >=? 7 then unit + 1 else unit))
    else Some (setDriveAddress def (Z.quot idx 7) 0 (Z.rem idx 7))
  else if disk_bus def =? VIR_DOMAIN_DISK_BUS_IDE then
    Some (setDriveAddress def (Z.quot idx 4) (Z.quot (Z.rem idx 4) 2) (Z.rem idx 2))
  else if disk_bus def =? VIR_DOMAIN_DISK_BUS_SATA then
    Some (setDriveAddress def (Z.quot idx 6) 0 (Z.rem idx 6))
  else if disk_bus def =? VIR_DOMAIN_DISK_BUS_FDC then
    Some (setDriveAddress def (Z.quot idx 2) 0 (Z.rem idx 2))
  else Some def.

End Disks.

Section DiskNames.
(** The [src] field of a disk (not part of this model's disk record). *)
Variable disk_src : virDomainDiskDef -> option string.

Definition startsWithSlash (name : string) : bool :=
  match name with
  | String c _ => Ascii.eqb c "/"%char
  | EmptyString => false
  end.

(** [virDomainDiskIndexByName]; [None] when [STREQ] meets a NULL [dst]. *)
Fixpoint diskIndexByNameFrom (disks : list virDomainDiskDef) (name : string)
  (allow_ambiguous : bool) (i candidate : Z) : option Z :=
  match disks with
  | [] => Some candidate
  | vdisk :: rest =>
      if negb (startsWithSlash name) then
        match disk_dst vdisk with
        | None => None
        | Some dst =>
            if String.eqb dst name then Some i
            else diskIndexByNameFrom rest name allow_ambiguous (i + 1) candidate
        end
      else
        match disk_src vdisk with
        | Some src =>
            if String.eqb src name then
              if allow_ambiguous then Some i
              else if candidate >=? 0 then Some (-1)
              else diskIndexByNameFrom rest name allow_ambiguous (i + 1) i
            else diskIndexByNameFrom rest name allow_ambiguous (i + 1) candidate
        | None => diskIndexByNameFrom rest name allow_ambiguous (i + 1) candidate
        end
  end.

Definition virDomainDiskIndexByName (disks : list virDomainDiskDef) (name : string)
  (allow_ambiguous : bool) : option Z :=
  diskIndexByNameFrom disks name allow_ambiguous 0 (-1).

(** [virDomainDiskRemoveByName]: the removed disk (NULL when none) and
    the remaining list. *)
Definition virDomainDiskRemoveByName (disks : list virDomainDiskDef) (name : string)
  : option (option virDomainDiskDef * list virDomainDiskDef) :=
  match virDomainDiskIndexByName disks name false with
  | None => None
  | Some i =>
      if i <? 0 then Some (None, disks)
      else match removeAt disks (Z.to_nat i) with
           | None => None
           | Some (d, rest) => Some (Some d, rest)
           end
  end.

End DiskNames.

(** *** The device loops of [virDomainDefParseXML] *)

Section ParseLoops.
Variable xmlNode : Type.
Variable virDiskNameToIndex : option string -> Z.
Variable virDomainDiskDefParseXML : xmlNode -> option virDomainDiskDef.
Variable virDomainControllerDefParseXML : xmlNode -> option virDomainControllerDef.

Fixpoint diskLoop (nodes : list xmlNode) (disks : list virDomainDiskDef)
  : option (list virDomainDiskDef) :=
  match nodes with
  | [] => Some disks
  | n :: ns =>
      match virDomainDiskDefParseXML n with
      | None => None
      | Some disk => diskLoop ns (virDomainDiskInsertPreAlloced virDiskNameToIndex disks disk)
      end
  end.

(** The controller loop with its "none" USB controller check; the two
    flags are [usb_other] and [usb_none]. *)
Fixpoint controllerLoop (nodes : list xmlNode) (usb_other usb_none : bool)
  (controllers : list virDomainControllerDef) : option (list virDomainControllerDef) :=
  match nodes with
  | [] => Some controllers
  | n :: ns =>
      match virDomainControllerDefParseXML n with
      | None => None
      | Some controller =>
          let flags :=
            if ctrl_type controller =? VIR_DOMAIN_CONTROLLER_TYPE_USB then
              if ctrl_model controller =? VIR_DOMAIN_CONTROLLER_MODEL_USB_NONE then
                if usb_other || usb_none then None else Some (usb_other, true)
              else if usb_none then None else Some (true, usb_none)
            else Some (usb_other, usb_none) in
          match flags with
          | None => None
          | Some (usb_other', usb_none') =>
              controllerLoop ns usb_other' usb_none'
                (virDomainControllerInsertPreAlloced controllers controller)
          end
      end
  end.

Definition parseDisks (nodes : list xmlNode) : option (list virDomainDiskDef) :=
  diskLoop nodes [].

Definition parseControllers (nodes : list xmlNode) : option (list virDomainControllerDef) :=
  controllerLoop nodes false false [].

End ParseLoops.

End DeviceLists.

(** ** Leases (virDomainLeaseIndex, virDomainLeaseRemove) *)

Module Leases.

Record virDomainLeaseDef := mkLease {
  lease_lockspace : option string;
  lease_key : option string;
  lease_path : option string;
  lease_offset : Z;
}.

(** [virDomainLeaseIndex]; [None] when [STREQ] meets a NULL key. *)
Fixpoint leaseIndexFrom (leases : list virDomainLeaseDef) (lease : virDomainLeaseDef) (i : Z)
  : option Z :=
  match leases with
  | [] => Some (-1)
  | vlease :: rest =>
      let bothDiffer :=
        match lease_lockspace vlease, lease_lockspace lease with
        | Some _, Some _ => STRNEQ (lease_lockspace vlease) (lease_lockspace lease)
        | _, _ => Some false
        end in
      match bothDiffer with
      | None => None
      | Some true => leaseIndexFrom rest lease (i + 1)
      | Some false =>
          if nonNull (lease_lockspace vlease) || nonNull (lease_lockspace lease)
          then leaseIndexFrom rest lease (i + 1)
          else match STRNEQ (lease_key vlease) (lease_key lease) with
               | None => None
               | Some false => Some i
               | Some true => leaseIndexFrom rest lease (i + 1)
               end
      end
  end.

Definition virDomainLeaseIndex (leases : list virDomainLeaseDef) (lease : virDomainLeaseDef)
  : option Z :=
  leaseIndexFrom leases lease 0.

(** [virDomainLeaseRemove]: the removed lease (NULL when none) and the
    remaining list. *)
Definition virDomainLeaseRemove (leases : list virDomainLeaseDef) (lease : virDomainLeaseDef)
  : option (option virDomainLeaseDef * list virDomainLeaseDef) :=
  match virDomainLeaseIndex leases lease with
  | None => None
  | Some i =>
      if i <? 0 then Some (None, leases)
      else match DeviceLists.removeAt leases (Z.to_nat i) with
           | None => None
           | Some (l, rest) => Some (Some l, rest)
           end
  end.

End Leases.

(** ** vCPU pinning (virDomainVcpuPinAdd, virDomainVcpuPinDel) *)

Module VcpuPin.

Section Pins.
(** The bitmap type of [cpumask]. *)
Context {virBitmap : Type}.

Record virDomainVcpuPinDef := mkPin {
  pin_vcpuid : Z;
  pin_cpumask : option virBitmap;
}.

Definition virDomainVcpuPinIsDuplicate (def : list virDomainVcpuPinDef) (vcpu : Z) : bool :=
  existsb (fun p => pin_vcpuid p =? vcpu) def.

Definition virDomainVcpuPinFindByVcpu (def : list virDomainVcpuPinDef) (vcpu : Z)
  : option virDomainVcpuPinDef :=
  find (fun p => pin_vcpuid p =? vcpu) def.

(** The in-place update of the pin [virDomainVcpuPinFindByVcpu] found. *)
Fixpoint replaceFirstPin (def : list virDomainVcpuPinDef) (vcpu : Z)
  (cpumask : option virBitmap) : list virDomainVcpuPinDef :=
  match def with
  | [] => []
  | p :: ps =>
      if pin_vcpuid p =? vcpu then mkPin vcpu cpumask :: ps
      else p :: replaceFirstPin ps vcpu cpumask
  end.

(** [virDomainVcpuPinAdd]: the return code and the new list.  The
    cpumap/maplen pair is given to [virBitmapNewData] as [newData], whose
    NULL (out of memory) is the error. *)
Definition virDomainVcpuPinAdd (def : list virDomainVcpuPinDef) (newData : option virBitmap)
  (vcpu : Z) : Z * list virDomainVcpuPinDef :=
  match virDomainVcpuPinFindByVcpu def vcpu with
  | Some _ =>
      (if nonNull newData then 0 else -1, replaceFirstPin def vcpu newData)
  | None =>
      match newData with
      | None => (-1, def)
      | Some m => (0, def ++ [mkPin vcpu (Some m)])
      end
  end.

(** [virDomainVcpuPinDel]: the first pin of [vcpu] is removed. *)
Fixpoint virDomainVcpuPinDel (def : list virDomainVcpuPinDef) (vcpu : Z)
  : list virDomainVcpuPinDef :=
  match def with
  | [] => []
  | p :: ps => if pin_vcpuid p =? vcpu then ps else p :: virDomainVcpuPinDel ps vcpu
  end.

(** The [<vcpupin>] loop of [virDomainDefParseXML] and the filling from
    [def->cpumask] after it; [parsed] are the results of
    [virDomainVcpuPinDefParseXML] for the nodes, [None] for its error. *)
Fixpoint vcpupinLoop (vcpus : Z) (parsed : list (option virDomainVcpuPinDef))
  (def : list virDomainVcpuPinDef) : option (list virDomainVcpuPinDef) :=
  match parsed with
  | [] => Some def
  | None :: _ => None
  | Some vcpupin :: rest =>
      if virDomainVcpuPinIsDuplicate def (pin_vcpuid vcpupin) then None
      else if pin_vcpuid vcpupin >=? vcpus then vcpupinLoop vcpus rest def
      else vcpupinLoop vcpus rest (def ++ [vcpupin])
  end.

Definition cpumaskFill (vcpus : Z) (cpumask : virBitmap) (def : list virDomainVcpuPinDef)
  : list virDomainVcpuPinDef :=
  fold_left (fun def i =>
    if virDomainVcpuPinIsDuplicate def (Z.of_nat i) then def
    else def ++ [mkPin (Z.of_nat i) (Some cpumask)]) (seq 0 (Z.to_nat vcpus)) def.

Definition parseVcpuPins (maxvcpus vcpus : Z) (cpumask : option virBitmap)
  (parsed : list (option virDomainVcpuPinDef)) : option (list virDomainVcpuPinDef) :=
  if Z.of_nat (List.length parsed) >? maxvcpus then None
  else match vcpupinLoop vcpus parsed [] with
       | None => None
       | Some def =>
           match cpumask with
           | None => Some def
           | Some m => Some (cpumaskFill vcpus m def)
           end
       end.

End Pins.

(** The result of [virXPathInt]: absent (-1), malformed (-2) or a value. *)
Inductive xpathInt :=
| IAbsent
| IMalformed
| IValue (v : Z).

Section PinParse.
Context {virBitmap : Type}.
Variable virBitmapParse : string -> option virBitmap.

(** [virDomainVcpuPinDefParseXML] for a [<vcpupin>] ([emulator == 0]):
    the [vcpu] attribute and the [cpuset] attribute. *)
Definition virDomainVcpuPinDefParseXML (vcpu : xpathInt) (cpuset : option string)
  (maxvcpus : Z) : option (@virDomainVcpuPinDef virBitmap) :=
  let '(ret, vcpuid) :=
    match vcpu with
    | IAbsent => (-1, -1)
    | IMalformed => (-2, -1)
    | IValue v => (0, v)
    end in
  if (ret =? -2) || (vcpuid <? -1) then None
  else if vcpuid =? -1 then None
  else if vcpuid >=? maxvcpus then None
  else match cpuset with
       | None => None
       | Some set =>
           match virBitmapParse set with
           | None => None
           | Some m => Some (mkPin vcpuid (Some m))
           end
       end.

End PinParse.

End VcpuPin.

(** ** Interface lookup (virDomainNetFindIdx) *)

Module NetFind.

Section Find.
(** [virDevicePCIAddressIsValid] and [virDevicePCIAddressEqual]
    (device_conf.c), on the four fields of a PCI address. *)
Variable virDevicePCIAddressIsValid : Z * Z * Z * Z -> bool.
Variable virDevicePCIAddressEqual : Z * Z * Z * Z -> Z * Z * Z * Z -> bool.
(** [info->addr.pci]: the address union read as a PCI address. *)
Variable addrPci : virDomainDeviceAddress -> Z * Z * Z * Z.

Definition VIR_DOMAIN_DEVICE_ADDRESS_TYPE_PCI := 1.

(** [virDomainDeviceAddressIsValid(info, VIR_DOMAIN_DEVICE_ADDRESS_TYPE_PCI)]. *)
Definition pciAddressIsValid (info : virDomainDeviceInfo) : bool :=
  match info_addr info with
  | AddrPCI d b s f => virDevicePCIAddressIsValid (d, b, s, f)
  | _ => false
  end.

Fixpoint netFindLoop (nets : list virDomainNetDef) (net : virDomainNetDef)
  (PCIAddrSpecified : bool) (ii matchidx : Z) : Z :=
  match nets with
  | [] => matchidx
  | n :: rest =>
      if memneq (net_mac n) (net_mac net) then
        netFindLoop rest net PCIAddrSpecified (ii + 1) matchidx
      else if (matchidx >=? 0) && negb PCIAddrSpecified then -2
      else if PCIAddrSpecified then
        if virDevicePCIAddressEqual (addrPci (info_addr (net_info n)))
                                    (addrPci (info_addr (net_info net)))
        then ii
        else netFindLoop rest net PCIAddrSpecified (ii + 1) matchidx
      else netFindLoop rest net PCIAddrSpecified (ii + 1) ii
  end.

Definition virDomainNetFindIdx (nets : list virDomainNetDef) (net : virDomainNetDef) : Z :=
  netFindLoop nets net (pciAddressIsValid (net_info net)) 0 (-1).

End Find.

End NetFind.

(** * Proofs *)

(** ** Reflexivity of the per-device comparators *)

Module ABIRefl.
Import ABI.

Lemma memneq_refl (a : list Z) : memneq a a = false.
Proof. induction a as [|x a IH]; simpl; [reflexivity|now rewrite Z.eqb_refl]. Qed.

Lemma STRNEQ_NULLABLE_refl (a : option string) : STRNEQ_NULLABLE a a = false.
Proof. destruct a; simpl; [now rewrite String.eqb_refl|reflexivity]. Qed.

Lemma STRNEQ_refl (a : string) : STRNEQ (Some a) (Some a) = Some false.
Proof. simpl. now rewrite String.eqb_refl. Qed.

Ltac refl_simpl :=
  repeat first
    [ rewrite Z.eqb_refl | rewrite Bool.eqb_reflx | rewrite memneq_refl
    | rewrite STRNEQ_NULLABLE_refl | rewrite STRNEQ_refl | rewrite Nat.eqb_refl ];
  cbn [negb andb orb guard guard_str andThen].

Lemma info_refl (i : virDomainDeviceInfo) :
  virDomainDeviceInfoCheckABIStability i i = Some true.
Proof.
  unfold virDomainDeviceInfoCheckABIStability.
  destruct (info_addr i); refl_simpl; reflexivity.
Qed.

Lemma forall2_refl {A} (f : A -> A -> abi) (l : list A) :
  (forall x, In x l -> f x x = Some true) -> forall2 f l l = Some true.
Proof.
  induction l as [|x l IH]; intros H; simpl; [reflexivity|].
  rewrite (H x (or_introl eq_refl)); simpl. apply IH; auto with datatypes.
Qed.

Lemma listCheck_refl {A} (f : A -> A -> abi) (l : list A) k :
  (forall x, In x l -> f x x = Some true) -> listCheck f l l k = k.
Proof.
  intros H. unfold listCheck. rewrite Nat.eqb_refl; simpl.
  rewrite (forall2_refl f l H). reflexivity.
Qed.

Lemma listCheck_refl_all {A} (f : A -> A -> abi) (l : list A) k :
  (forall x, f x x = Some true) -> listCheck f l l k = k.
Proof. intros H; apply listCheck_refl; auto. Qed.

Lemma optCheck_refl {A} (f : A -> A -> abi) (o : option A) k :
  (forall x, f x x = Some true) -> optCheck f o o k = k.
Proof. intros H; destruct o; simpl; [rewrite H|]; reflexivity. Qed.

Lemma timer_refl t : virDomainTimerDefCheckABIStability t t = Some true.
Proof.
  unfold virDomainTimerDefCheckABIStability; refl_simpl.
  destruct (timer_name t =? VIR_DOMAIN_TIMER_NAME_TSC); refl_simpl; reflexivity.
Qed.

Lemma disk_refl x (Hdst : disk_dst x <> None) :
  virDomainDiskDefCheckABIStability x x = Some true.
Proof.
  unfold virDomainDiskDefCheckABIStability.
  destruct (disk_dst x) as [s|] eqn:E; [|congruence].
  refl_simpl. apply info_refl.
Qed.

Lemma controller_refl x : virDomainControllerDefCheckABIStability x x = Some true.
Proof.
  unfold virDomainControllerDefCheckABIStability; refl_simpl.
  destruct (ctrl_type x =? VIR_DOMAIN_CONTROLLER_TYPE_VIRTIO_SERIAL);
    refl_simpl; apply info_refl.
Qed.

Lemma fs_refl x (Hdst : fs_dst x <> None) :
  virDomainFsDefCheckABIStability x x = Some true.
Proof.
  unfold virDomainFsDefCheckABIStability.
  destruct (fs_dst x) as [s|] eqn:E; [|congruence].
  refl_simpl. apply info_refl.
Qed.

Lemma net_refl x : virDomainNetDefCheckABIStability x x = Some true.
Proof. unfold virDomainNetDefCheckABIStability; refl_simpl; apply info_refl. Qed.

Lemma input_refl x : virDomainInputDefCheckABIStability x x = Some true.
Proof. unfold virDomainInputDefCheckABIStability; refl_simpl; apply info_refl. Qed.

Lemma sound_refl x : virDomainSoundDefCheckABIStability x x = Some true.
Proof. unfold virDomainSoundDefCheckABIStability; refl_simpl; apply info_refl. Qed.

Lemma video_refl x : virDomainVideoDefCheckABIStability x x = Some true.
Proof.
  unfold virDomainVideoDefCheckABIStability; refl_simpl.
  destruct (video_accel x); refl_simpl; apply info_refl.
Qed.

Lemma hostdev_refl x : virDomainHostdevDefCheckABIStability x x = Some true.
Proof.
  unfold virDomainHostdevDefCheckABIStability; refl_simpl.
  rewrite andb_false_r; cbn [guard]; apply info_refl.
Qed.

Lemma smartcard_refl x : virDomainSmartcardDefCheckABIStability x x = Some true.
Proof. apply info_refl. Qed.

Lemma serial_refl x : virDomainSerialDefCheckABIStability x x = Some true.
Proof. unfold virDomainSerialDefCheckABIStability; refl_simpl; apply info_refl. Qed.

Lemma parallel_refl x : virDomainParallelDefCheckABIStability x x = Some true.
Proof. unfold virDomainParallelDefCheckABIStability; refl_simpl; apply info_refl. Qed.

Lemma channel_refl x : virDomainChannelDefCheckABIStability x x = Some true.
Proof.
  unfold virDomainChannelDefCheckABIStability; refl_simpl.
  destruct (chr_targetType x =? VIR_DOMAIN_CHR_CHANNEL_TARGET_TYPE_VIRTIO);
    [|destruct (chr_targetType x =? VIR_DOMAIN_CHR_CHANNEL_TARGET_TYPE_GUESTFWD)];
    refl_simpl; apply info_refl.
Qed.

Lemma console_refl x : virDomainConsoleDefCheckABIStability x x = Some true.
Proof. unfold virDomainConsoleDefCheckABIStability; refl_simpl; apply info_refl. Qed.

Lemma watchdog_refl x : virDomainWatchdogDefCheckABIStability x x = Some true.
Proof. unfold virDomainWatchdogDefCheckABIStability; refl_simpl; apply info_refl. Qed.

Lemma memballoon_refl x : virDomainMemballoonDefCheckABIStability x x = Some true.
Proof.
  unfold virDomainMemballoonDefCheckABIStability; refl_simpl; apply info_refl.
Qed.

Lemma rng_refl o : virDomainRNGDefCheckABIStability o o = Some true.
Proof.
  destruct o as [r|]; simpl; [|reflexivity].
  refl_simpl; apply info_refl.
Qed.

Lemma hub_refl x : virDomainHubDefCheckABIStability x x = Some true.
Proof. unfold virDomainHubDefCheckABIStability; refl_simpl; apply info_refl. Qed.

Lemma usbdev_refl x : usbDevCheck x x = Some true.
Proof. unfold usbDevCheck; refl_simpl; reflexivity. Qed.

Lemma redirfilter_refl x : virDomainRedirFilterDefCheckABIStability x x = Some true.
Proof.
  unfold virDomainRedirFilterDefCheckABIStability; refl_simpl.
  apply forall2_refl; intros; apply usbdev_refl.
Qed.

End ABIRefl.

Module ABIDef.
Import ABI ABIRefl.

(** With both string fields compared by [STRNEQ] present, and with the
    external CPU and sysinfo comparisons reflexive, the checker accepts
    every definition against itself. *)
Lemma check_abi_refl_machine_set cpuEq sysEq (d : virDomainDef) :
  (forall c, cpuEq c c = true) -> (forall s, sysEq s s = true) ->
  def_os_type d <> None -> def_os_machine d <> None ->
  (forall x, In x (def_disks d) -> disk_dst x <> None) ->
  (forall x, In x (def_fss d) -> fs_dst x <> None) ->
  virDomainDefCheckABIStability cpuEq sysEq d d = Some true.
Proof.
  intros Hc Hs Ht Hm Hd Hf.
  unfold virDomainDefCheckABIStability.
  destruct (def_os_type d) as [t|]; [|congruence].
  destruct (def_os_machine d) as [m|]; [|congruence].
  refl_simpl.
  rewrite listCheck_refl_all by apply timer_refl.
  rewrite Hc, Hs; cbn [negb guard].
  rewrite listCheck_refl by (intros; apply disk_refl; auto).
  rewrite listCheck_refl_all by apply controller_refl.
  rewrite listCheck_refl by (intros; apply fs_refl; auto).
  rewrite listCheck_refl_all by apply net_refl.
  rewrite listCheck_refl_all by apply input_refl.
  rewrite listCheck_refl_all by apply sound_refl.
  rewrite listCheck_refl_all by apply video_refl.
  rewrite listCheck_refl_all by apply hostdev_refl.
  rewrite listCheck_refl_all by apply smartcard_refl.
  rewrite listCheck_refl_all by apply serial_refl.
  rewrite listCheck_refl_all by apply parallel_refl.
  rewrite listCheck_refl_all by apply channel_refl.
  rewrite listCheck_refl_all by apply console_refl.
  rewrite listCheck_refl_all by apply hub_refl.
  rewrite optCheck_refl by apply redirfilter_refl.
  rewrite optCheck_refl by apply watchdog_refl.
  rewrite optCheck_refl by apply memballoon_refl.
  apply rng_refl.
Qed.

(** C1 (code_bug): comparing a definition with a NULL machine type
    against itself passes NULL to [strcmp] through [STRNEQ] instead of
    returning true, whatever the CPU and sysinfo comparisons are. *)
Theorem check_abi_exe_def_undefined cpuEq sysEq :
  virDomainDefCheckABIStability cpuEq sysEq exe_def exe_def = None.
Proof. reflexivity. Qed.

End ABIDef.

Module MemoryFacts.
Import Memory.

Lemma ull_id x : 0 <= x < 2 ^ 64 -> ull x = x.
Proof. intros H; unfold ull; apply Z.mod_small; exact H. Qed.

Section Scale.
Variable virScaleInteger : Z -> option string -> Z -> Z -> option Z.
(** What [virScaleInteger] guarantees on success: the scaled value is
    at most the limit it was given. *)
Hypothesis scale_bound : forall v u b,
  virScaleInteger v u 1024 LLONG_MAX = Some b -> 0 <= b <= LLONG_MAX.

Lemma scaled_value_bound x req b :
  virDomainParseScaledValue virScaleInteger x 1024 LLONG_MAX req = Some b ->
  0 <= b <= LLONG_MAX.
Proof.
  destruct x as [| |v u]; cbn [virDomainParseScaledValue]; intros H.
  - destruct req; inversion H; unfold LLONG_MAX; lia.
  - discriminate.
  - destruct (virScaleInteger v u 1024 LLONG_MAX) as [b'|] eqn:E.
    + inversion H; subst. apply (scale_bound v u), E.
    + inversion H; unfold LLONG_MAX; lia.
Qed.

Lemma parse_memory_value x req k :
  virDomainParseMemory virScaleInteger x req = Some k ->
  exists b, 0 <= b <= LLONG_MAX /\ k = (b + 1023) / 1024.
Proof.
  unfold virDomainParseMemory. intros H.
  destruct (virDomainParseScaledValue virScaleInteger x 1024 LLONG_MAX req) as [b|] eqn:E;
    [|discriminate].
  inversion H; subst. exists b.
  pose proof (scaled_value_bound _ _ _ E) as Hb. split; [exact Hb|].
  unfold VIR_DIV_UP. rewrite ull_id; unfold LLONG_MAX in Hb; [f_equal; lia|lia].
Qed.

Lemma parse_memory_bound x req k :
  virDomainParseMemory virScaleInteger x req = Some k -> 0 <= k <= 2 ^ 53.
Proof.
  intros H. destruct (parse_memory_value x req k H) as [b [Hb ->]].
  unfold LLONG_MAX in Hb. split.
  - apply Z.div_pos; lia.
  - assert ((b + 1023) / 1024 < 2 ^ 53 + 1) by (apply Z.div_lt_upper_bound; lia). lia.
Qed.

End Scale.

Lemma div_up_small x : 0 <= x <= 2 ^ 53 -> VIR_DIV_UP x 4096 = (x + 4095) / 4096.
Proof. intros H. unfold VIR_DIV_UP. rewrite ull_id by lia. f_equal; lia. Qed.

Lemma balloonFixup_le cur max c :
  0 <= max -> balloonFixup cur max = Some c -> c <= max.
Proof.
  unfold balloonFixup. intros Hm H.
  destruct (Z.gtb_spec cur max).
  - destruct (_ >? _); inversion H; lia.
  - destruct (Z.eqb_spec cur 0); inversion H; lia.
Qed.

Lemma same_ceiling_gap cur max :
  0 <= max -> (cur + 4095) / 4096 = (max + 4095) / 4096 -> cur - max < 4096.
Proof.
  intros Hm Heq.
  pose proof (Z.div_mod (cur + 4095) 4096 ltac:(lia)) as Hc.
  pose proof (Z.div_mod (max + 4095) 4096 ltac:(lia)) as Hx.
  pose proof (Z.mod_pos_bound (cur + 4095) 4096 ltac:(lia)).
  pose proof (Z.mod_pos_bound (max + 4095) 4096 ltac:(lia)).
  rewrite Heq in Hc. lia.
Qed.

End MemoryFacts.

Module MemoryClaims.
Import Memory MemoryFacts.

(** C2: when the parsed current balloon exceeds the maximum, the parser
    clamps it to the maximum when both round up to the same multiple of
    4096 KiB (the excess is then under 4 MiB), and rejects the document
    otherwise; every successful result has current <= maximum.  This
    holds for any [virScaleInteger] that keeps its results within the
    limit it is given. *)
Theorem balloon_clamp_or_reject (virScaleInteger : Z -> option string -> Z -> Z -> option Z)
  (Hscale : forall v u b,
     virScaleInteger v u 1024 LLONG_MAX = Some b -> 0 <= b <= LLONG_MAX)
  xmax xcur max cur
  (Hm : virDomainParseMemory virScaleInteger xmax true = Some max)
  (Hc : virDomainParseMemory virScaleInteger xcur false = Some cur) :
  (cur > max ->
     (VIR_DIV_UP cur 4096 = VIR_DIV_UP max 4096 ->
        parseDomainMemory virScaleInteger xmax xcur = Some (max, max) /\ cur - max < 4096) /\
     (VIR_DIV_UP cur 4096 <> VIR_DIV_UP max 4096 ->
        parseDomainMemory virScaleInteger xmax xcur = None)) /\
  (forall m c, parseDomainMemory virScaleInteger xmax xcur = Some (m, c) -> c <= m).
Proof.
  pose proof (parse_memory_bound _ Hscale _ _ _ Hm) as Bm.
  pose proof (parse_memory_bound _ Hscale _ _ _ Hc) as Bc.
  unfold parseDomainMemory. rewrite Hm, Hc.
  split.
  - intros Hgt. unfold balloonFixup.
    destruct (Z.gtb_spec cur max); [|lia].
    split.
    + intros Heq. rewrite Heq, Z.gtb_ltb, Z.ltb_irrefl. split; [reflexivity|].
      rewrite !div_up_small in Heq by lia.
      apply same_ceiling_gap; lia.
    + intros Hne. rewrite !div_up_small in * by lia.
      assert ((max + 4095) / 4096 <= (cur + 4095) / 4096)
        by (apply Z.div_le_mono; lia).
      destruct (Z.gtb_spec ((cur + 4095) / 4096) ((max + 4095) / 4096));
        [reflexivity|lia].
  - intros m c H.
    destruct (balloonFixup cur max) as [c'|] eqn:E; [|discriminate].
    inversion H; subst.
    apply (balloonFixup_le cur); [lia|exact E].
Qed.

(** The sample [virScaleInteger] keeps its results within the limit. *)
Lemma sampleScaleInteger_bound v u b :
  sampleScaleInteger v u 1024 LLONG_MAX = Some b -> 0 <= b <= LLONG_MAX.
Proof.
  unfold sampleScaleInteger.
  assert (Hv : 0 <= ull v < 2 ^ 64) by (apply Z.mod_pos_bound; lia).
  generalize (ull v) Hv. clear v Hv. intros v Hv.
  assert (Hm : forall m, 0 < m -> (if negb (v =? 0) && (v >? LLONG_MAX / m) then None
                                    else Some (ull (v * m))) = Some b -> 0 <= b <= LLONG_MAX).
  { intros m Hm H. unfold LLONG_MAX in *.
    destruct (Z.eqb_spec v 0) as [->|Hv0]; cbn [negb andb] in H.
    - inversion H; subst. unfold ull. rewrite Z.mod_small by nia. nia.
    - destruct (Z.gtb_spec v ((2 ^ 63 - 1) / m)); [discriminate|].
      inversion H; subst.
      assert (Hle : v * m <= 2 ^ 63 - 1).
      { pose proof (Z.mul_div_le (2 ^ 63 - 1) m Hm). nia. }
      unfold ull. rewrite Z.mod_small by nia. nia. }
  destruct u as [u|].
  - destruct (String.eqb u "KiB"); [apply Hm; lia|].
    destruct (String.eqb u "MiB"); [apply Hm; lia|discriminate].
  - apply Hm; lia.
Qed.

Lemma balloon_clamp_or_reject_witness :
  parseDomainMemory sampleScaleInteger (XValue 1048575 None) (XValue 1048576 None)
    = Some (1048575, 1048575) /\
  parseDomainMemory sampleScaleInteger (XValue 1 (Some "bogus"%string)) XAbsent = Some (0, 0).
Proof.
  split; [|vm_compute; reflexivity].
  destruct (balloon_clamp_or_reject sampleScaleInteger sampleScaleInteger_bound
              (XValue 1048575 None) (XValue 1048576 None) 1048575 1048576
              ltac:(vm_compute; reflexivity) ltac:(vm_compute; reflexivity))
    as [H _].
  apply H; [lia|vm_compute; reflexivity].
Defined.

End MemoryClaims.

Module VcpuClaims.
Import Vcpu.

Lemma ushort_fixed c : ushort c = c -> 0 <= c < 2 ^ 16.
Proof.
  unfold ushort. intros H. rewrite <- H. apply Z.mod_pos_bound. lia.
Qed.

Lemma parseMaxVcpus_range x m : parseMaxVcpus x = Some m -> 1 <= m <= 65535.
Proof.
  destruct x as [| |c]; simpl; intros H; try discriminate.
  - inversion H; lia.
  - destruct (Z.eqb_spec c 0); [discriminate|].
    destruct (Z.eqb_spec (ushort c) c) as [E|]; [|discriminate].
    simpl in H. inversion H; subst. rewrite E.
    pose proof (ushort_fixed c E). lia.
Qed.

Lemma parseCurVcpus_range x m v :
  1 <= m -> parseCurVcpus x m = Some v -> 1 <= v <= m.
Proof.
  destruct x as [| |c]; simpl; intros Hm H; try discriminate.
  - inversion H; lia.
  - destruct (Z.eqb_spec c 0); [discriminate|].
    destruct (Z.eqb_spec (ushort c) c) as [E|]; [|discriminate].
    simpl in H. destruct (Z.ltb_spec m c); [discriminate|].
    inversion H; subst. rewrite E.
    pose proof (ushort_fixed c E). lia.
Qed.

Lemma uint_le x : 0 <= x -> uint x <= x.
Proof. intros H. unfold uint. apply Z.mod_le; lia. Qed.

Lemma topology_ok c m :
  0 <= cpu_sockets c -> 0 <= cpu_cores c -> 0 <= cpu_threads c ->
  cpuTopologyCheck (Some c) m = true -> cpu_sockets c <> 0 ->
  m <= cpu_sockets c * cpu_cores c * cpu_threads c.
Proof.
  intros Hs Hc Ht H Hn. simpl in H.
  apply andb_prop in H as [H _].
  destruct (Z.eqb_spec (cpu_sockets c) 0); [contradiction|].
  simpl in H.
  destruct (Z.gtb_spec m (uint (uint (cpu_sockets c * cpu_cores c) * cpu_threads c)));
    [discriminate|].
  assert (uint (cpu_sockets c * cpu_cores c) <= cpu_sockets c * cpu_cores c)
    by (apply uint_le; nia).
  assert (0 <= uint (cpu_sockets c * cpu_cores c))
    by (unfold uint; apply Z.mod_pos_bound; lia).
  assert (uint (uint (cpu_sockets c * cpu_cores c) * cpu_threads c)
          <= uint (cpu_sockets c * cpu_cores c) * cpu_threads c)
    by (apply uint_le; nia).
  nia.
Qed.

(** C3: every accepted vCPU configuration has
    [1 <= vcpus <= maxvcpus <= 65535], and [maxvcpus] does not exceed
    the topology product when a topology with nonzero sockets is given
    (the C fields are unsigned). *)
Theorem vcpu_bounds xmax xcur cpu v m :
  (forall c, cpu = Some c ->
     0 <= cpu_sockets c /\ 0 <= cpu_cores c /\ 0 <= cpu_threads c) ->
  parseVcpus xmax xcur cpu = Some (v, m) ->
  1 <= v <= m /\ m <= 65535 /\
  (forall c, cpu = Some c -> cpu_sockets c <> 0 ->
     m <= cpu_sockets c * cpu_cores c * cpu_threads c).
Proof.
  intros Hw H. unfold parseVcpus in H.
  destruct (parseMaxVcpus xmax) as [m'|] eqn:Em; [|discriminate].
  destruct (parseCurVcpus xcur m') as [v'|] eqn:Ev; [|discriminate].
  destruct (cpuTopologyCheck cpu m') eqn:Et; [|discriminate].
  inversion H; subst v' m'.
  pose proof (parseMaxVcpus_range _ _ Em).
  pose proof (parseCurVcpus_range xcur m v ltac:(lia) Ev).
  split; [lia|]. split; [lia|].
  intros c -> Hn. destruct (Hw c eq_refl) as [? [? ?]].
  apply topology_ok; auto.
Qed.

Lemma vcpu_bounds_witness :
  parseVcpus (UValue 4) (UValue 2) (Some (mkCPU 2 2 1 0 [])) = Some (2, 4) /\
  (1 <= 2 <= 4 /\ 4 <= 65535 /\
   (forall c, Some (mkCPU 2 2 1 0 []) = Some c -> cpu_sockets c <> 0 ->
      4 <= cpu_sockets c * cpu_cores c * cpu_threads c)).
Proof.
  split; [reflexivity|].
  apply (vcpu_bounds (UValue 4) (UValue 2) (Some (mkCPU 2 2 1 0 []))).
  - intros c Hc; inversion Hc; subst; simpl; lia.
  - reflexivity.
Defined.

End VcpuClaims.

Module BootFacts.
Import Boot.








End BootFacts.

Module BootClaims.
Import Boot BootFacts.




End BootClaims.

Module IterateFacts.
Import Iterate.

Section Facts.
Context {E : Type}.
Variable cb : DevRef -> virDomainDeviceInfo -> Z * list E.

Lemma seqR_assoc (a b c : @res E) :
  seqR (seqR a b) c = seqR a (seqR b c).
Proof.
  destruct a as [[] ea], b as [[] eb], c as [[] ec]; cbn;
    rewrite ?app_assoc; reflexivity.
Qed.

Lemma seqR_nil (a : @res E) : seqR (true, []) a = a.
Proof. destruct a; reflexivity. Qed.

Lemma visit_seqR r info k k' :
  seqR (visit cb r info k) k' = visit cb r info (seqR k k').
Proof.
  unfold visit. destruct (cb r info) as [ret ev].
  destruct (ret <? 0); [reflexivity|]. apply seqR_assoc.
Qed.

Lemma walkR_app l1 l2 :
  walkR cb (l1 ++ l2) = seqR (walkR cb l1) (walkR cb l2).
Proof.
  induction l1 as [|[r info] l1 IH]; cbn [app walkR].
  - symmetry; apply seqR_nil.
  - rewrite IH, visit_seqR. reflexivity.
Qed.

Lemma walk_walkR l :
  walk cb l = (if fst (walkR cb l) then 0 else -1, snd (walkR cb l)).
Proof.
  induction l as [|[r info] l IH]; [reflexivity|].
  cbn [walk walkR]. unfold visit.
  destruct (cb r info) as [ret ev].
  destruct (ret <? 0); [reflexivity|].
  rewrite IH. destruct (walkR cb l) as [[] ev']; reflexivity.
Qed.

Lemma visitList_walkR {A} (mk : nat -> DevRef) (info : A -> virDomainDeviceInfo)
  (i : nat) (xs : list A) :
  visitList cb mk info i xs =
  walkR cb (combine (map mk (seq i (List.length xs))) (map info xs)).
Proof.
  revert i; induction xs as [|x xs IH]; intros i; [reflexivity|].
  cbn [visitList List.length seq map combine walkR]. rewrite IH. reflexivity.
Qed.

Lemma visitConsoles_tail def all i xs :
  (0 < i)%nat ->
  visitConsoles cb def all i xs =
  walkR cb (combine (map RConsole (seq i (List.length xs))) (map chr_info xs)).
Proof.
  revert i; induction xs as [|c xs IH]; intros i Hi; [reflexivity|].
  cbn [visitConsoles List.length seq map combine walkR].
  replace (Nat.eqb i 0) with false by (symmetry; apply Nat.eqb_neq; lia).
  rewrite andb_false_r, !andb_false_l, IH by lia. reflexivity.
Qed.

Lemma STREQ_NULLABLE_hvm o :
  STREQ_NULLABLE o (Some "hvm"%string) =
  match o with Some t => String.eqb t "hvm" | None => false end.
Proof.
  destruct o; unfold STREQ_NULLABLE, STRNEQ_NULLABLE; [apply negb_involutive|reflexivity].
Qed.

Lemma visitConsoles_spec def all :
  visitConsoles cb def all 0 (def_consoles def) = walkR cb (specConsoles def all).
Proof.
  unfold specConsoles. destruct (def_consoles def) as [|c rest]; [reflexivity|].
  cbn [visitConsoles]. rewrite STREQ_NULLABLE_hvm.
  rewrite (visitConsoles_tail def all 1 rest) by lia.
  change (Nat.eqb 0 0) with true.
  unfold VIR_DOMAIN_CHR_CONSOLE_TARGET_TYPE_SERIAL, VIR_DOMAIN_CHR_CONSOLE_TARGET_TYPE_NONE.
  destruct all, (chr_targetType c =? 1), (chr_targetType c =? 0),
    (def_os_type def) as [t|]; try destruct (String.eqb t "hvm"); reflexivity.
Qed.

Lemma visitOpt_walkR {A} r (info : A -> virDomainDeviceInfo) o :
  visitOpt cb r info o = walkR cb (specOpt r info o).
Proof. destruct o; reflexivity. Qed.

(** The traversal is the walk over the specified order. *)
Lemma iterate_walk def all :
  virDomainDeviceInfoIterateInternal cb def all = walk cb (specOrder def all).
Proof.
  unfold virDomainDeviceInfoIterateInternal, specOrder, indexed.
  rewrite walk_walkR, !walkR_app, !visitList_walkR, visitConsoles_spec,
    !visitOpt_walkR.
  reflexivity.
Qed.

End Facts.

Lemma map_fst_combine {A B} (l1 : list A) (l2 : list B) :
  List.length l1 = List.length l2 -> map fst (combine l1 l2) = l1.
Proof.
  revert l2; induction l1 as [|a l1 IH]; intros [|b l2] H; cbn in *;
    try discriminate; [reflexivity|].
  rewrite IH by lia. reflexivity.
Qed.

Lemma NoDup_map_inj {A B} (f : A -> B) l :
  (forall x y, f x = f y -> x = y) -> NoDup l -> NoDup (map f l).
Proof.
  intros Hf Hl; induction Hl as [|a l Ha Hl IH]; cbn; constructor; auto.
  intros Hin. apply in_map_iff in Hin as (b & Hb & Hin).
  apply Hf in Hb; subst; contradiction.
Qed.

Lemma NoDup_kind k l1 l2 :
  NoDup l1 -> NoDup l2 ->
  Forall (fun r => devKind r = k) l1 -> Forall (fun r => (k < devKind r)%nat) l2 ->
  NoDup (l1 ++ l2).
Proof.
  intros H1 H2 F1 F2. apply NoDup_app; auto.
  intros a Ha Hb. rewrite Forall_forall in F1, F2.
  specialize (F1 a Ha); specialize (F2 a Hb). lia.
Qed.

Lemma seg_indexed {A} (mk : nat -> DevRef) (info : A -> virDomainDeviceInfo) xs :
  map fst (indexed mk info xs) = map mk (seq 0 (List.length xs)).
Proof.
  unfold indexed. apply map_fst_combine. rewrite !length_map, length_seq. reflexivity.
Qed.

Lemma Forall_map_const (mk : nat -> DevRef) (P : nat -> Prop) k l :
  (forall i, devKind (mk i) = k) -> P k -> Forall (fun r => P (devKind r)) (map mk l).
Proof.
  intros Hk HP. apply Forall_forall. intros r Hr.
  apply in_map_iff in Hr as (i & <- & _). rewrite Hk. exact HP.
Qed.

Lemma seg_indexed_ok {A} (mk : nat -> DevRef) (info : A -> virDomainDeviceInfo) xs k :
  (forall x y, mk x = mk y -> x = y) -> (forall i, devKind (mk i) = k) ->
  seg_ok (map fst (indexed mk info xs)) k.
Proof.
  intros Hinj Hk. rewrite seg_indexed. split.
  - apply NoDup_map_inj; [exact Hinj | apply seq_NoDup].
  - apply (Forall_map_const mk (fun n => n = k) k); [exact Hk | reflexivity].
Qed.

Lemma seg_cons_ok def all : seg_ok (map fst (specConsoles def all)) 10.
Proof.
  unfold specConsoles. destruct (def_consoles def) as [|c rest]; [split; constructor|].
  destruct (_ && _ && _).
  - rewrite map_fst_combine by (rewrite !length_map, length_seq; reflexivity).
    split.
    + apply NoDup_map_inj; [intros ?? H; injection H; auto | apply seq_NoDup].
    + apply (Forall_map_const RConsole (fun n => n = 10%nat) 10%nat); reflexivity.
  - apply seg_indexed_ok; [intros ?? H; injection H; auto | reflexivity].
Qed.

Lemma seg_opt_ok {A} r (info : A -> virDomainDeviceInfo) o k :
  devKind r = k -> seg_ok (map fst (specOpt r info o)) k.
Proof.
  intros Hk. destruct o; cbn; split; repeat constructor; auto.
Qed.

Lemma chain_ok S k L :
  seg_ok S k -> NoDup L -> Forall (fun r => (k < devKind r)%nat) L -> NoDup (S ++ L).
Proof. intros [HS FS] HL FL. exact (NoDup_kind k S L HS HL FS FL). Qed.

Lemma seg_gt S k k' :
  seg_ok S k' -> (k < k')%nat -> Forall (fun r => (k < devKind r)%nat) S.
Proof.
  intros [_ FS] Hlt. eapply Forall_impl; [|exact FS]. intros r Hr; cbn in Hr; lia.
Qed.

Ltac seg :=
  first
    [ apply seg_cons_ok
    | apply seg_opt_ok; cbn; reflexivity
    | apply seg_indexed_ok; [intros ?? Hmk; injection Hmk; auto | intro; cbn; reflexivity] ].

(** No device is named twice by the specified order. *)
Lemma specOrder_NoDup def all : NoDup (map fst (specOrder def all)).
Proof.
  unfold specOrder. rewrite !map_app.
  repeat (eapply chain_ok;
    [ seg | | repeat (apply Forall_app; split); (eapply seg_gt; [seg | lia]) ]).
  match goal with
  | |- NoDup ?S => assert (Hs : seg_ok S 16) by seg; exact (proj1 Hs)
  end.
Qed.

End IterateFacts.

Module IterateClaims.
Import Iterate IterateFacts.

(** C6 (counterexample): with an <interface type='hostdev'>, the
    traversal hands the interface's [DeviceInfo] to the visitor twice,
    once as a network interface and once as a host device. *)
Lemma iterate_hostdev_net_info_twice :
  virDomainDeviceInfoIterateInternal
    (fun r _ => (0, [infoOwner (netHostdevDef (Some 0%nat)) r]))
    (netHostdevDef (Some 0%nat)) true =
  (0, [RNet 0; RNet 0]).
Proof. reflexivity. Qed.

(** C6 (amended): [virDomainDeviceInfoIterateInternal] calls the visitor
    once for every entry of the device lists, in the order disks,
    network interfaces, sound, host devices, video, controllers,
    smartcards, serial, parallel, channel, console, input, filesystem,
    watchdog, memory balloon, RNG, hub ([specOrder]), leaving out the
    first console when [all] is false, its target type is serial or none
    and the OS type is "hvm"; no entry occurs twice; the traversal stops
    at the first visitor call returning a negative value and then returns
    -1 ([walk]); and when no host device is embedded in an interface,
    no [DeviceInfo] is handed over twice. *)
Theorem iterate_visits_in_order {E : Type}
  (cb : DevRef -> virDomainDeviceInfo -> Z * list E) (def : virDomainDef) (all : bool) :
  virDomainDeviceInfoIterateInternal cb def all = walk cb (specOrder def all) /\
  NoDup (map fst (specOrder def all)) /\
  ((forall h, In h (def_hostdevs def) -> hostdev_parent_net h = None) ->
   NoDup (map (infoOwner def) (map fst (specOrder def all)))).
Proof.
  split; [apply iterate_walk|split; [apply specOrder_NoDup|]].
  intros Hh. rewrite (map_ext_in (infoOwner def) (fun r => r)).
  - rewrite map_id. apply specOrder_NoDup.
  - intros r _. destruct r; try reflexivity. cbn.
    destruct (nth_error (def_hostdevs def) i) as [h|] eqn:Hn; [|reflexivity].
    rewrite (Hh h (nth_error_In _ _ Hn)). reflexivity.
Qed.

Lemma iterate_visits_in_order_witness :
  NoDup (map (infoOwner (netHostdevDef None)) (map fst (specOrder (netHostdevDef None) true))).
Proof.
  apply (proj2 (proj2 (iterate_visits_in_order
           (fun _ _ => (0, @nil unit)) (netHostdevDef None) true))).
  intros h [<-|[]]. reflexivity.
Defined.

End IterateClaims.

Module PostParseFacts.
Import Iterate IterateFacts PostParse.

Section Walk.
Variable xmlopt : virDomainXMLOption.
Variable def1 : virDomainDef.
Variable g : DevRef -> virDomainDef -> Z.
Hypothesis Hg : devicesCb xmlopt = Some g.

Lemma v_ok r i : 0 <= g r def1 -> virDomainDefPostParseDeviceIterator xmlopt def1 r i = (0, devEvents r).
Proof.
  intros H. unfold virDomainDefPostParseDeviceIterator, virDomainDeviceDefPostParse. rewrite Hg.
  replace (g r def1 <? 0) with false by (symmetry; apply Z.ltb_ge; lia). reflexivity.
Qed.

Lemma v_fail r i : g r def1 < 0 -> virDomainDefPostParseDeviceIterator xmlopt def1 r i = (g r def1, [EvDeviceCb r]).
Proof.
  intros H. unfold virDomainDefPostParseDeviceIterator, virDomainDeviceDefPostParse. rewrite Hg.
  replace (g r def1 <? 0) with true by (symmetry; apply Z.ltb_lt; lia). reflexivity.
Qed.

Lemma walk_all_ok l :
  (forall r, In r (map fst l) -> 0 <= g r def1) ->
  walk (virDomainDefPostParseDeviceIterator xmlopt def1) l = (0, flat_map devEvents (map fst l)).
Proof.
  induction l as [|[r i] l IH]; intros H; [reflexivity|].
  cbn [walk map fst flat_map]. rewrite v_ok by (apply H; left; reflexivity).
  cbn [Z.ltb Z.compare]. rewrite IH by (intros r' Hr'; apply H; right; exact Hr').
  reflexivity.
Qed.

Lemma walk_first_fail pre r post :
  forall l, map fst l = pre ++ r :: post ->
  (forall r', In r' pre -> 0 <= g r' def1) -> g r def1 < 0 ->
  walk (virDomainDefPostParseDeviceIterator xmlopt def1) l = (-1, flat_map devEvents pre ++ [EvDeviceCb r]).
Proof.
  induction pre as [|r0 pre IH]; intros [|[r1 i] l] Hl Hpre Hr; try discriminate;
    cbn [map fst app] in Hl; injection Hl as -> Hl; cbn [walk].
  - rewrite v_fail by exact Hr.
    replace (g r def1 <? 0) with true by (symmetry; apply Z.ltb_lt; lia). reflexivity.
  - rewrite v_ok by (apply Hpre; left; reflexivity).
    cbn [Z.ltb Z.compare].
    rewrite (IH l Hl) by first [exact Hr | intros r' Hr'; apply Hpre; right; exact Hr'].
    reflexivity.
Qed.

End Walk.

Lemma postParseInternal_some d :
  def_os_type d <> None -> exists z, virDomainDefPostParseInternal d = Some z.
Proof.
  intros H. unfold virDomainDefPostParseInternal.
  destruct (def_os_type d) as [t|]; [|contradiction]. cbn [STRNEQ].
  destruct (_ && _); [eexists; reflexivity|].
  destruct (def_consoles d); [eexists; reflexivity|].
  destruct (_ && _ && _); eexists; reflexivity.
Qed.

Lemma setConsoles_os_type d cs : def_os_type (setConsoles d cs) = def_os_type d.
Proof. reflexivity. Qed.

End PostParseFacts.

Module PostParseClaims.
Import Iterate IterateFacts PostParse PostParseFacts.

(** C5 (counterexample): with both driver callbacks installed, the
    domain callback runs before the device callback. *)
Lemma postparse_domain_cb_runs_first :
  virDomainDefPostParse (setConsoles ABI.exe_def [console0]) acceptAll =
  Some (0, [EvDomainCb; EvDeviceCb (RConsole 0); EvDeviceInternal (RConsole 0);
            EvDefInternal]).
Proof. reflexivity. Qed.

(** C5 (amended): [virDomainDefPostParse] first runs the driver's
    whole-definition callback; a negative result ends the phase with that
    result. Otherwise it runs, for every device of the definition left
    by that callback in the traversal order [specOrder], the driver's
    device callback followed by the built-in device pass; the first
    negative device callback ends the phase with -1. When all of them
    succeed (and the OS type is set), the built-in whole-definition pass
    runs last. *)
Theorem postparse_domain_then_devices xmlopt def f g ret def1 :
  domainCb xmlopt = Some f -> devicesCb xmlopt = Some g -> f def = (ret, def1) ->
  (ret < 0 -> virDomainDefPostParse def xmlopt = Some (ret, [EvDomainCb])) /\
  (0 <= ret -> def_os_type def1 <> None ->
   (forall r, In r (map fst (specOrder def1 true)) -> 0 <= g r def1) ->
   exists r0, virDomainDefPostParse def xmlopt =
     Some (r0, EvDomainCb :: flat_map devEvents (map fst (specOrder def1 true))
                 ++ [EvDefInternal])) /\
  (forall pre r post, 0 <= ret ->
   map fst (specOrder def1 true) = pre ++ r :: post ->
   (forall r', In r' pre -> 0 <= g r' def1) -> g r def1 < 0 ->
   virDomainDefPostParse def xmlopt =
     Some (-1, EvDomainCb :: flat_map devEvents pre ++ [EvDeviceCb r])).
Proof.
  intros Hf Hg Hdef. unfold virDomainDefPostParse. rewrite Hf, Hdef.
  split; [|split].
  - intros H. replace (ret <? 0) with true by (symmetry; apply Z.ltb_lt; lia).
    reflexivity.
  - intros H Hos Hall. replace (ret <? 0) with false by (symmetry; apply Z.ltb_ge; lia).
    rewrite iterate_walk, (walk_all_ok xmlopt def1 g Hg _ Hall).
    cbn [Z.ltb Z.compare].
    destruct (postParseInternal_some (setConsoles def1 (map consoleFix (def_consoles def1))))
      as [z Hz]; [rewrite setConsoles_os_type; exact Hos|].
    rewrite Hz. eexists; reflexivity.
  - intros pre r post H Hl Hpre Hr.
    replace (ret <? 0) with false by (symmetry; apply Z.ltb_ge; lia).
    rewrite iterate_walk, (walk_first_fail xmlopt def1 g Hg pre r post _ Hl Hpre Hr).
    reflexivity.
Qed.

Lemma postparse_domain_then_devices_witness :
  virDomainDefPostParse (setConsoles ABI.exe_def [console0]) rejectConsoles =
  Some (-1, [EvDomainCb; EvDeviceCb (RConsole 0)]).
Proof.
  destruct (postparse_domain_then_devices rejectConsoles
              (setConsoles ABI.exe_def [console0]) keepDef rejectConsolesCb 0
              (setConsoles ABI.exe_def [console0]) eq_refl eq_refl eq_refl)
    as [_ [_ H3]].
  apply (H3 [] (RConsole 0) []).
  - lia.
  - vm_compute. reflexivity.
  - intros r' [].
  - vm_compute. reflexivity.
Defined.

End PostParseClaims.

Module DiskClaims.
Import DiskParse.

(** The scenario of the specification: a floppy with target "sda" is
    rejected whatever the source and read-only setting. *)
Lemma floppy_sda_rejected src ro :
  virDomainDiskDefParseTarget (Some "floppy"%string) src (Some "sda"%string) ro = None.
Proof. destruct src, ro; reflexivity. Qed.

(** C8: whenever the disk checks accept, the device category is the one
    named by the [device] attribute (disk when absent), the target name
    is present, a floppy's target starts with "fd", and a disk or LUN
    target starts with one of "hd", "sd", "vd", "xvd", "ubd". *)
Theorem disk_target_prefix_checked device src target ro dev t ro' :
  virDomainDiskDefParseTarget device src target ro = Some (dev, t, ro') ->
  dev = diskDevice device /\ target = Some t /\
  (dev = VIR_DOMAIN_DISK_DEVICE_FLOPPY -> STRPREFIX t "fd" = true) /\
  (dev = VIR_DOMAIN_DISK_DEVICE_DISK \/ dev = VIR_DOMAIN_DISK_DEVICE_LUN ->
   existsb (STRPREFIX t) harddiskPrefixes = true).
Proof.
  unfold virDomainDiskDefParseTarget, harddiskPrefixes.
  destruct (diskDevice device <? 0); [discriminate|].
  destruct (_ && _ && _); [discriminate|].
  destruct target as [t0|]; [|discriminate].
  destruct ((diskDevice device =? VIR_DOMAIN_DISK_DEVICE_FLOPPY) &&
            negb (STRPREFIX t0 "fd")) eqn:Hfl; [discriminate|].
  destruct (((diskDevice device =? VIR_DOMAIN_DISK_DEVICE_DISK) ||
             (diskDevice device =? VIR_DOMAIN_DISK_DEVICE_LUN)) &&
            negb (STRPREFIX t0 "hd") && negb (STRPREFIX t0 "sd") &&
            negb (STRPREFIX t0 "vd") && negb (STRPREFIX t0 "xvd") &&
            negb (STRPREFIX t0 "ubd")) eqn:Hhd; [discriminate|].
  intros H; injection H as <- <- _.
  repeat split.
  - intros Hd. rewrite Hd in Hfl. cbn in Hfl. destruct (STRPREFIX t0 "fd"); [reflexivity|discriminate].
  - intros Hd. assert (Hb : ((diskDevice device =? VIR_DOMAIN_DISK_DEVICE_DISK) ||
                             (diskDevice device =? VIR_DOMAIN_DISK_DEVICE_LUN)) = true).
    { destruct Hd as [Hd|Hd]; rewrite Hd; reflexivity. }
    rewrite Hb in Hhd. cbn [existsb].
    destruct (STRPREFIX t0 "hd"), (STRPREFIX t0 "sd"), (STRPREFIX t0 "vd"),
      (STRPREFIX t0 "xvd"), (STRPREFIX t0 "ubd"); try reflexivity; discriminate.
Qed.

Lemma disk_target_prefix_checked_witness :
  virDomainDiskDefParseTarget (Some "floppy"%string) false (Some "fda"%string) false =
    Some (2, "fda"%string, false) /\
  (2 = diskDevice (Some "floppy"%string) /\ Some "fda"%string = Some "fda"%string /\
   (2 = VIR_DOMAIN_DISK_DEVICE_FLOPPY -> STRPREFIX "fda" "fd" = true) /\
   (2 = VIR_DOMAIN_DISK_DEVICE_DISK \/ 2 = VIR_DOMAIN_DISK_DEVICE_LUN ->
    existsb (STRPREFIX "fda") harddiskPrefixes = true)).
Proof.
  split; [reflexivity|].
  apply (disk_target_prefix_checked (Some "floppy"%string) false (Some "fda"%string) false
           2 "fda"%string false).
  reflexivity.
Defined.

End DiskClaims.

Module SingletonsFacts.
Import Singletons.

Section Facts.
Variable xmlNode : Type.
Variable vparse : xmlNode -> option virDomainVideoDef.

Lemma countPrimary_app l1 l2 : countPrimary (l1 ++ l2) = (countPrimary l1 + countPrimary l2)%nat.
Proof. unfold countPrimary. rewrite filter_app, length_app. reflexivity. Qed.

Lemma videoLoop_count (p : bool) vs ns out :
  countPrimary vs = (if p then 1 else 0)%nat ->
  videoLoop xmlNode vparse p vs ns = Some out -> (countPrimary out <= 1)%nat.
Proof.
  revert p vs; induction ns as [|n ns IH]; intros p vs Hc H; cbn in H.
  - injection H as <-. rewrite Hc. destruct p; lia.
  - destruct (vparse n) as [v|]; [|discriminate].
    destruct (video_primary v) eqn:Hp.
    + destruct p; [discriminate|]. apply (IH true (v :: vs)); [|exact H].
      unfold countPrimary in *; cbn. rewrite Hp. cbn. rewrite Hc. reflexivity.
    + apply (IH p (vs ++ [v])); [|exact H].
      rewrite countPrimary_app, Hc. unfold countPrimary; cbn. rewrite Hp. cbn. lia.
Qed.

Lemma videoLoop_reject (p : bool) vs ns :
  (1 < (if p then 1 else 0) + List.length (primaryNodes xmlNode vparse ns))%nat ->
  videoLoop xmlNode vparse p vs ns = None.
Proof.
  revert p vs; induction ns as [|n ns IH]; intros p vs H; unfold primaryNodes in *; cbn in *.
  - destruct p; lia.
  - destruct (vparse n) as [v|]; [|reflexivity].
    destruct (video_primary v); cbn in H.
    + destruct p; [reflexivity|]. apply IH. unfold primaryNodes. lia.
    + apply IH. exact H.
Qed.

Lemma compatVideo_count t ram ng vs out :
  (countPrimary vs <= 1)%nat -> compatVideo t ram ng vs = Some out ->
  (countPrimary out <= 1)%nat.
Proof.
  intros Hc H; unfold compatVideo in H.
  destruct ng, vs; try (injection H as <-; exact Hc).
  destruct (t <? 0); [discriminate|]. injection H as <-. cbn. lia.
Qed.

Lemma atMostOne_reject {A} (parse : xmlNode -> option A) nodes :
  (1 < List.length nodes)%nat -> atMostOne xmlNode parse nodes = None.
Proof. intros H. destruct nodes as [|a [|b l]]; cbn in *; try lia; reflexivity. Qed.

Lemma parseMemballoon_reject mparse virtType nodes :
  (1 < List.length nodes)%nat -> parseMemballoon xmlNode mparse virtType nodes = None.
Proof. intros H. destruct nodes as [|a [|b l]]; cbn in *; try lia; reflexivity. Qed.

End Facts.
End SingletonsFacts.

Module SingletonsClaims.
Import Singletons SingletonsFacts.

(** C7: the parsed definition holds the watchdog, memory balloon, RNG
    and redirection filter each in a single optional field, as the
    structure's single pointers do; whenever this stretch of
    [virDomainDefParseXML] succeeds, at most one video is primary; and a
    document with two primary videos, or with more than one <watchdog>,
    <memballoon>, <rng> or <redirfilter> element, is rejected. *)
Theorem singletons_at_most_one (xmlNode : Type)
  (vparse : xmlNode -> option virDomainVideoDef)
  (wparse : xmlNode -> option virDomainWatchdogDef)
  (mparse : xmlNode -> option virDomainMemballoonDef)
  (rparse : xmlNode -> option virDomainRNGDef)
  (fparse : xmlNode -> option virDomainRedirFilterDef)
  (defType : Z) (defRAM : Z -> Z) (virtType : Z) (ngraphics : nat)
  (vN wN mN rN fN : list xmlNode) :
  (forall out,
     parseSingletons xmlNode vparse wparse mparse rparse fparse defType defRAM
       virtType ngraphics vN wN mN rN fN = Some out ->
     (countPrimary (p_videos out) <= 1)%nat) /\
  ((1 < List.length (primaryNodes xmlNode vparse vN) \/ 1 < List.length wN \/
    1 < List.length mN \/ 1 < List.length rN \/ 1 < List.length fN)%nat ->
   parseSingletons xmlNode vparse wparse mparse rparse fparse defType defRAM
     virtType ngraphics vN wN mN rN fN = None).
Proof.
  unfold parseSingletons. split.
  - intros out H.
    destruct (videoLoop xmlNode vparse false [] vN) as [vs|] eqn:Hv; [|discriminate].
    destruct (compatVideo defType defRAM ngraphics vs) as [videos|] eqn:Hc; [|discriminate].
    destruct (atMostOne xmlNode wparse wN); [|discriminate].
    destruct (parseMemballoon xmlNode mparse virtType mN); [|discriminate].
    destruct (atMostOne xmlNode rparse rN); [|discriminate].
    destruct (atMostOne xmlNode fparse fN); [|discriminate].
    injection H as <-. cbn [p_videos].
    eapply compatVideo_count; [|exact Hc].
    eapply videoLoop_count; [|exact Hv]. reflexivity.
  - intros [H|[H|[H|[H|H]]]].
    + rewrite videoLoop_reject by exact H. reflexivity.
    + destruct (videoLoop _ _ _ _ _); [|reflexivity].
      destruct (compatVideo _ _ _ _); [|reflexivity].
      rewrite atMostOne_reject by exact H. reflexivity.
    + destruct (videoLoop _ _ _ _ _); [|reflexivity].
      destruct (compatVideo _ _ _ _); [|reflexivity].
      destruct (atMostOne _ _ wN); [|reflexivity].
      rewrite parseMemballoon_reject by exact H. reflexivity.
    + destruct (videoLoop _ _ _ _ _); [|reflexivity].
      destruct (compatVideo _ _ _ _); [|reflexivity].
      destruct (atMostOne _ _ wN); [|reflexivity].
      destruct (parseMemballoon _ _ _ _); [|reflexivity].
      rewrite atMostOne_reject by exact H. reflexivity.
    + destruct (videoLoop _ _ _ _ _); [|reflexivity].
      destruct (compatVideo _ _ _ _); [|reflexivity].
      destruct (atMostOne _ _ wN); [|reflexivity].
      destruct (parseMemballoon _ _ _ _); [|reflexivity].
      destruct (atMostOne _ _ rN); [|reflexivity].
      rewrite atMostOne_reject by exact H. reflexivity.
Qed.

Lemma singletons_at_most_one_witness :
  parseSingletons nat sampleVideo sampleWatchdog sampleMemballoon sampleRNG
    sampleRedirFilter 0 (fun _ => 0) 4 0 [1; 0]%nat [] [] [] [] =
    Some (mkParsed [mkVideo 0 0 1 None true info0; mkVideo 0 0 1 None false info0]
            None None None None) /\
  (countPrimary [mkVideo 0 0 1 None true info0; mkVideo 0 0 1 None false info0] <= 1)%nat /\
  parseSingletons nat sampleVideo sampleWatchdog sampleMemballoon sampleRNG
    sampleRedirFilter 0 (fun _ => 0) 4 0 [0; 0]%nat [] [] [] [] = None.
Proof.
  split; [reflexivity|]. split.
  - apply (proj1 (singletons_at_most_one nat sampleVideo sampleWatchdog sampleMemballoon
                    sampleRNG sampleRedirFilter 0 (fun _ => 0) 4 0 [1; 0]%nat [] [] [] [])
             (mkParsed [mkVideo 0 0 1 None true info0; mkVideo 0 0 1 None false info0]
                None None None None)).
    reflexivity.
  - apply (proj2 (singletons_at_most_one nat sampleVideo sampleWatchdog sampleMemballoon
                    sampleRNG sampleRedirFilter 0 (fun _ => 0) 4 0 [0; 0]%nat [] [] [] [])).
    left. vm_compute. lia.
Defined.

End SingletonsClaims.

Module FormatFacts.
Import Format.

(** Bitwise facts, proved bit by bit. *)
Ltac bitwise :=
  apply Z.bits_inj'; intros ?n ?Hn;
  repeat first [ rewrite Z.land_spec | rewrite Z.lor_spec
               | rewrite Z.lnot_spec by exact Hn | rewrite Z.bits_0 ].

Lemma land_lor_l_zero a b c : Z.land (Z.lor a b) c = 0 -> Z.land a c = 0.
Proof.
  intros H. apply Z.bits_inj'. intros n Hn.
  assert (Hb := f_equal (fun x => Z.testbit x n) H). cbn beta in Hb.
  rewrite Z.land_spec, Z.lor_spec, Z.bits_0 in Hb.
  rewrite Z.land_spec, Z.bits_0.
  destruct (Z.testbit a n), (Z.testbit b n), (Z.testbit c n); auto.
Qed.

Lemma land_lor_r_zero a b c : Z.land (Z.lor a b) c = 0 -> Z.land b c = 0.
Proof. rewrite Z.lor_comm. apply land_lor_l_zero. Qed.

(** A bit outside the supported set that survives [flags & ~supported]. *)
Lemma disjoint_unsupported flags x s :
  Z.land x s = 0 -> Z.land flags (Z.lnot s) = 0 -> Z.land flags x = 0.
Proof.
  intros Hx Hf. apply Z.bits_inj'. intros n Hn.
  assert (H1 := f_equal (fun y => Z.testbit y n) Hx).
  assert (H2 := f_equal (fun y => Z.testbit y n) Hf). cbn beta in H1, H2.
  rewrite Z.land_spec, Z.bits_0 in H1.
  rewrite Z.land_spec, Z.lnot_spec, Z.bits_0 in H2 by exact Hn.
  rewrite Z.land_spec, Z.bits_0.
  destruct (Z.testbit flags n), (Z.testbit x n), (Z.testbit s n); auto.
Qed.

Lemma checkFlags_lor s f x :
  Z.land x (Z.lnot s) = 0 -> virCheckFlags s (Z.lor f x) = virCheckFlags s f.
Proof.
  intros H. unfold virCheckFlags. rewrite Z.land_lor_distr_l, H, Z.lor_0_r. reflexivity.
Qed.

Lemma inactive_supported S I U M :
  Z.land I (Z.lnot (DUMPXML_FLAGS S I U M)) = 0.
Proof.
  unfold DUMPXML_FLAGS. bitwise.
  destruct (Z.testbit I n); cbn; [rewrite ?orb_true_r|]; reflexivity.
Qed.

Lemma inactive_supported_internal S I U M :
  Z.land I (Z.lnot (Z.lor (DUMPXML_FLAGS S I U M) INTERNAL_FLAGS)) = 0.
Proof.
  unfold DUMPXML_FLAGS. bitwise.
  destruct (Z.testbit I n); cbn; [rewrite ?orb_true_r|]; reflexivity.
Qed.

Lemma lor_land_self f I : Z.land (Z.lor f I) I = I.
Proof.
  bitwise. destruct (Z.testbit f n), (Z.testbit I n); reflexivity.
Qed.

Lemma lor_idem_r f I : Z.lor (Z.lor f I) I = Z.lor f I.
Proof. rewrite <- Z.lor_assoc, Z.lor_diag. reflexivity. Qed.

End FormatFacts.

Module FormatClaims.
Import Format FormatFacts.

Section Public.

Variables SECURE INACTIVE UPDATE_CPU MIGRATABLE : Z.
Variable nsAttr : virDomainDef -> string.
Variable formatBody : virDomainDef -> Z -> option string.

Local Abbreviation DUMP := (DUMPXML_FLAGS SECURE INACTIVE UPDATE_CPU MIGRATABLE).

(** The compile-time assertion next to [DUMPXML_FLAGS]:
    [verify(((INTERNAL_STATUS | INTERNAL_ACTUAL_NET | INTERNAL_PCI_ORIG_STATES)
    & DUMPXML_FLAGS) == 0)]. *)
Hypothesis verify_internal : Z.land INTERNAL_FLAGS DUMP = 0.

(** C9: each of the three internal status flags is disjoint from the
    public flag set, and the public [virDomainDefFormat] returns NULL
    (no output) for any flags with a bit outside the public set, in
    particular for any flags with an internal status bit. *)
Theorem format_rejects_internal_flags :
  Z.land VIR_DOMAIN_XML_INTERNAL_STATUS DUMP = 0 /\
  Z.land VIR_DOMAIN_XML_INTERNAL_ACTUAL_NET DUMP = 0 /\
  Z.land VIR_DOMAIN_XML_INTERNAL_PCI_ORIG_STATES DUMP = 0 /\
  (forall def flags, Z.land flags (Z.lnot DUMP) <> 0 ->
     virDomainDefFormat SECURE INACTIVE UPDATE_CPU MIGRATABLE nsAttr formatBody def flags = None) /\
  (forall def flags, Z.land flags INTERNAL_FLAGS <> 0 ->
     virDomainDefFormat SECURE INACTIVE UPDATE_CPU MIGRATABLE nsAttr formatBody def flags = None).
Proof.
  assert (Hu : forall def flags, Z.land flags (Z.lnot DUMP) <> 0 ->
     virDomainDefFormat SECURE INACTIVE UPDATE_CPU MIGRATABLE nsAttr formatBody def flags = None).
  { intros def flags H. unfold virDomainDefFormat, virCheckFlags.
    apply Z.eqb_neq in H. rewrite H. reflexivity. }
  unfold INTERNAL_FLAGS in verify_internal.
  split; [|split; [|split; [|split]]].
  - eapply land_lor_l_zero, land_lor_l_zero, verify_internal.
  - eapply land_lor_r_zero, land_lor_l_zero, verify_internal.
  - eapply land_lor_r_zero, verify_internal.
  - exact Hu.
  - intros def flags H. apply Hu. intros Hf. apply H.
    apply (disjoint_unsupported flags INTERNAL_FLAGS DUMP); [exact verify_internal | exact Hf].
Qed.

End Public.

Section NotRunning.

Variables SECURE INACTIVE UPDATE_CPU MIGRATABLE : Z.
Variable nsAttr : virDomainDef -> string.
Variable formatBody : virDomainDef -> Z -> option string.

(** [VIR_DOMAIN_XML_INACTIVE] is a flag bit, not zero. *)
Hypothesis inactive_nonzero : INACTIVE <> 0.

Local Abbreviation fmtInternal :=
  (virDomainDefFormatInternal SECURE INACTIVE UPDATE_CPU MIGRATABLE nsAttr formatBody).
Local Abbreviation fmt :=
  (virDomainDefFormat SECURE INACTIVE UPDATE_CPU MIGRATABLE nsAttr formatBody).

(** C10: for a definition with id -1 the formatter behaves as if the
    caller had added [VIR_DOMAIN_XML_INACTIVE] (for the internal and the
    public entry point), and on success it writes the opening tag without
    an id attribute followed by the body formatted with the inactive flag
    set. *)
Theorem format_not_running_is_inactive def flags :
  def_id def = -1 ->
  fmtInternal def flags = fmtInternal def (Z.lor flags INACTIVE) /\
  fmt def flags = fmt def (Z.lor flags INACTIVE) /\
  (forall type, virDomainVirtTypeToString (def_virtType def) = Some type ->
   virCheckFlags (Z.lor (DUMPXML_FLAGS SECURE INACTIVE UPDATE_CPU MIGRATABLE) INTERNAL_FLAGS)
     flags = true ->
   fmtInternal def flags =
     option_map (fun body => (inactiveHeader nsAttr def type ++ body)%string)
       (formatBody def (Z.lor flags INACTIVE))).
Proof.
  intros Hid.
  assert (E : (def_id def =? -1) = true) by (rewrite Hid; reflexivity).
  assert (P1 : fmtInternal def flags = fmtInternal def (Z.lor flags INACTIVE)).
  { unfold virDomainDefFormatInternal. rewrite E.
    rewrite (checkFlags_lor _ flags INACTIVE (inactive_supported_internal _ _ _ _)).
    rewrite lor_idem_r. reflexivity. }
  split; [exact P1|split].
  - unfold virDomainDefFormat.
    rewrite (checkFlags_lor _ flags INACTIVE (inactive_supported _ _ _ _)).
    rewrite P1. reflexivity.
  - intros type Ht Hc. unfold virDomainDefFormatInternal.
    rewrite Hc, Ht, E. cbv zeta. rewrite lor_land_self.
    replace (INACTIVE =? 0) with false by (symmetry; apply Z.eqb_neq; exact inactive_nonzero).
    destruct (formatBody def (Z.lor flags INACTIVE)); reflexivity.
Qed.

End NotRunning.

Lemma format_rejects_internal_flags_witness :
  Z.land INTERNAL_FLAGS (DUMPXML_FLAGS 1 2 4 8) = 0 /\
  virDomainDefFormat 1 2 4 8 noNs sampleBody ABI.exe_def
    VIR_DOMAIN_XML_INTERNAL_STATUS = None.
Proof.
  split; [reflexivity|].
  apply (proj2 (proj2 (proj2 (proj2
    (format_rejects_internal_flags 1 2 4 8 noNs sampleBody eq_refl))))).
  vm_compute. discriminate.
Defined.

Lemma format_not_running_is_inactive_witness :
  def_id ABI.exe_def = -1 /\
  virDomainDefFormatInternal 1 2 4 8 noNs sampleBody ABI.exe_def 0 =
    option_map (fun body => (inactiveHeader noNs ABI.exe_def "lxc" ++ body)%string)
      (sampleBody ABI.exe_def (Z.lor 0 2)).
Proof.
  split; [reflexivity|].
  apply (proj2 (proj2 (format_not_running_is_inactive 1 2 4 8 noNs sampleBody
                         ltac:(discriminate) ABI.exe_def 0 eq_refl))).
  - reflexivity.
  - reflexivity.
Defined.

Section Running.

Variables SECURE INACTIVE UPDATE_CPU MIGRATABLE : Z.
Variable nsAttr : virDomainDef -> string.
Variable formatBody : virDomainDef -> Z -> option string.

Local Abbreviation fmtInternal :=
  (virDomainDefFormatInternal SECURE INACTIVE UPDATE_CPU MIGRATABLE nsAttr formatBody).

(** For a running definition (id other than -1) the formatter writes
    the [id] attribute in the opening tag when [VIR_DOMAIN_XML_INACTIVE]
    is not requested, and no [id] attribute when it is; the body is
    formatted with the flags as given. *)
Theorem format_running_writes_id def flags type
  (Hid : def_id def <> -1)
  (Htype : virDomainVirtTypeToString (def_virtType def) = Some type)
  (Hflags : virCheckFlags (Z.lor (DUMPXML_FLAGS SECURE INACTIVE UPDATE_CPU MIGRATABLE)
                                 INTERNAL_FLAGS) flags = true) :
  (Z.land flags INACTIVE = 0 ->
   fmtInternal def flags =
     option_map (fun body =>
       ("<domain type='" ++ type ++ "'" ++ (" id='" ++ string_of_Z (def_id def) ++ "'") ++
        nsAttr def ++ ">" ++ nl) ++ body)%string
       (formatBody def flags)) /\
  (Z.land flags INACTIVE <> 0 ->
   fmtInternal def flags =
     option_map (fun body => (inactiveHeader nsAttr def type ++ body)%string)
       (formatBody def flags)).
Proof.
  assert (E : (def_id def =? -1) = false) by (apply Z.eqb_neq; exact Hid).
  unfold virDomainDefFormatInternal. rewrite Hflags, Htype, E. cbn [negb].
  split; intros Hi.
  - rewrite Hi. cbn [Z.eqb]. destruct (formatBody def flags); reflexivity.
  - replace (Z.land flags INACTIVE =? 0) with false by (symmetry; apply Z.eqb_neq; exact Hi).
    destruct (formatBody def flags); reflexivity.
Qed.

End Running.

Lemma format_running_writes_id_witness :
  virDomainDefFormatInternal 1 2 4 8 noNs sampleBody
    {| def_virtType := 4; def_id := 5; def_uuid := [];
       def_max_balloon := 0; def_cur_balloon := 0; def_hugepage_backed := false;
       def_vcpus := 1; def_maxvcpus := 1; def_os_type := None; def_os_arch := 0;
       def_os_machine := None; def_os_smbios_mode := 0; def_os_init := None;
       def_features := 0; def_timers := []; def_cpu := None; def_sysinfo := None;
       def_disks := []; def_controllers := []; def_fss := []; def_nets := [];
       def_inputs := []; def_sounds := []; def_videos := []; def_hostdevs := [];
       def_smartcards := []; def_serials := []; def_parallels := [];
       def_channels := []; def_consoles := []; def_hubs := []; def_redirdevs := [];
       def_redirfilter := None; def_watchdog := None; def_memballoon := None;
       def_rng := None |} 0 =
  Some ("<domain type='lxc' id='5'>" ++ nl ++ "live")%string.
Proof.
  lazymatch goal with
  | |- virDomainDefFormatInternal _ _ _ _ _ _ ?d _ = _ =>
      rewrite (proj1 (format_running_writes_id 1 2 4 8 noNs sampleBody d 0 "lxc"%string
                        ltac:(discriminate) eq_refl eq_refl) eq_refl)
  end.
  reflexivity.
Defined.

End FormatClaims.

(** ** Enumeration tables *)

Module EnumFacts.
Import Enum.

Fixpoint nodupb (l : list string) : bool :=
  match l with
  | [] => true
  | x :: xs => negb (existsb (String.eqb x) xs) && nodupb xs
  end.

Lemma nodupb_NoDup l : nodupb l = true -> NoDup l.
Proof.
  induction l as [|x xs IH]; simpl; intros H; constructor.
  - apply andb_true_iff in H as [H _]. apply negb_true_iff in H.
    intros Hin. assert (existsb (String.eqb x) xs = true) as E.
    { apply existsb_exists. exists x. split; [exact Hin|apply String.eqb_refl]. }
    congruence.
  - apply IH. apply andb_true_iff in H. tauto.
Qed.

Lemma enumIndex_nth types s i k :
  NoDup types -> nth_error types k = Some s -> enumIndex types s i = i + Z.of_nat k.
Proof.
  revert i k. induction types as [|t ts IH]; intros i k Hnd Hk.
  - destruct k; discriminate.
  - inversion Hnd as [|? ? Hnin Hnd']; subst. destruct k as [|k]; simpl in Hk |- *.
    + injection Hk as ->. rewrite String.eqb_refl. lia.
    + assert (Hne : t <> s) by (intros ->; apply Hnin; eapply nth_error_In; eauto).
      apply String.eqb_neq in Hne. rewrite Hne, (IH (i + 1) k Hnd' Hk). lia.
Qed.

Lemma enumIndex_found types s i :
  0 <= i -> 0 <= enumIndex types s i ->
  exists k, nth_error types k = Some s /\ enumIndex types s i = i + Z.of_nat k.
Proof.
  revert i. induction types as [|t ts IH]; intros i Hi H; simpl in *.
  - lia.
  - destruct (String.eqb t s) eqn:E.
    + apply String.eqb_eq in E; subst. exists O. split; [reflexivity|lia].
    + destruct (IH (i + 1)) as [k [Hk Hv]]; [lia|exact H|].
      exists (S k). split; [exact Hk|]. rewrite Hv. lia.
Qed.

(** A name read back through [virEnumFromString] gives its index, and an
    index found by name gives the name back. *)
Lemma enum_to_from types t :
  NoDup types -> 0 <= t < Z.of_nat (List.length types) ->
  exists name, virEnumToString types t = Some name /\
               virEnumFromString types (Some name) = t.
Proof.
  intros Hnd Ht. unfold virEnumToString, virEnumFromString.
  destruct (Z.ltb_spec t 0); [lia|].
  destruct (nth_error types (Z.to_nat t)) as [name|] eqn:E.
  - exists name. split; [reflexivity|]. rewrite (enumIndex_nth _ _ 0 _ Hnd E). lia.
  - apply nth_error_None in E. lia.
Qed.

Lemma enum_from_to types name :
  0 <= virEnumFromString types (Some name) ->
  virEnumToString types (virEnumFromString types (Some name)) = Some name.
Proof.
  unfold virEnumFromString, virEnumToString. intros H.
  destruct (enumIndex_found types name 0) as [k [Hk Hv]]; [lia|exact H|].
  rewrite Hv. destruct (Z.ltb_spec (0 + Z.of_nat k) 0); [lia|].
  rewrite Z.add_0_l, Nat2Z.id. exact Hk.
Qed.

End EnumFacts.

Module StatusFacts.
Import Enum EnumFacts Status.

Lemma reasonTable_valid state :
  0 <= state < VIR_DOMAIN_LAST ->
  exists types, reasonTable state = Some types /\
    stateReasonLast state = Z.of_nat (List.length types) /\ types <> [] /\ NoDup types /\
    ~ In EmptyString types.
Proof.
  unfold VIR_DOMAIN_LAST. intros Hs.
  assert (state = 0 \/ state = 1 \/ state = 2 \/ state = 3 \/ state = 4 \/
          state = 5 \/ state = 6 \/ state = 7) as Hc by lia.
  repeat destruct Hc as [->|Hc]; try subst state;
  (eexists; split; [reflexivity|]; split; [reflexivity|]; split; [discriminate|]; split;
   [apply nodupb_NoDup; reflexivity | simpl; intuition discriminate]).
Qed.

Lemma stateList_ok :
  NoDup virDomainStateList /\ ~ In EmptyString virDomainStateList /\
  List.length virDomainStateList = 8%nat.
Proof.
  split; [apply nodupb_NoDup; reflexivity|]. split; [simpl; intuition discriminate|reflexivity].
Qed.

Lemma taintList_ok :
  NoDup virDomainTaintList /\ List.length virDomainTaintList = 7%nat.
Proof. split; [apply nodupb_NoDup; reflexivity|reflexivity]. Qed.

Lemma name_nonempty (types : list string) t name :
  ~ In EmptyString types -> virEnumToString types t = Some name ->
  virXPathString (Some name) = Some name.
Proof.
  unfold virEnumToString. intros Hne H. destruct (t <? 0); [discriminate|].
  apply nth_error_In in H. destruct name; [contradiction|reflexivity].
Qed.

Lemma setState_valid dom state reason :
  0 <= state < VIR_DOMAIN_LAST ->
  virDomainObjSetState dom state reason =
  mkObj state (if (reason >? 0) && (reason <? stateReasonLast state) then reason else 0)
        (obj_taint dom).
Proof.
  intros Hs. destruct (reasonTable_valid state Hs) as [types [_ [Hl _]]].
  unfold virDomainObjSetState. rewrite Hl.
  destruct (Z.ltb_spec (Z.of_nat (List.length types)) 0); [lia|reflexivity].
Qed.

Lemma setState_invalid dom state reason :
  ~ 0 <= state < VIR_DOMAIN_LAST -> virDomainObjSetState dom state reason = dom.
Proof.
  unfold VIR_DOMAIN_LAST. intros Hs. unfold virDomainObjSetState, stateReasonLast.
  repeat match goal with |- context [?a =? ?b] =>
    destruct (Z.eqb_spec a b); [unfold VIR_DOMAIN_NOSTATE, VIR_DOMAIN_RUNNING,
      VIR_DOMAIN_BLOCKED, VIR_DOMAIN_PAUSED, VIR_DOMAIN_SHUTDOWN, VIR_DOMAIN_SHUTOFF,
      VIR_DOMAIN_CRASHED, VIR_DOMAIN_PMSUSPENDED in *; lia|] end.
  reflexivity.
Qed.

Lemma taint_bit obj n :
  0 <= n ->
  snd (virDomainObjTaint obj n) =
  mkObj (obj_state obj) (obj_reason obj) (Z.lor (obj_taint obj) (Z.shiftl 1 n)).
Proof.
  intros Hn. unfold virDomainObjTaint.
  destruct (Z.land (obj_taint obj) (Z.shiftl 1 n) =? 0) eqn:E; simpl; [reflexivity|].
  destruct obj as [s r t]; simpl in *. f_equal.
  apply Z.eqb_neq in E. rewrite Z.shiftl_1_l in *.
  assert (Hb : Z.testbit t n = true).
  { destruct (Z.testbit t n) eqn:Hb; [reflexivity|exfalso; apply E].
    apply Z.bits_inj'. intros j Hj. rewrite Z.land_spec, Z.pow2_bits_eqb by lia.
    rewrite Z.bits_0. destruct (Z.eqb_spec n j); [subst; rewrite Hb|];
    apply andb_false_r || apply andb_false_l || reflexivity. }
  apply Z.bits_inj'. intros j Hj. rewrite Z.lor_spec, Z.pow2_bits_eqb by lia.
  destruct (Z.eqb_spec n j); [subst; rewrite Hb|]; simpl; [reflexivity|symmetry; apply orb_false_r].
Qed.

Lemma parseTaints_app obj l1 l2 :
  parseTaints obj (l1 ++ l2) =
  match parseTaints obj l1 with Some o => parseTaints o l2 | None => None end.
Proof.
  revert obj. induction l1 as [|[s|] l1 IH]; intros obj; cbn [app parseTaints];
    [reflexivity| |apply IH].
  destruct (virDomainTaintTypeFromString (Some s) <? 0); [reflexivity|apply IH].
Qed.

Definition taintFlags (t : Z) (n : nat) : list (option string) :=
  flat_map (fun i =>
    if negb (Z.land t (Z.shiftl 1 (Z.of_nat i)) =? 0)
    then [virDomainTaintTypeToString (Z.of_nat i)] else []) (seq 0 n).

Lemma taintFlags_parse obj t n :
  (n <= 7)%nat ->
  parseTaints obj (taintFlags t n) =
  Some (mkObj (obj_state obj) (obj_reason obj)
              (Z.lor (obj_taint obj) (Z.land t (Z.ones (Z.of_nat n))))).
Proof.
  induction n as [|n IH]; intros Hn.
  - simpl. destruct obj as [s r u]. simpl. rewrite Z.land_0_r, Z.lor_0_r. reflexivity.
  - unfold taintFlags. rewrite seq_S, Nat.add_0_l, flat_map_app. fold (taintFlags t n).
    rewrite parseTaints_app, IH by lia. cbn [flat_map]. rewrite app_nil_r.
    rewrite Z.shiftl_1_l.
    assert (Hbits : forall j, 0 <= j ->
      Z.testbit (Z.land t (Z.ones (Z.of_nat (S n)))) j =
      Z.testbit (Z.land t (Z.ones (Z.of_nat n))) j || (Z.testbit t j && (j =? Z.of_nat n))).
    { intros j Hj. rewrite !Z.land_spec, !Z.testbit_ones_nonneg by lia.
      destruct (Z.ltb_spec j (Z.of_nat n)), (Z.ltb_spec j (Z.of_nat (S n))),
               (Z.eqb_spec j (Z.of_nat n)); try lia; destruct (Z.testbit t j); reflexivity. }
    destruct (Z.land t (2 ^ Z.of_nat n) =? 0) eqn:E; cbn [negb parseTaints].
    + do 2 f_equal. apply Z.bits_inj'. intros j Hj.
      rewrite !Z.lor_spec, Hbits by exact Hj.
      destruct (Z.eqb_spec j (Z.of_nat n)); [subst j|]; rewrite ?andb_false_r, ?orb_false_r;
        [|reflexivity].
      apply Z.eqb_eq in E.
      assert (Z.testbit (Z.land t (2 ^ Z.of_nat n)) (Z.of_nat n) = false) as Hf
        by (rewrite E; apply Z.bits_0).
      rewrite Z.land_spec, Z.pow2_bits_true in Hf by lia. rewrite andb_true_r in Hf.
      rewrite Hf, andb_false_l, orb_false_r. reflexivity.
    + unfold virDomainTaintTypeToString, virDomainTaintTypeFromString.
      destruct (enum_to_from virDomainTaintList (Z.of_nat n)) as [name [Hto Hfrom]];
        [apply taintList_ok| rewrite (proj2 taintList_ok); lia|].
      rewrite Hto. cbn [parseTaints]. rewrite Hfrom.
      destruct (Z.ltb_spec (Z.of_nat n) 0); [lia|]. cbn [parseTaints].
      rewrite taint_bit by lia. cbn [obj_state obj_reason obj_taint]. do 2 f_equal.
      apply Z.eqb_neq in E.
      assert (Hb : Z.testbit t (Z.of_nat n) = true).
      { destruct (Z.testbit t (Z.of_nat n)) eqn:Hb; [reflexivity|exfalso; apply E].
        apply Z.bits_inj'. intros j Hj. rewrite Z.land_spec, Z.pow2_bits_eqb by lia.
        rewrite Z.bits_0. destruct (Z.eqb_spec (Z.of_nat n) j); [subst; rewrite Hb|];
        apply andb_false_r || apply andb_false_l || reflexivity. }
      apply Z.bits_inj'. intros j Hj.
      rewrite !Z.lor_spec, Hbits, Z.shiftl_1_l, Z.pow2_bits_eqb by lia.
      destruct (Z.eqb_spec j (Z.of_nat n)), (Z.eqb_spec (Z.of_nat n) j); try lia;
        [subst j; rewrite Hb|]; simpl; rewrite ?orb_true_r, ?andb_false_r, ?orb_false_r;
        reflexivity.
Qed.

End StatusFacts.

Module StatusClaims.
Import Enum EnumFacts Status StatusFacts.

(** The object state stays well named: [virDomainObjNew] creates an
    object that is shut off for an unknown reason with no taint, so its
    state and reason are entries of the enum tables,
    [virDomainObjSetState] keeps that so for any arguments, and for such
    an object the status formatter finds a name for both the state and
    the reason (it never hands NULL to the [%s] of [<domstatus>]). *)
Theorem state_names_defined (dom : virDomainObj) (state reason : Z) (Hok : stateOk dom) :
  virDomainObjNew = mkObj VIR_DOMAIN_SHUTOFF VIR_DOMAIN_SHUTOFF_UNKNOWN 0 /\
  stateOk virDomainObjNew /\
  stateOk (virDomainObjSetState dom state reason) /\
  (exists sname rname,
     sx_state (virDomainObjFormatStatus dom) = Some sname /\
     sx_reason (virDomainObjFormatStatus dom) = Some rname).
Proof.
  split; [reflexivity|].
  split; [unfold stateOk; cbv -[Z.le Z.lt]; lia|]. split.
  - destruct (Z.le_gt_cases 0 state); [destruct (Z.ltb_spec state VIR_DOMAIN_LAST)|].
    + rewrite setState_valid by lia. unfold stateOk; simpl.
      destruct (reasonTable_valid state) as [types [_ [Hl [Hnil _]]]]; [lia|].
      destruct ((reason >? 0) && (reason <? stateReasonLast state)) eqn:E.
      * apply andb_true_iff in E as [E1 E2]. apply Z.gtb_lt in E1. apply Z.ltb_lt in E2. lia.
      * rewrite Hl. destruct types; [congruence|]. simpl. lia.
    + rewrite setState_invalid by lia. exact Hok.
    + rewrite setState_invalid by lia. exact Hok.
  - destruct Hok as [Hs Hr]. destruct dom as [s r t]; simpl in *.
    destruct (reasonTable_valid s Hs) as [types [Ht [Hl [_ [Hnd _]]]]].
    destruct (enum_to_from virDomainStateList s) as [sn [Hsn _]];
      [apply stateList_ok|rewrite (proj2 (proj2 stateList_ok)); unfold VIR_DOMAIN_LAST in Hs; lia|].
    destruct (enum_to_from types r) as [rn [Hrn _]]; [exact Hnd|lia|].
    exists sn, rn. unfold virDomainObjFormatStatus, virDomainStateReasonToString; simpl.
    rewrite Ht. split; assumption.
Qed.

Lemma state_names_defined_witness :
  stateOk (mkObj VIR_DOMAIN_RUNNING 1 0) /\
  stateOk (virDomainObjSetState (mkObj VIR_DOMAIN_RUNNING 1 0) VIR_DOMAIN_PAUSED 42).
Proof.
  assert (H : stateOk (mkObj VIR_DOMAIN_RUNNING 1 0)) by (unfold stateOk; cbv -[Z.le Z.lt]; lia).
  split; [exact H|].
  exact (proj1 (proj2 (proj2 (state_names_defined (mkObj VIR_DOMAIN_RUNNING 1 0) VIR_DOMAIN_PAUSED 42 H)))).
Defined.

(** Reason names round-trip: for a valid state, every reason index of
    its table is written as a name that [virDomainStateReasonFromString]
    reads back to the same index, and every name it accepts is the one
    [virDomainStateReasonToString] writes for the index it returns. *)
Theorem state_reason_string_roundtrip (state : Z) (Hs : 0 <= state < VIR_DOMAIN_LAST) :
  (forall reason, 0 <= reason < stateReasonLast state ->
     exists name, virDomainStateReasonToString state reason = Some name /\
                  virDomainStateReasonFromString state (Some name) = reason) /\
  (forall name, 0 <= virDomainStateReasonFromString state (Some name) ->
     virDomainStateReasonToString state (virDomainStateReasonFromString state (Some name)) =
     Some name).
Proof.
  destruct (reasonTable_valid state Hs) as [types [Ht [Hl [_ [Hnd _]]]]].
  unfold virDomainStateReasonToString, virDomainStateReasonFromString. rewrite Ht.
  split.
  - intros reason Hr. apply enum_to_from; [exact Hnd|lia].
  - intros name H. apply enum_from_to. exact H.
Qed.

Lemma state_reason_string_roundtrip_witness :
  0 <= VIR_DOMAIN_PAUSED < VIR_DOMAIN_LAST /\
  virDomainStateReasonToString VIR_DOMAIN_PAUSED
    (virDomainStateReasonFromString VIR_DOMAIN_PAUSED (Some "ioerror"%string)) =
  Some "ioerror"%string.
Proof.
  assert (H : 0 <= VIR_DOMAIN_PAUSED < VIR_DOMAIN_LAST) by (unfold VIR_DOMAIN_PAUSED, VIR_DOMAIN_LAST; lia).
  split; [exact H|].
  apply (proj2 (state_reason_string_roundtrip VIR_DOMAIN_PAUSED H)). vm_compute. intros Hc; discriminate Hc.
Defined.

(** The status XML round trip: formatting the state, reason and taint
    flags of an object with a valid state ([virDomainObjFormat]) and
    parsing them back ([virDomainObjParseXML] on a fresh object) gives
    the same state and reason and the taint bits below
    [VIR_DOMAIN_TAINT_LAST]; higher taint bits are dropped. *)
Theorem status_xml_roundtrip (obj : virDomainObj) (Hok : stateOk obj) :
  virDomainObjParseStatus (virDomainObjFormatStatus obj) =
  Some (mkObj (obj_state obj) (obj_reason obj)
              (Z.land (obj_taint obj) (Z.ones VIR_DOMAIN_TAINT_LAST))).
Proof.
  destruct obj as [s r t]. destruct Hok as [Hs Hr]; simpl in *.
  destruct (reasonTable_valid s Hs) as [types [Ht [Hl [_ [Hnd Hne]]]]].
  destruct (enum_to_from virDomainStateList s) as [sn [Hsn Hsf]];
    [apply stateList_ok|rewrite (proj2 (proj2 stateList_ok)); unfold VIR_DOMAIN_LAST in Hs; lia|].
  destruct (enum_to_from types r) as [rn [Hrn Hrf]]; [exact Hnd|lia|].
  assert (Hf : virDomainObjFormatStatus (mkObj s r t) =
    mkStatusXML (virDomainStateTypeToString s) (virDomainStateReasonToString s r)
                (taintFlags t (Z.to_nat VIR_DOMAIN_TAINT_LAST))) by reflexivity.
  rewrite Hf. unfold virDomainObjParseStatus. cbn [sx_state sx_reason sx_taints].
  unfold virDomainStateTypeToString. rewrite Hsn.
  rewrite (name_nonempty virDomainStateList s sn) by (apply stateList_ok || exact Hsn).
  unfold virDomainStateTypeFromString. rewrite Hsf.
  destruct (Z.ltb_spec s 0); [lia|].
  unfold virDomainStateReasonToString. rewrite Ht, Hrn.
  rewrite (name_nonempty types r rn Hne Hrn).
  unfold virDomainStateReasonFromString. rewrite Ht, Hrf.
  destruct (Z.ltb_spec r 0); [lia|].
  rewrite setState_valid by exact Hs.
  rewrite taintFlags_parse by (unfold VIR_DOMAIN_TAINT_LAST; simpl; lia).
  cbn [obj_state obj_reason obj_taint].
  rewrite Z.lor_0_l, Z2Nat.id by (unfold VIR_DOMAIN_TAINT_LAST; lia).
  do 2 f_equal. destruct (Z.gtb_spec r 0), (Z.ltb_spec r (stateReasonLast s)); simpl; lia.
Qed.

Lemma status_xml_roundtrip_witness :
  stateOk (mkObj VIR_DOMAIN_PAUSED 5 (2 ^ 2 + 2 ^ 9)) /\
  virDomainObjParseStatus (virDomainObjFormatStatus (mkObj VIR_DOMAIN_PAUSED 5 (2 ^ 2 + 2 ^ 9))) =
  Some (mkObj VIR_DOMAIN_PAUSED 5 4).
Proof.
  assert (H : stateOk (mkObj VIR_DOMAIN_PAUSED 5 (2 ^ 2 + 2 ^ 9))) by (unfold stateOk; cbv -[Z.le Z.lt]; lia).
  split; [exact H|]. rewrite (status_xml_roundtrip _ H). reflexivity.
Defined.

End StatusClaims.

Module ChrTargetFacts.
Import Enum EnumFacts ChrTarget.

Lemma target_roundtrip_table (devtype t : Z) (tbl : list string) :
  (forall x, virDomainChrTargetTypeFromString devtype (Some x) =
             (virEnumFromString tbl (Some x), true)) ->
  (forall u, virDomainChrTargetTypeToString devtype u = virEnumToString tbl u) ->
  NoDup tbl -> 0 <= t < Z.of_nat (List.length tbl) ->
  (exists name, virDomainChrTargetTypeToString devtype t = Some name /\
     virDomainChrTargetTypeFromString devtype (Some name) = (t, true)) /\
  (forall name, virDomainChrTargetTypeFromString devtype (Some name) = (t, true) ->
     virDomainChrTargetTypeToString devtype t = Some name).
Proof.
  intros Hfrom Hto Hnd Ht. split.
  - destruct (enum_to_from tbl t Hnd Ht) as [name [H1 H2]].
    exists name. rewrite Hto, Hfrom, H1, H2. split; reflexivity.
  - intros name Hn. rewrite Hfrom in Hn.
    assert (Hv : virEnumFromString tbl (Some name) = t) by congruence.
    rewrite Hto, <- Hv. apply enum_from_to. rewrite Hv. lia.
Qed.

End ChrTargetFacts.

Module ChrTargetClaims.
Import Enum EnumFacts ChrTarget ChrTargetFacts.

(** Character device target types round-trip between the formatter and
    the parser: for a serial (2 target types), console (9) or channel (3)
    device, the name [virDomainChrTargetTypeToString] writes for a target
    type is read back by [virDomainChrTargetTypeFromString] as the same
    type (and marks the attribute as given), and a name the parser
    accepts is the one written for the type it returns. *)
Theorem chr_target_type_roundtrip (devtype t : Z) :
  (devtype = VIR_DOMAIN_CHR_DEVICE_TYPE_SERIAL /\ 0 <= t < 2) \/
  (devtype = VIR_DOMAIN_CHR_DEVICE_TYPE_CONSOLE /\ 0 <= t < 9) \/
  (devtype = VIR_DOMAIN_CHR_DEVICE_TYPE_CHANNEL /\ 0 <= t < 3) ->
  (exists name, virDomainChrTargetTypeToString devtype t = Some name /\
     virDomainChrTargetTypeFromString devtype (Some name) = (t, true)) /\
  (forall name, virDomainChrTargetTypeFromString devtype (Some name) = (t, true) ->
     virDomainChrTargetTypeToString devtype t = Some name).
Proof.
  intros [[-> Ht]|[[-> Ht]|[-> Ht]]].
  - apply (target_roundtrip_table _ _ virDomainChrSerialTargetList);
      [intros; reflexivity|intros; reflexivity|apply nodupb_NoDup; reflexivity|unfold virDomainChrSerialTargetList, virDomainChrConsoleTargetList, virDomainChrChannelTargetList; simpl List.length; lia].
  - apply (target_roundtrip_table _ _ virDomainChrConsoleTargetList);
      [intros; reflexivity|intros; reflexivity|apply nodupb_NoDup; reflexivity|unfold virDomainChrSerialTargetList, virDomainChrConsoleTargetList, virDomainChrChannelTargetList; simpl List.length; lia].
  - apply (target_roundtrip_table _ _ virDomainChrChannelTargetList);
      [intros; reflexivity|intros; reflexivity|apply nodupb_NoDup; reflexivity|unfold virDomainChrSerialTargetList, virDomainChrConsoleTargetList, virDomainChrChannelTargetList; simpl List.length; lia].
Qed.

Lemma chr_target_type_roundtrip_witness :
  virDomainChrTargetTypeFromString VIR_DOMAIN_CHR_DEVICE_TYPE_CONSOLE
    (virDomainChrTargetTypeToString VIR_DOMAIN_CHR_DEVICE_TYPE_CONSOLE 4) = (4, true).
Proof.
  assert (H : VIR_DOMAIN_CHR_DEVICE_TYPE_CONSOLE = VIR_DOMAIN_CHR_DEVICE_TYPE_CONSOLE /\
              0 <= 4 < 9) by (split; [reflexivity|lia]).
  destruct (proj1 (chr_target_type_roundtrip _ 4 (or_intror (or_introl H))))
    as [name [H1 H2]].
  rewrite H1. exact H2.
Defined.

End ChrTargetClaims.

Module DeviceListsFacts.
Import DeviceLists.

Lemma nth_error_Some_length {A : Type} (l : list A) j y :
  nth_error l j = Some y -> (j < List.length l)%nat.
Proof. intros H. apply nth_error_Some. rewrite H. discriminate. Qed.

Section InsertFacts.
Context {A : Type}.
Variable group : A -> Z.
Variable key : A -> Z.

(** What the backwards scan knows after visiting the entries from [i]
    on: either none of them is in the group of [x], or [v] splits them
    into those not after [x] and those after it. *)
Definition scanInv (l : list A) (x : A) (i : nat) (v : Z) : Prop :=
  (v = -1 /\ forall j y, (i <= j)%nat -> nth_error l j = Some y -> group y <> group x) \/
  (Z.of_nat i <= v <= Z.of_nat (List.length l) /\
   (forall j y, (i <= j)%nat -> Z.of_nat j < v -> nth_error l j = Some y ->
      group y = group x -> key y <= key x) /\
   (forall j y, v <= Z.of_nat j -> nth_error l j = Some y -> group y = group x ->
      key x < key y)).

Lemma scan_inv l x :
  groupSorted group key l ->
  forall m v, (m <= List.length l)%nat -> scanInv l x m v ->
  scanInv l x 0 (insertAtScan group key l x m v).
Proof.
  intros Hs m. induction m as [|m IH]; intros v Hm Hinv; [exact Hinv|].
  simpl. apply IH; [lia|].
  destruct (nth_error l m) as [y|] eqn:Ey; [|apply nth_error_None in Ey; lia].
  destruct (Z.eqb_spec (group y) (group x)) as [Hg|Hg]; simpl.
  - destruct (Z.gtb_spec (key y) (key x)) as [Hk|Hk]; simpl.
    + right. split; [lia|]. split.
      * intros j z Hj Hj' _ _. lia.
      * intros j z Hj Ez Hgz. apply Nat2Z.inj_le in Hj.
        destruct (Nat.eq_dec m j) as [->|Hne].
        { rewrite Ey in Ez. injection Ez as <-. lia. }
        assert (key y <= key z) by (apply (Hs m j y z); [lia|exact Ey|exact Ez|congruence]).
        lia.
    + destruct (Z.eqb_spec v (-1)) as [Hv|Hv]; simpl.
      * right. destruct Hinv as [[_ Hnone]|[Hr _]]; [|lia].
        split; [split; [lia|]; apply nth_error_Some_length in Ey; lia|]. split.
        -- intros j z Hj Hj' Ez Hgz. assert (j = m) by lia. subst j.
           rewrite Ey in Ez. injection Ez as <-. lia.
        -- intros j z Hj Ez Hgz. exfalso. apply (Hnone j z); [lia|exact Ez|exact Hgz].
      * right. destruct Hinv as [[Hv' _]|[Hr [Hlo Hhi]]]; [lia|].
        split; [lia|]. split; [|exact Hhi].
        intros j z Hj Hj' Ez Hgz.
        destruct (Nat.eq_dec m j) as [->|Hne].
        -- rewrite Ey in Ez. injection Ez as <-. lia.
        -- apply (Hlo j z); [lia|exact Hj'|exact Ez|exact Hgz].
  - destruct Hinv as [[Hv Hnone]|[Hr [Hlo Hhi]]].
    + left. split; [exact Hv|]. intros j z Hj Ez.
      destruct (Nat.eq_dec m j) as [->|Hne].
      * rewrite Ey in Ez. injection Ez as <-. exact Hg.
      * apply (Hnone j z); [lia|exact Ez].
    + right. split; [lia|]. split; [|exact Hhi].
      intros j z Hj Hj' Ez Hgz.
      destruct (Nat.eq_dec m j) as [->|Hne].
      * rewrite Ey in Ez. injection Ez as <-. contradiction.
      * apply (Hlo j z); [lia|exact Hj'|exact Ez|exact Hgz].
Qed.

(** The insertion point of [insertPreAlloced]. *)
Definition insertPoint (l : list A) (x : A) : nat :=
  let insertAt := insertAtScan group key l x (List.length l) (-1) in
  Z.to_nat (if insertAt =? -1 then Z.of_nat (List.length l) else insertAt).

Lemma insertPreAlloced_point l x :
  insertPreAlloced group key l x =
  firstn (insertPoint l x) l ++ x :: skipn (insertPoint l x) l.
Proof. reflexivity. Qed.

Lemma insertPoint_spec l x :
  groupSorted group key l ->
  (insertPoint l x <= List.length l)%nat /\
  (forall j y, (j < insertPoint l x)%nat -> nth_error l j = Some y ->
     group y = group x -> key y <= key x) /\
  (forall j y, (insertPoint l x <= j)%nat -> nth_error l j = Some y ->
     group y = group x -> key x < key y).
Proof.
  intros Hs. unfold insertPoint.
  assert (H0 : scanInv l x (List.length l) (-1)).
  { left. split; [reflexivity|]. intros j y Hj Ey.
    apply nth_error_Some_length in Ey. lia. }
  pose proof (scan_inv l x Hs (List.length l) (-1) (le_n _) H0) as Hinv.
  destruct Hinv as [[Hv Hnone]|[Hr [Hlo Hhi]]].
  - rewrite Hv. simpl. rewrite Nat2Z.id. split; [lia|]. split.
    + intros j y _ Ey Hg. exfalso. apply (Hnone j y); [lia|exact Ey|exact Hg].
    + intros j y _ Ey Hg. exfalso. apply (Hnone j y); [lia|exact Ey|exact Hg].
  - destruct (Z.eqb_spec (insertAtScan group key l x (List.length l) (-1)) (-1)); [lia|].
    split; [lia|]. split.
    + intros j y Hj Ey Hg. apply (Hlo j y); [lia|lia|exact Ey|exact Hg].
    + intros j y Hj Ey Hg. apply (Hhi j y); [lia|exact Ey|exact Hg].
Qed.

Lemma nth_error_insert (l : list A) (x : A) k p :
  (k <= List.length l)%nat ->
  nth_error (firstn k l ++ x :: skipn k l) p =
  if (p <? k)%nat then nth_error l p
  else if (p =? k)%nat then Some x
  else nth_error l (p - 1).
Proof.
  intros Hk. rewrite nth_error_app, length_firstn.
  replace (Nat.min k (List.length l)) with k by lia.
  destruct (Nat.ltb_spec p k).
  - rewrite nth_error_firstn. destruct (Nat.ltb_spec p k); [reflexivity|lia].
  - destruct (Nat.eqb_spec p k) as [->|Hne].
    + rewrite Nat.sub_diag. reflexivity.
    + replace (p - k)%nat with (S (p - 1 - k)) by lia. simpl.
      rewrite nth_error_skipn. f_equal. lia.
Qed.

Lemma insert_groupSorted l x :
  groupSorted group key l -> groupSorted group key (insertPreAlloced group key l x).
Proof.
  intros Hs. destruct (insertPoint_spec l x Hs) as [Hk [Hlo Hhi]].
  rewrite insertPreAlloced_point.
  set (k := insertPoint l x) in *.
  intros i j a b Hij Ea Eb Hg.
  rewrite nth_error_insert in Ea, Eb by exact Hk.
  destruct (Nat.ltb_spec i k), (Nat.eqb_spec i k), (Nat.ltb_spec j k), (Nat.eqb_spec j k);
    try lia; try (injection Ea as <-); try (injection Eb as <-).
  - apply (Hs i j a b); assumption.
  - apply (Hlo i a); assumption.
  - apply (Hs i (j - 1)%nat a b); [lia|assumption|assumption|assumption].
  - pose proof (Hhi (j - 1)%nat b ltac:(lia) Eb ltac:(congruence)). lia.
  - apply (Hs (i - 1)%nat (j - 1)%nat a b); [lia|assumption|assumption|assumption].
Qed.

Lemma insert_perm l x : Permutation (insertPreAlloced group key l x) (x :: l).
Proof.
  rewrite insertPreAlloced_point. rewrite <- Permutation_middle.
  rewrite firstn_skipn. reflexivity.
Qed.

Lemma groupSorted_nil : groupSorted group key [].
Proof. intros i j x y _ Ex. destruct i; discriminate. Qed.

End InsertFacts.

Lemma firstn_skipn_around {A : Type} (a b : list A) (x : A) :
  firstn (List.length a) (a ++ x :: b) = a /\ skipn (S (List.length a)) (a ++ x :: b) = b.
Proof.
  induction a as [|y a IH]; simpl; [split; reflexivity|].
  destruct IH as [H1 H2]. rewrite H1. split; [reflexivity|exact H2].
Qed.

Lemma removeAt_insert {A : Type} (l : list A) (x : A) k :
  (k <= List.length l)%nat ->
  removeAt (firstn k l ++ x :: skipn k l) k = Some (x, l).
Proof.
  intros Hk. unfold removeAt. rewrite nth_error_insert by exact Hk.
  rewrite Nat.ltb_irrefl, Nat.eqb_refl. f_equal. f_equal.
  assert (Hl : List.length (firstn k l) = k) by (rewrite length_firstn; lia).
  destruct (firstn_skipn_around (firstn k l) (skipn k l) x) as [H1 H2].
  rewrite Hl in H1, H2. rewrite H1, H2, firstn_skipn.
  destruct (Z.ltb_spec 1 (Z.of_nat (List.length (firstn k l ++ x :: skipn k l)))) as [_|H];
    [reflexivity|].
  rewrite length_app, Hl in H. cbn [List.length] in H. rewrite length_skipn in H.
  destruct l as [|a l]; [reflexivity|]. cbn [List.length] in *. lia.
Qed.

Lemma controllerFindFrom_none l type idx i :
  Forall (fun c => (ctrl_type c =? type) && (ctrl_idx c =? idx) = false) l ->
  controllerFindFrom l type idx i = -1.
Proof.
  revert i. induction l as [|c l IH]; intros i H; [reflexivity|].
  inversion H as [|? ? Hc Hl]; subst. simpl. rewrite Hc. apply IH, Hl.
Qed.

Lemma controllerFindFrom_found l type idx i :
  0 <= i -> controllerFindFrom l type idx i <> -1 ->
  exists k c, nth_error l k = Some c /\ (ctrl_type c =? type) && (ctrl_idx c =? idx) = true /\
    controllerFindFrom l type idx i = i + Z.of_nat k.
Proof.
  revert i. induction l as [|c l IH]; intros i Hi H; simpl in *; [lia|].
  destruct ((ctrl_type c =? type) && (ctrl_idx c =? idx)) eqn:E.
  - exists O, c. split; [reflexivity|]. split; [exact E|lia].
  - destruct (IH (i + 1)) as [k [c' [Hk [Hc Hv]]]]; [lia|exact H|].
    exists (S k), c'. split; [exact Hk|]. split; [exact Hc|lia].
Qed.

Lemma controllerFindFrom_first l type idx i k c :
  nth_error l k = Some c -> (ctrl_type c =? type) && (ctrl_idx c =? idx) = true ->
  (forall j c', (j < k)%nat -> nth_error l j = Some c' ->
     (ctrl_type c' =? type) && (ctrl_idx c' =? idx) = false) ->
  controllerFindFrom l type idx i = i + Z.of_nat k.
Proof.
  revert i k. induction l as [|a l IH]; intros i k Hk Hc Hbefore; [destruct k; discriminate|].
  destruct k as [|k]; simpl in *.
  - injection Hk as ->. rewrite Hc. lia.
  - rewrite (Hbefore O a ltac:(lia) eq_refl).
    rewrite (IH (i + 1) k Hk Hc). lia.
    intros j c' Hj Ej. apply (Hbefore (S j)); [lia|exact Ej].
Qed.

Lemma controllerFindFrom_minus1 l type idx i :
  0 <= i -> controllerFindFrom l type idx i = -1 ->
  forall j c, nth_error l j = Some c -> (ctrl_type c =? type) && (ctrl_idx c =? idx) = false.
Proof.
  revert i. induction l as [|a l IH]; intros i Hi H j c Ej; [destruct j; discriminate|].
  simpl in H. destruct ((ctrl_type a =? type) && (ctrl_idx a =? idx)) eqn:Ea; [lia|].
  destruct j as [|j]; simpl in Ej.
  - injection Ej as <-. exact Ea.
  - apply (IH (i + 1) ltac:(lia) H j c Ej).
Qed.

End DeviceListsFacts.

Module ControllerFacts.
Import DeviceLists DeviceListsFacts.

(** A controller of [type] and [idx] is in the list. *)
Definition hasController (cs : list virDomainControllerDef) (type idx : Z) : Prop :=
  exists c, In c cs /\ ctrl_type c = type /\ ctrl_idx c = idx.

Lemma hasController_app cs s type idx :
  hasController cs type idx -> hasController (cs ++ s) type idx.
Proof.
  intros [c [Hin H]]. exists c. split; [apply in_or_app; left; exact Hin|exact H].
Qed.

Lemma maybeAdd_prefix cs type idx :
  exists s, virDomainDefMaybeAddController cs type idx = cs ++ s.
Proof.
  unfold virDomainDefMaybeAddController.
  destruct (existsb _ cs); [exists []; rewrite app_nil_r; reflexivity|eexists; reflexivity].
Qed.

Lemma maybeAdd_has cs type idx :
  hasController (virDomainDefMaybeAddController cs type idx) type idx.
Proof.
  unfold virDomainDefMaybeAddController.
  destruct (existsb (fun c => (ctrl_type c =? type) && (ctrl_idx c =? idx)) cs) eqn:E.
  - apply existsb_exists in E as [c [Hin Hc]].
    apply andb_true_iff in Hc as [H1 H2]. apply Z.eqb_eq in H1, H2.
    exists c. auto.
  - eexists. split; [apply in_or_app; right; left; reflexivity|]. simpl. auto.
Qed.

Lemma maybeAdd_keeps cs type idx t i :
  hasController cs t i -> hasController (virDomainDefMaybeAddController cs type idx) t i.
Proof.
  intros H. destruct (maybeAdd_prefix cs type idx) as [s ->]. apply hasController_app, H.
Qed.

Lemma prefix_trans {A : Type} (a b c : list A) :
  (exists s, b = a ++ s) -> (exists s, c = b ++ s) -> exists s, c = a ++ s.
Proof. intros [s1 ->] [s2 ->]. exists (s1 ++ s2). symmetry; apply app_assoc. Qed.

Lemma has_prefix cs cs' type idx :
  (exists s, cs' = cs ++ s) -> hasController cs type idx -> hasController cs' type idx.
Proof. intros [s ->]. apply hasController_app. Qed.

(** The loops that call [virDomainDefMaybeAddController] for some of
    their elements. *)
Lemma fold_maybeAdd {X : Type} (P : X -> bool) (type : Z) (f : X -> Z) (xs : list X) cs :
  let cs' := fold_left (fun cs x => if P x then virDomainDefMaybeAddController cs type (f x)
                                    else cs) xs cs in
  (exists s, cs' = cs ++ s) /\
  (forall x, In x xs -> P x = true -> hasController cs' type (f x)).
Proof.
  revert cs. induction xs as [|x xs IH]; intros cs; simpl.
  - split; [exists []; rewrite app_nil_r; reflexivity|tauto].
  - destruct (IH (if P x then virDomainDefMaybeAddController cs type (f x) else cs))
      as [Hpre Hhas].
    split.
    + eapply prefix_trans; [|exact Hpre].
      destruct (P x); [apply maybeAdd_prefix|exists []; rewrite app_nil_r; reflexivity].
    + intros y [->|Hy] Hp.
      * rewrite Hp in Hpre |- *. eapply has_prefix; [exact Hpre|apply maybeAdd_has].
      * apply Hhas; assumption.
Qed.

Lemma maxDriveController_ge disks diskBus :
  forall m0,
  m0 <= fold_left (fun maxController d =>
    if negb (disk_bus d =? diskBus) then maxController
    else match info_addr (disk_info d) with
         | AddrDrive controller _ _ =>
             if uintToInt controller >? maxController then uintToInt controller
             else maxController
         | _ => maxController
         end) disks m0 /\
  (forall d c b u, In d disks -> disk_bus d = diskBus ->
     info_addr (disk_info d) = AddrDrive c b u ->
     uintToInt c <= fold_left (fun maxController d =>
       if negb (disk_bus d =? diskBus) then maxController
       else match info_addr (disk_info d) with
            | AddrDrive controller _ _ =>
                if uintToInt controller >? maxController then uintToInt controller
                else maxController
            | _ => maxController
            end) disks m0).
Proof.
  induction disks as [|d ds IH]; intros m0; simpl.
  - split; [lia|tauto].
  - set (m1 := if negb (disk_bus d =? diskBus) then m0
               else match info_addr (disk_info d) with
                    | AddrDrive controller _ _ =>
                        if uintToInt controller >? m0 then uintToInt controller else m0
                    | _ => m0
                    end).
    destruct (IH m1) as [Hge Hall].
    assert (Hm : m0 <= m1).
    { unfold m1. destruct (negb _); [lia|].
      destruct (info_addr (disk_info d)); try lia.
      destruct (Z.gtb_spec (uintToInt controller) m0); lia. }
    split; [lia|].
    intros d' c b u [<-|Hin] Hb Ha.
    + assert (uintToInt c <= m1); [|lia].
      unfold m1. rewrite Hb, Z.eqb_refl, Ha. simpl.
      destruct (Z.gtb_spec (uintToInt c) m0); lia.
    + apply (Hall d' c b u); assumption.
Qed.

Lemma addDiskControllers_spec disks cs type diskBus :
  let cs' := virDomainDefAddDiskControllersForType disks cs type diskBus in
  (exists s, cs' = cs ++ s) /\
  (forall d c b u, In d disks -> disk_bus d = diskBus ->
     info_addr (disk_info d) = AddrDrive c b u -> 0 <= uintToInt c ->
     hasController cs' type (uintToInt c)).
Proof.
  unfold virDomainDefAddDiskControllersForType.
  destruct (fold_maybeAdd (fun _ => true) type Z.of_nat
              (seq 0 (Z.to_nat (maxDriveController disks diskBus + 1))) cs) as [Hpre Hhas].
  split; [exact Hpre|].
  intros d c b u Hin Hb Ha Hc.
  destruct (maxDriveController_ge disks diskBus (-1)) as [_ Hall].
  pose proof (Hall d c b u Hin Hb Ha) as Hle. fold (maxDriveController disks diskBus) in Hle.
  replace (uintToInt c) with (Z.of_nat (Z.to_nat (uintToInt c))) by lia.
  apply Hhas; [|reflexivity].
  apply in_seq. lia.
Qed.

Lemma nth_error_replaceNth {A : Type} (l : list A) n x j :
  nth_error (replaceNth l n x) j =
  if (j =? n)%nat then (if (n <? List.length l)%nat then Some x else None) else nth_error l j.
Proof.
  revert n j. induction l as [|y l IH]; intros n j.
  - destruct n, j; simpl; try reflexivity; destruct (j =? n)%nat; reflexivity.
  - destruct n as [|n], j as [|j]; simpl; try reflexivity.
    rewrite IH. reflexivity.
Qed.

Lemma length_replaceNth {A : Type} (l : list A) n x :
  List.length (replaceNth l n x) = List.length l.
Proof.
  revert n. induction l as [|y l IH]; intros n; destruct n; simpl; auto.
Qed.

Lemma smartcardLoop_spec n :
  forall i scs cs, (i + n = List.length scs)%nat ->
  forall scs' cs', smartcardLoop i n scs cs = (scs', cs') ->
  (exists s, cs' = cs ++ s) /\ List.length scs' = List.length scs /\
  (forall j, (j < i)%nat -> nth_error scs' j = nth_error scs j) /\
  (forall j sc ctl slot, (i <= j)%nat -> nth_error scs' j = Some sc ->
     info_addr (smartcard_info sc) = AddrCCID ctl slot ->
     hasController cs' VIR_DOMAIN_CONTROLLER_TYPE_CCID (uintToInt ctl)).
Proof.
  induction n as [|n IH]; intros i scs cs Hn scs' cs' Hloop; simpl in Hloop.
  - injection Hloop as <- <-. split; [exists []; rewrite app_nil_r; reflexivity|].
    split; [reflexivity|]. split; [reflexivity|].
    intros j sc ctl slot Hj Ej. apply nth_error_Some_length in Ej. lia.
  - destruct (nth_error scs i) as [sc|] eqn:Ei; [|apply nth_error_None in Ei; lia].
    set (step := match info_addr (smartcard_info sc) with
                 | AddrCCID controller _ => (uintToInt controller, scs)
                 | AddrNone =>
                     (0, replaceNth scs i
                           (mkSmartcard (mkInfo (info_alias (smartcard_info sc))
                              (AddrCCID 0 (maxCcidSlot scs + 1))
                              (info_bootIndex (smartcard_info sc)))))
                 | _ => (0, scs)
                 end) in Hloop.
    destruct step as [idx scs1] eqn:Estep.
    (* what step [i] leaves at position [i] *)
    assert (Hlen1 : List.length scs1 = List.length scs).
    { revert Estep. unfold step. destruct (info_addr (smartcard_info sc));
        intros E; injection E as <- <-; try reflexivity. apply length_replaceNth. }
    assert (Hbefore1 : forall j, (j < i)%nat -> nth_error scs1 j = nth_error scs j).
    { intros j Hj. revert Estep. unfold step. destruct (info_addr (smartcard_info sc));
        intros E; injection E as <- <-; try reflexivity.
      rewrite nth_error_replaceNth. destruct (Nat.eqb_spec j i); [lia|reflexivity]. }
    assert (Hat1 : forall sc1 ctl slot, nth_error scs1 i = Some sc1 ->
              info_addr (smartcard_info sc1) = AddrCCID ctl slot -> idx = uintToInt ctl).
    { intros sc1 ctl slot E1 Ha. revert Estep. unfold step.
      destruct (info_addr (smartcard_info sc)) eqn:Ea;
        intros E; injection E as <- <-;
        first
        [ rewrite nth_error_replaceNth, Nat.eqb_refl in E1;
          destruct (Nat.ltb_spec i (List.length scs)); [|discriminate];
          injection E1 as <-; simpl in Ha; injection Ha as <- _; reflexivity
        | rewrite Ei in E1; injection E1 as <-; rewrite Ea in Ha;
          first [discriminate Ha | injection Ha as -> _; reflexivity] ]. }
    destruct (IH (S i) scs1 (virDomainDefMaybeAddController cs VIR_DOMAIN_CONTROLLER_TYPE_CCID idx))
      with (scs' := scs') (cs' := cs') as [Hpre [Hlen [Hbefore Hafter]]];
      [lia|exact Hloop|].
    split; [eapply prefix_trans; [apply maybeAdd_prefix|exact Hpre]|].
    split; [congruence|]. split.
    + intros j Hj. rewrite Hbefore by lia. apply Hbefore1, Hj.
    + intros j sc' ctl slot Hj Ej Ha.
      destruct (Nat.eq_dec j i) as [->|Hne]; [|apply (Hafter j sc' ctl slot); [lia|exact Ej|exact Ha]].
      rewrite Hbefore in Ej by lia.
      rewrite <- (Hat1 sc' ctl slot Ej Ha).
      eapply has_prefix; [exact Hpre|apply maybeAdd_has].
Qed.

End ControllerFacts.

Module ParseLoopFacts.
Import DeviceLists DeviceListsFacts.

Lemma Permutation_filter' {A : Type} (f : A -> bool) (l l' : list A) :
  Permutation l l' -> Permutation (filter f l) (filter f l').
Proof.
  induction 1; simpl.
  - constructor.
  - destruct (f x); [constructor|]; assumption.
  - destruct (f x), (f y); try apply perm_swap; reflexivity.
  - eapply perm_trans; eassumption.
Qed.

Definition isUSB (c : virDomainControllerDef) : bool :=
  ctrl_type c =? VIR_DOMAIN_CONTROLLER_TYPE_USB.

(** What the two flags of the controller loop record. *)
Definition usbInv (usb_other usb_none : bool) (cs : list virDomainControllerDef) : Prop :=
  (usb_none = false -> forall c, In c cs -> ctrl_type c = VIR_DOMAIN_CONTROLLER_TYPE_USB ->
     ctrl_model c <> VIR_DOMAIN_CONTROLLER_MODEL_USB_NONE) /\
  (usb_other = false -> forall c, In c cs -> ctrl_type c = VIR_DOMAIN_CONTROLLER_TYPE_USB ->
     ctrl_model c = VIR_DOMAIN_CONTROLLER_MODEL_USB_NONE) /\
  (usb_none = true -> exists c0, filter isUSB cs = [c0]).

Lemma usbInv_insert o n cs c o' n' :
  usbInv o n cs ->
  (if ctrl_type c =? VIR_DOMAIN_CONTROLLER_TYPE_USB then
     if ctrl_model c =? VIR_DOMAIN_CONTROLLER_MODEL_USB_NONE then
       if o || n then None else Some (o, true)
     else if n then None else Some (true, n)
   else Some (o, n)) = Some (o', n') ->
  usbInv o' n' (virDomainControllerInsertPreAlloced cs c).
Proof.
  intros [H1 [H2 H3]] Hf.
  pose proof (insert_perm ctrl_type ctrl_idx cs c) as Hp.
  fold (virDomainControllerInsertPreAlloced cs c) in Hp.
  set (cs' := virDomainControllerInsertPreAlloced cs c) in *.
  assert (Hin : forall d, In d cs' -> d = c \/ In d cs).
  { intros d Hd. apply (Permutation_in d Hp) in Hd. destruct Hd; auto. }
  pose proof (Permutation_filter' isUSB _ _ Hp) as Hpf. cbn [filter] in Hpf.
  destruct (Z.eqb_spec (ctrl_type c) VIR_DOMAIN_CONTROLLER_TYPE_USB) as [Ht|Ht].
  - destruct (Z.eqb_spec (ctrl_model c) VIR_DOMAIN_CONTROLLER_MODEL_USB_NONE) as [Hm|Hm].
    + replace (isUSB c) with true in Hpf by (symmetry; apply Z.eqb_eq; exact Ht).
      destruct o, n; simpl in Hf; try discriminate. injection Hf as <- <-.
      assert (Hnil : filter isUSB cs = []).
      { destruct (filter isUSB cs) as [|d ds] eqn:E; [reflexivity|exfalso].
        assert (Hd : In d (filter isUSB cs)) by (rewrite E; left; reflexivity).
        apply filter_In in Hd as [Hd Hu]. apply Z.eqb_eq in Hu.
        apply (H1 eq_refl d Hd Hu). apply (H2 eq_refl d Hd Hu). }
      rewrite Hnil in Hpf. split; [discriminate|]. split.
      * intros _ d Hd Hu. destruct (Hin d Hd) as [->|Hd']; [exact Hm|apply (H2 eq_refl d Hd' Hu)].
      * intros _. exists c. apply Permutation_length_1_inv. symmetry. exact Hpf.
    + replace (isUSB c) with true in Hpf by (symmetry; apply Z.eqb_eq; exact Ht).
      destruct n; simpl in Hf; try discriminate. injection Hf as <- <-.
      split; [|split; [discriminate|discriminate]].
      intros _ d Hd Hu. destruct (Hin d Hd) as [->|Hd']; [exact Hm|apply (H1 eq_refl d Hd' Hu)].
  - replace (isUSB c) with false in Hpf by (symmetry; apply Z.eqb_neq; exact Ht).
    injection Hf as <- <-. split; [|split].
    + intros Hn d Hd Hu. destruct (Hin d Hd) as [->|Hd']; [contradiction|apply (H1 Hn d Hd' Hu)].
    + intros Ho d Hd Hu. destruct (Hin d Hd) as [->|Hd']; [contradiction|apply (H2 Ho d Hd' Hu)].
    + intros Hn. destruct (H3 Hn) as [c0 Hc0]. exists c0.
      rewrite Hc0 in Hpf. apply Permutation_length_1_inv. symmetry. exact Hpf.
Qed.

End ParseLoopFacts.

Module DeviceListClaims.
Import DeviceLists DeviceListsFacts ControllerFacts ParseLoopFacts.

(** Inserting a controller keeps the order the controller array is kept
    in: if the controllers of each type are in increasing [idx] order
    before [virDomainControllerInsertPreAlloced], they still are after it. *)
Theorem controller_insert_keeps_order (l : list virDomainControllerDef)
  (c : virDomainControllerDef) (Hsorted : groupSorted ctrl_type ctrl_idx l) :
  groupSorted ctrl_type ctrl_idx (virDomainControllerInsertPreAlloced l c).
Proof. apply insert_groupSorted, Hsorted. Qed.

Lemma controller_insert_keeps_order_witness :
  groupSorted ctrl_type ctrl_idx
    (virDomainControllerInsertPreAlloced
       [mkController VIR_DOMAIN_CONTROLLER_TYPE_SCSI 0 (-1) 0 0 Singletons.info0;
        mkController VIR_DOMAIN_CONTROLLER_TYPE_USB 0 (-1) 0 0 Singletons.info0;
        mkController VIR_DOMAIN_CONTROLLER_TYPE_SCSI 2 (-1) 0 0 Singletons.info0]
       (mkController VIR_DOMAIN_CONTROLLER_TYPE_SCSI 1 (-1) 0 0 Singletons.info0)).
Proof.
  apply controller_insert_keeps_order.
  intros i j x y Hij Ex Ey Hg.
  destruct i as [|[|[|i]]]; destruct j as [|[|[|j]]]; simpl in Ex, Ey;
    try discriminate; try lia; try (destruct i; discriminate); try (destruct j; discriminate);
    injection Ex as <-; injection Ey as <-; simpl in *; unfold VIR_DOMAIN_CONTROLLER_TYPE_SCSI,
    VIR_DOMAIN_CONTROLLER_TYPE_USB in Hg; lia.
Defined.

(** Insert, find and remove fit together: when no controller of the
    same type and index is present, [virDomainControllerFind] locates
    the controller [virDomainControllerInsertPreAlloced] added, and
    [virDomainControllerRemove] at that index returns it and gives back
    the array as it was before the insertion. *)
Theorem controller_insert_find_remove (l : list virDomainControllerDef)
  (c : virDomainControllerDef)
  (Hnew : virDomainControllerFind l (ctrl_type c) (ctrl_idx c) = -1) :
  exists i,
    virDomainControllerFind (virDomainControllerInsertPreAlloced l c) (ctrl_type c) (ctrl_idx c) =
      Z.of_nat i /\
    virDomainControllerRemove (virDomainControllerInsertPreAlloced l c) i = Some (c, l).
Proof.
  pose proof (controllerFindFrom_minus1 l (ctrl_type c) (ctrl_idx c) 0 ltac:(lia) Hnew) as Hnone.
  unfold virDomainControllerInsertPreAlloced. rewrite insertPreAlloced_point.
  set (k := insertPoint ctrl_type ctrl_idx l c).
  assert (Hk : (k <= List.length l)%nat).
  { unfold k, insertPoint. set (v := insertAtScan _ _ _ _ _ _).
    destruct (Z.eqb_spec v (-1)); [lia|].
    (* the scan only yields -1 or a position within the array *)
    assert (Hv : forall m v0, (m <= List.length l)%nat -> -1 <= v0 <= Z.of_nat (List.length l) ->
              -1 <= insertAtScan ctrl_type ctrl_idx l c m v0 <= Z.of_nat (List.length l)).
    { induction m as [|m IH]; intros v0 Hm Hv0; simpl; [exact Hv0|].
      apply IH; [lia|]. destruct (nth_error l m); [|exact Hv0].
      destruct (_ && _); [lia|]. destruct (_ && _); lia. }
    pose proof (Hv (List.length l) (-1) (le_n _) ltac:(lia)). fold v in H. lia. }
  exists k. split.
  - unfold virDomainControllerFind.
    rewrite (controllerFindFrom_first _ _ _ 0 k c).
    + lia.
    + rewrite nth_error_insert by exact Hk. rewrite Nat.ltb_irrefl, Nat.eqb_refl. reflexivity.
    + rewrite !Z.eqb_refl. reflexivity.
    + intros j c' Hj Ej. rewrite nth_error_insert in Ej by exact Hk.
      destruct (Nat.ltb_spec j k); [|lia]. apply (Hnone j c' Ej).
  - apply removeAt_insert, Hk.
Qed.

Lemma controller_insert_find_remove_witness :
  virDomainControllerFind
    [mkController VIR_DOMAIN_CONTROLLER_TYPE_SCSI 0 (-1) 0 0 Singletons.info0]
    VIR_DOMAIN_CONTROLLER_TYPE_SCSI 1 = -1 /\
  exists i,
    virDomainControllerFind
      (virDomainControllerInsertPreAlloced
         [mkController VIR_DOMAIN_CONTROLLER_TYPE_SCSI 0 (-1) 0 0 Singletons.info0]
         (mkController VIR_DOMAIN_CONTROLLER_TYPE_SCSI 1 (-1) 0 0 Singletons.info0))
      VIR_DOMAIN_CONTROLLER_TYPE_SCSI 1 = Z.of_nat i /\
    virDomainControllerRemove
      (virDomainControllerInsertPreAlloced
         [mkController VIR_DOMAIN_CONTROLLER_TYPE_SCSI 0 (-1) 0 0 Singletons.info0]
         (mkController VIR_DOMAIN_CONTROLLER_TYPE_SCSI 1 (-1) 0 0 Singletons.info0)) i =
      Some (mkController VIR_DOMAIN_CONTROLLER_TYPE_SCSI 1 (-1) 0 0 Singletons.info0,
            [mkController VIR_DOMAIN_CONTROLLER_TYPE_SCSI 0 (-1) 0 0 Singletons.info0]).
Proof.
  split; [reflexivity|].
  apply (controller_insert_find_remove
           [mkController VIR_DOMAIN_CONTROLLER_TYPE_SCSI 0 (-1) 0 0 Singletons.info0]
           (mkController VIR_DOMAIN_CONTROLLER_TYPE_SCSI 1 (-1) 0 0 Singletons.info0)).
  reflexivity.
Defined.

(** The disks of a parsed domain are kept in order per bus: after the
    [<disk>] loop of [virDomainDefParseXML], which inserts each disk with
    [virDomainDiskInsertPreAlloced], the disks on the same bus appear in
    increasing order of the drive index of their target name. *)
Theorem parse_disks_sorted_by_bus (xmlNode : Type) (virDiskNameToIndex : option string -> Z)
  (parseDisk : xmlNode -> option virDomainDiskDef) (nodes : list xmlNode)
  (disks : list virDomainDiskDef)
  (Hparse : parseDisks xmlNode virDiskNameToIndex parseDisk nodes = Some disks) :
  groupSorted disk_bus (diskIndex virDiskNameToIndex) disks.
Proof.
  unfold parseDisks in Hparse.
  assert (Hgen : forall ns acc, groupSorted disk_bus (diskIndex virDiskNameToIndex) acc ->
            diskLoop xmlNode virDiskNameToIndex parseDisk ns acc = Some disks ->
            groupSorted disk_bus (diskIndex virDiskNameToIndex) disks).
  { induction ns as [|n ns IH]; intros acc Hacc Hl; simpl in Hl.
    - injection Hl as <-. exact Hacc.
    - destruct (parseDisk n) as [d|]; [|discriminate].
      apply (IH _ (insert_groupSorted _ _ acc d Hacc) Hl). }
  apply (Hgen nodes []); [apply groupSorted_nil|exact Hparse].
Qed.

Lemma parse_disks_sorted_by_bus_witness :
  parseDisks bool (fun dst => match dst with Some "sdb"%string => 1 | _ => 0 end)
    (fun b => Some (mkDisk 0 VIR_DOMAIN_DISK_BUS_SCSI
                      (Some (if b then "sdb" else "sda")%string) None false false
                      Singletons.info0)) [true; false] =
  Some [mkDisk 0 VIR_DOMAIN_DISK_BUS_SCSI (Some "sda"%string) None false false Singletons.info0;
        mkDisk 0 VIR_DOMAIN_DISK_BUS_SCSI (Some "sdb"%string) None false false Singletons.info0] /\
  groupSorted disk_bus
    (diskIndex (fun dst => match dst with Some "sdb"%string => 1 | _ => 0 end))
    [mkDisk 0 VIR_DOMAIN_DISK_BUS_SCSI (Some "sda"%string) None false false Singletons.info0;
     mkDisk 0 VIR_DOMAIN_DISK_BUS_SCSI (Some "sdb"%string) None false false Singletons.info0].
Proof.
  assert (H : parseDisks bool (fun dst => match dst with Some "sdb"%string => 1 | _ => 0 end)
    (fun b => Some (mkDisk 0 VIR_DOMAIN_DISK_BUS_SCSI
                      (Some (if b then "sdb" else "sda")%string) None false false
                      Singletons.info0)) [true; false] =
    Some [mkDisk 0 VIR_DOMAIN_DISK_BUS_SCSI (Some "sda"%string) None false false Singletons.info0;
          mkDisk 0 VIR_DOMAIN_DISK_BUS_SCSI (Some "sdb"%string) None false false Singletons.info0])
    by reflexivity.
  split; [exact H|]. exact (parse_disks_sorted_by_bus _ _ _ _ _ H).
Defined.

(** The controllers of a parsed domain: after the [<controller>] loop of
    [virDomainDefParseXML] the controllers of each type are in
    increasing [idx] order, and a USB controller of model "none" is the
    only USB controller of the domain. *)
Theorem parse_controllers_sorted_usb_none (xmlNode : Type)
  (parseController : xmlNode -> option virDomainControllerDef) (nodes : list xmlNode)
  (cs : list virDomainControllerDef)
  (Hparse : parseControllers xmlNode parseController nodes = Some cs) :
  groupSorted ctrl_type ctrl_idx cs /\
  (forall c, In c cs -> ctrl_type c = VIR_DOMAIN_CONTROLLER_TYPE_USB ->
     ctrl_model c = VIR_DOMAIN_CONTROLLER_MODEL_USB_NONE ->
     filter (fun c' => ctrl_type c' =? VIR_DOMAIN_CONTROLLER_TYPE_USB) cs = [c]).
Proof.
  unfold parseControllers in Hparse.
  assert (Hgen : forall ns o n acc, groupSorted ctrl_type ctrl_idx acc -> usbInv o n acc ->
            controllerLoop xmlNode parseController ns o n acc = Some cs ->
            groupSorted ctrl_type ctrl_idx cs /\ exists o' n', usbInv o' n' cs).
  { induction ns as [|x ns IH]; intros o n acc Hs Hu Hl; simpl in Hl.
    - injection Hl as <-. split; [exact Hs|exists o, n; exact Hu].
    - destruct (parseController x) as [c|]; [|discriminate].
      destruct (if ctrl_type c =? VIR_DOMAIN_CONTROLLER_TYPE_USB then _ else _)
        as [[o' n']|] eqn:Ef; [|discriminate].
      apply (IH o' n' (virDomainControllerInsertPreAlloced acc c));
        [apply insert_groupSorted, Hs|eapply usbInv_insert; eassumption|exact Hl]. }
  destruct (Hgen nodes false false [] (groupSorted_nil _ _)) as [Hs [o [n [H1 [_ H3]]]]];
    [split; [intros _ c []|split; [intros _ c []|discriminate]]|exact Hparse|].
  split; [exact Hs|].
  intros c Hin Ht Hm.
  destruct n.
  - destruct (H3 eq_refl) as [c0 Hc0]. fold isUSB. rewrite Hc0.
    assert (Hc : In c (filter isUSB cs)) by (apply filter_In; split; [exact Hin|apply Z.eqb_eq, Ht]).
    rewrite Hc0 in Hc. destruct Hc as [->|[]]. reflexivity.
  - exfalso. exact (H1 eq_refl c Hin Ht Hm).
Qed.

Lemma parse_controllers_sorted_usb_none_witness :
  parseControllers bool
    (fun b => Some (mkController VIR_DOMAIN_CONTROLLER_TYPE_USB 0
                     (if b then VIR_DOMAIN_CONTROLLER_MODEL_USB_NONE else 0) 0 0
                     Singletons.info0)) [true; false] = None /\
  parseControllers bool
    (fun b => Some (mkController (if b then VIR_DOMAIN_CONTROLLER_TYPE_USB
                                  else VIR_DOMAIN_CONTROLLER_TYPE_SCSI) 0
                     VIR_DOMAIN_CONTROLLER_MODEL_USB_NONE 0 0 Singletons.info0)) [true; false] =
    Some [mkController VIR_DOMAIN_CONTROLLER_TYPE_USB 0 VIR_DOMAIN_CONTROLLER_MODEL_USB_NONE 0 0
            Singletons.info0;
          mkController VIR_DOMAIN_CONTROLLER_TYPE_SCSI 0 VIR_DOMAIN_CONTROLLER_MODEL_USB_NONE 0 0
            Singletons.info0] /\
  filter (fun c' => ctrl_type c' =? VIR_DOMAIN_CONTROLLER_TYPE_USB)
    [mkController VIR_DOMAIN_CONTROLLER_TYPE_USB 0 VIR_DOMAIN_CONTROLLER_MODEL_USB_NONE 0 0
       Singletons.info0;
     mkController VIR_DOMAIN_CONTROLLER_TYPE_SCSI 0 VIR_DOMAIN_CONTROLLER_MODEL_USB_NONE 0 0
       Singletons.info0] =
    [mkController VIR_DOMAIN_CONTROLLER_TYPE_USB 0 VIR_DOMAIN_CONTROLLER_MODEL_USB_NONE 0 0
       Singletons.info0].
Proof.
  assert (H : parseControllers bool
    (fun b => Some (mkController (if b then VIR_DOMAIN_CONTROLLER_TYPE_USB
                                  else VIR_DOMAIN_CONTROLLER_TYPE_SCSI) 0
                     VIR_DOMAIN_CONTROLLER_MODEL_USB_NONE 0 0 Singletons.info0)) [true; false] =
    Some [mkController VIR_DOMAIN_CONTROLLER_TYPE_USB 0 VIR_DOMAIN_CONTROLLER_MODEL_USB_NONE 0 0
            Singletons.info0;
          mkController VIR_DOMAIN_CONTROLLER_TYPE_SCSI 0 VIR_DOMAIN_CONTROLLER_MODEL_USB_NONE 0 0
            Singletons.info0]) by reflexivity.
  split; [reflexivity|]. split; [exact H|].
  apply (proj2 (parse_controllers_sorted_usb_none _ _ _ _ H)).
  - left. reflexivity.
  - reflexivity.
  - reflexivity.
Defined.

(** [virDomainDefAddImplicitControllers] leaves no device pointing at a
    missing controller: it only appends to the controller array, and
    afterwards every disk on a SCSI, FDC, IDE or SATA bus with a drive
    address whose (unsigned) controller number is below 2^31 has a
    controller of the matching type and that index (a larger number is
    negative after the [(int)] cast and is not counted), every virtio
    channel and virtio console has a virtio-serial controller of the
    index in its address (0 without one), and every smartcard with a
    CCID address (including those it assigns one) has a CCID controller
    of that address's controller index. *)
Theorem implicit_controllers_complete (disks : list virDomainDiskDef)
  (channels consoles : list virDomainChrDef) (smartcards : list virDomainSmartcardDef)
  (controllers : list virDomainControllerDef)
  (smartcards' : list virDomainSmartcardDef) (controllers' : list virDomainControllerDef)
  (Hrun : virDomainDefAddImplicitControllers disks channels consoles smartcards controllers =
          (smartcards', controllers')) :
  (exists added, controllers' = controllers ++ added) /\
  (forall d type ctl bus unit, In d disks -> info_addr (disk_info d) = AddrDrive ctl bus unit ->
     In (disk_bus d, type) [(VIR_DOMAIN_DISK_BUS_SCSI, VIR_DOMAIN_CONTROLLER_TYPE_SCSI);
                            (VIR_DOMAIN_DISK_BUS_FDC, VIR_DOMAIN_CONTROLLER_TYPE_FDC);
                            (VIR_DOMAIN_DISK_BUS_IDE, VIR_DOMAIN_CONTROLLER_TYPE_IDE);
                            (VIR_DOMAIN_DISK_BUS_SATA, VIR_DOMAIN_CONTROLLER_TYPE_SATA)] ->
     0 <= ctl < 2 ^ 31 -> hasController controllers' type ctl) /\
  (forall chr, In chr channels -> chr_targetType chr = VIR_DOMAIN_CHR_CHANNEL_TARGET_TYPE_VIRTIO ->
     hasController controllers' VIR_DOMAIN_CONTROLLER_TYPE_VIRTIO_SERIAL (vioserialIdx chr)) /\
  (forall chr, In chr consoles -> chr_targetType chr = VIR_DOMAIN_CHR_CONSOLE_TARGET_TYPE_VIRTIO ->
     hasController controllers' VIR_DOMAIN_CONTROLLER_TYPE_VIRTIO_SERIAL (vioserialIdx chr)) /\
  (forall sc ctl slot, In sc smartcards' -> info_addr (smartcard_info sc) = AddrCCID ctl slot ->
     hasController controllers' VIR_DOMAIN_CONTROLLER_TYPE_CCID (uintToInt ctl)).
Proof.
  unfold virDomainDefAddImplicitControllers in Hrun.
  destruct (addDiskControllers_spec disks controllers
              VIR_DOMAIN_CONTROLLER_TYPE_SCSI VIR_DOMAIN_DISK_BUS_SCSI) as [P1 D1].
  set (cs1 := virDomainDefAddDiskControllersForType disks controllers _ _) in *.
  destruct (addDiskControllers_spec disks cs1
              VIR_DOMAIN_CONTROLLER_TYPE_FDC VIR_DOMAIN_DISK_BUS_FDC) as [P2 D2].
  set (cs2 := virDomainDefAddDiskControllersForType disks cs1 _ _) in *.
  destruct (addDiskControllers_spec disks cs2
              VIR_DOMAIN_CONTROLLER_TYPE_IDE VIR_DOMAIN_DISK_BUS_IDE) as [P3 D3].
  set (cs3 := virDomainDefAddDiskControllersForType disks cs2 _ _) in *.
  destruct (addDiskControllers_spec disks cs3
              VIR_DOMAIN_CONTROLLER_TYPE_SATA VIR_DOMAIN_DISK_BUS_SATA) as [P4 D4].
  set (cs4 := virDomainDefAddDiskControllersForType disks cs3 _ _) in *.
  unfold virDomainDefMaybeAddVirtioSerialController in Hrun.
  destruct (fold_maybeAdd (fun chr => chr_targetType chr =? VIR_DOMAIN_CHR_CHANNEL_TARGET_TYPE_VIRTIO)
              VIR_DOMAIN_CONTROLLER_TYPE_VIRTIO_SERIAL vioserialIdx channels cs4) as [P5 D5].
  set (cs5 := fold_left _ channels cs4) in *.
  destruct (fold_maybeAdd (fun chr => chr_targetType chr =? VIR_DOMAIN_CHR_CONSOLE_TARGET_TYPE_VIRTIO)
              VIR_DOMAIN_CONTROLLER_TYPE_VIRTIO_SERIAL vioserialIdx consoles cs5) as [P6 D6].
  set (cs6 := fold_left _ consoles cs5) in *.
  unfold virDomainDefMaybeAddSmartcardController in Hrun.
  destruct (smartcardLoop_spec (List.length smartcards) 0 smartcards cs6 eq_refl _ _ Hrun)
    as [P7 [_ [_ D7]]].
  assert (Q7 : forall cs, (exists s, cs6 = cs ++ s) -> exists s, controllers' = cs ++ s)
    by (intros cs H; eapply prefix_trans; eassumption).
  assert (Q6 : forall cs, (exists s, cs5 = cs ++ s) -> exists s, controllers' = cs ++ s)
    by (intros cs H; apply Q7; eapply prefix_trans; eassumption).
  assert (Q5 : forall cs, (exists s, cs4 = cs ++ s) -> exists s, controllers' = cs ++ s)
    by (intros cs H; apply Q6; eapply prefix_trans; eassumption).
  assert (Q4 : forall cs, (exists s, cs3 = cs ++ s) -> exists s, controllers' = cs ++ s)
    by (intros cs H; apply Q5; eapply prefix_trans; eassumption).
  assert (Q3 : forall cs, (exists s, cs2 = cs ++ s) -> exists s, controllers' = cs ++ s)
    by (intros cs H; apply Q4; eapply prefix_trans; eassumption).
  assert (Q2 : forall cs, (exists s, cs1 = cs ++ s) -> exists s, controllers' = cs ++ s)
    by (intros cs H; apply Q3; eapply prefix_trans; eassumption).
  split; [apply Q2; exact P1|].
  split.
  - intros d type ctl bus unit Hin Ha Hbus Hc.
    assert (Hu : uintToInt ctl = ctl) by (unfold uintToInt; destruct (Z.geb_spec ctl (2 ^ 31)); lia).
    rewrite <- Hu. assert (Hc0 : 0 <= uintToInt ctl) by lia. clear Hc.
    destruct Hbus as [Hb|[Hb|[Hb|[Hb|[]]]]]; injection Hb as Hb Ht; subst type; symmetry in Hb.
    + eapply has_prefix; [apply Q2; exists []; rewrite app_nil_r; reflexivity|].
      apply (D1 d ctl bus unit); assumption.
    + eapply has_prefix; [apply Q3; exists []; rewrite app_nil_r; reflexivity|].
      apply (D2 d ctl bus unit); assumption.
    + eapply has_prefix; [apply Q4; exists []; rewrite app_nil_r; reflexivity|].
      apply (D3 d ctl bus unit); assumption.
    + eapply has_prefix; [apply Q5; exists []; rewrite app_nil_r; reflexivity|].
      apply (D4 d ctl bus unit); assumption.
  - split; [|split].
    + intros chr Hin Ht.
      eapply has_prefix; [apply Q6; exists []; rewrite app_nil_r; reflexivity|].
      apply D5; [exact Hin|apply Z.eqb_eq, Ht].
    + intros chr Hin Ht.
      eapply has_prefix; [apply Q7; exists []; rewrite app_nil_r; reflexivity|].
      apply D6; [exact Hin|apply Z.eqb_eq, Ht].
    + intros sc ctl slot Hin Ha.
      destruct (In_nth_error _ _ Hin) as [j Ej].
      apply (D7 j sc ctl slot); [lia|exact Ej|exact Ha].
Qed.

Lemma implicit_controllers_complete_witness :
  let disks := [mkDisk 0 VIR_DOMAIN_DISK_BUS_SCSI (Some "sdc"%string) None false false
                  (mkInfo None (AddrDrive 1 0 0) 0)] in
  let scs := [mkSmartcard Singletons.info0] in
  exists scs' cs',
    virDomainDefAddImplicitControllers disks [] [] scs [] = (scs', cs') /\
    hasController cs' VIR_DOMAIN_CONTROLLER_TYPE_SCSI 1.
Proof.
  intros disks scs.
  exists (fst (virDomainDefAddImplicitControllers disks [] [] scs [])),
         (snd (virDomainDefAddImplicitControllers disks [] [] scs [])).
  assert (Hrun : virDomainDefAddImplicitControllers disks [] [] scs [] =
    (fst (virDomainDefAddImplicitControllers disks [] [] scs []),
     snd (virDomainDefAddImplicitControllers disks [] [] scs []))) by reflexivity.
  split; [exact Hrun|].
  apply (proj1 (proj2 (implicit_controllers_complete disks [] [] scs [] _ _ Hrun))
           (hd (mkDisk 0 0 None None false false Singletons.info0) disks)
           VIR_DOMAIN_CONTROLLER_TYPE_SCSI 1 0 0).
  - left. reflexivity.
  - reflexivity.
  - left. reflexivity.
  - lia.
Defined.

End DeviceListClaims.

Module RemoveFacts.
Import DeviceLists DeviceListsFacts.

Lemma removeAt_middle {A : Type} (pre post : list A) (x : A) :
  removeAt (pre ++ x :: post) (List.length pre) = Some (x, pre ++ post).
Proof.
  pose proof (removeAt_insert (pre ++ post) x (List.length pre)) as H.
  rewrite length_app in H.
  rewrite firstn_app, Nat.sub_diag, firstn_O, app_nil_r, firstn_all in H.
  rewrite skipn_app, Nat.sub_diag, skipn_O, skipn_all, app_nil_l in H.
  apply H. lia.
Qed.

End RemoveFacts.

Module DiskAddressClaims.
Import DeviceLists.

Ltac quot_rem idx n :=
  pose proof (Z.quot_rem idx n ltac:(lia));
  pose proof (Z.rem_bound_pos idx n ltac:(lia) ltac:(lia));
  pose proof (Z.quot_pos idx n ltac:(lia) ltac:(lia)).

(** [virDomainDiskDefAssignAddress] gives a disk on a controller-based
    bus (SCSI, IDE, SATA, FDC) a drive address within the geometry of
    that bus: controller [idx / n], bus 0 (0 or 1 for IDE), a unit below
    the units per bus, and on a wide SCSI bus never unit 7, the unit of
    the SCSI controller itself.  A disk on another bus is returned
    unchanged. *)
Theorem assign_address_geometry (virDiskNameToIndex : option string -> Z)
  (hasWideScsiBus : bool) (d d' : virDomainDiskDef)
  (Hok : virDomainDiskDefAssignAddress virDiskNameToIndex hasWideScsiBus d = Some d') :
  (In (disk_bus d) [VIR_DOMAIN_DISK_BUS_SCSI; VIR_DOMAIN_DISK_BUS_IDE;
                    VIR_DOMAIN_DISK_BUS_SATA; VIR_DOMAIN_DISK_BUS_FDC] ->
   exists controller bus unit,
     info_addr (disk_info d') = AddrDrive controller bus unit /\ 0 <= controller /\
     (disk_bus d = VIR_DOMAIN_DISK_BUS_SCSI ->
        bus = 0 /\ 0 <= unit <= (if hasWideScsiBus then 15 else 6) /\
        (hasWideScsiBus = true -> unit <> 7)) /\
     (disk_bus d = VIR_DOMAIN_DISK_BUS_IDE -> 0 <= bus <= 1 /\ 0 <= unit <= 1) /\
     (disk_bus d = VIR_DOMAIN_DISK_BUS_SATA -> bus = 0 /\ 0 <= unit <= 5) /\
     (disk_bus d = VIR_DOMAIN_DISK_BUS_FDC -> bus = 0 /\ 0 <= unit <= 1)) /\
  (~ In (disk_bus d) [VIR_DOMAIN_DISK_BUS_SCSI; VIR_DOMAIN_DISK_BUS_IDE;
                      VIR_DOMAIN_DISK_BUS_SATA; VIR_DOMAIN_DISK_BUS_FDC] -> d' = d).
Proof.
  unfold virDomainDiskDefAssignAddress in Hok.
  set (idx := diskIndex virDiskNameToIndex d) in Hok.
  destruct (Z.ltb_spec idx 0) as [|Hidx]; [discriminate|].
  unfold VIR_DOMAIN_DISK_BUS_SCSI, VIR_DOMAIN_DISK_BUS_IDE, VIR_DOMAIN_DISK_BUS_SATA,
    VIR_DOMAIN_DISK_BUS_FDC in *.
  destruct (Z.eqb_spec (disk_bus d) 2) as [Hb|Hb];
  [|destruct (Z.eqb_spec (disk_bus d) 0) as [Hb'|Hb'];
  [|destruct (Z.eqb_spec (disk_bus d) 7) as [Hb''|Hb''];
  [|destruct (Z.eqb_spec (disk_bus d) 1) as [Hb'''|Hb''']]]].
  - split; [|intros Hn; exfalso; apply Hn; left; symmetry; exact Hb].
    intros _. rewrite Hb.
    destruct hasWideScsiBus; injection Hok as <-; simpl.
    + quot_rem idx 15.
      eexists _, _, _. split; [reflexivity|].
      split; [lia|]. split; [|split; [lia|split; lia]].
      intros _. destruct (Z.geb_spec (Z.rem idx 15) 7); lia.
    + quot_rem idx 7.
      eexists _, _, _. split; [reflexivity|]. split; [lia|]. split; [|split; [lia|split; lia]].
      intros _. lia.
  - split; [|intros Hn; exfalso; apply Hn; right; left; symmetry; exact Hb'].
    intros _. rewrite Hb'. injection Hok as <-; simpl.
    quot_rem idx 4. pose proof (Z.rem_bound_pos idx 2 ltac:(lia) ltac:(lia)).
    pose proof (Z.rem_bound_pos (Z.rem idx 4) 4 ltac:(lia) ltac:(lia)).
    pose proof (Z.quot_pos (Z.rem idx 4) 2 ltac:(lia) ltac:(lia)).
    pose proof (Z.quot_lt_upper_bound (Z.rem idx 4) 2 2 ltac:(lia) ltac:(lia) ltac:(lia)).
    eexists _, _, _. split; [reflexivity|]. split; [lia|]. split; [lia|]. split; [lia|]. lia.
  - split; [|intros Hn; exfalso; apply Hn; right; right; left; symmetry; exact Hb''].
    intros _. rewrite Hb''. injection Hok as <-; simpl.
    quot_rem idx 6.
    eexists _, _, _. split; [reflexivity|]. split; [lia|]. split; [lia|]. split; [lia|]. lia.
  - split; [|intros Hn; exfalso; apply Hn; right; right; right; left; symmetry; exact Hb'''].
    intros _. rewrite Hb'''. injection Hok as <-; simpl.
    quot_rem idx 2.
    eexists _, _, _. split; [reflexivity|]. split; [lia|]. split; [lia|]. split; [lia|]. lia.
  - injection Hok as <-. split; [|reflexivity].
    intros [H|[H|[H|[H|[]]]]]; lia.
Qed.

Lemma assign_address_geometry_witness :
  virDomainDiskDefAssignAddress (fun _ => 22) true
    (mkDisk 0 VIR_DOMAIN_DISK_BUS_SCSI (Some "sdw"%string) None false false Singletons.info0) =
  Some (mkDisk 0 VIR_DOMAIN_DISK_BUS_SCSI (Some "sdw"%string) None false false
          (mkInfo None (AddrDrive 1 0 8) 0)) /\
  exists controller bus unit,
    AddrDrive 1 0 8 = AddrDrive controller bus unit /\ 0 <= controller /\
    (VIR_DOMAIN_DISK_BUS_SCSI = VIR_DOMAIN_DISK_BUS_SCSI ->
       bus = 0 /\ 0 <= unit <= 15 /\ (true = true -> unit <> 7)) /\
    (VIR_DOMAIN_DISK_BUS_SCSI = VIR_DOMAIN_DISK_BUS_IDE -> 0 <= bus <= 1 /\ 0 <= unit <= 1) /\
    (VIR_DOMAIN_DISK_BUS_SCSI = VIR_DOMAIN_DISK_BUS_SATA -> bus = 0 /\ 0 <= unit <= 5) /\
    (VIR_DOMAIN_DISK_BUS_SCSI = VIR_DOMAIN_DISK_BUS_FDC -> bus = 0 /\ 0 <= unit <= 1).
Proof.
  assert (H : virDomainDiskDefAssignAddress (fun _ => 22) true
    (mkDisk 0 VIR_DOMAIN_DISK_BUS_SCSI (Some "sdw"%string) None false false Singletons.info0) =
    Some (mkDisk 0 VIR_DOMAIN_DISK_BUS_SCSI (Some "sdw"%string) None false false
          (mkInfo None (AddrDrive 1 0 8) 0))) by reflexivity.
  split; [exact H|].
  exact (proj1 (assign_address_geometry _ _ _ _ H) ltac:(left; reflexivity)).
Defined.

(** [virDomainDiskDefAssignAddress] never gives two disks of the same
    controller-based bus the same drive address when their target names
    have different drive indexes. *)
Theorem assign_address_distinct (virDiskNameToIndex : option string -> Z)
  (hasWideScsiBus : bool) (d1 d2 d1' d2' : virDomainDiskDef)
  (Hbus : disk_bus d1 = disk_bus d2)
  (Hctl : In (disk_bus d1) [VIR_DOMAIN_DISK_BUS_SCSI; VIR_DOMAIN_DISK_BUS_IDE;
                            VIR_DOMAIN_DISK_BUS_SATA; VIR_DOMAIN_DISK_BUS_FDC])
  (H1 : virDomainDiskDefAssignAddress virDiskNameToIndex hasWideScsiBus d1 = Some d1')
  (H2 : virDomainDiskDefAssignAddress virDiskNameToIndex hasWideScsiBus d2 = Some d2')
  (Hne : diskIndex virDiskNameToIndex d1 <> diskIndex virDiskNameToIndex d2) :
  info_addr (disk_info d1') <> info_addr (disk_info d2').
Proof.
  unfold virDomainDiskDefAssignAddress in H1, H2. rewrite <- Hbus in H2.
  set (i1 := diskIndex virDiskNameToIndex d1) in *.
  set (i2 := diskIndex virDiskNameToIndex d2) in *.
  destruct (Z.ltb_spec i1 0); [discriminate|]. destruct (Z.ltb_spec i2 0); [discriminate|].
  unfold VIR_DOMAIN_DISK_BUS_SCSI, VIR_DOMAIN_DISK_BUS_IDE, VIR_DOMAIN_DISK_BUS_SATA,
    VIR_DOMAIN_DISK_BUS_FDC in *.
  destruct Hctl as [Hb|[Hb|[Hb|[Hb|[]]]]]; rewrite <- Hb in H1, H2; simpl in H1, H2.
  - destruct hasWideScsiBus; injection H1 as <-; injection H2 as <-; simpl; intros He;
      injection He as Hc Hu.
    + quot_rem i1 15. quot_rem i2 15.
      destruct (Z.geb_spec (Z.rem i1 15) 7), (Z.geb_spec (Z.rem i2 15) 7); lia.
    + quot_rem i1 7. quot_rem i2 7. lia.
  - injection H1 as <-; injection H2 as <-; simpl; intros He; injection He as Hc Hb2 Hu.
    quot_rem i1 4. quot_rem i2 4. quot_rem i1 2. quot_rem i2 2.
    pose proof (Z.quot_rem (Z.rem i1 4) 2 ltac:(lia)).
    pose proof (Z.quot_rem (Z.rem i2 4) 2 ltac:(lia)).
    pose proof (Z.rem_bound_pos (Z.rem i1 4) 2 ltac:(lia) ltac:(lia)).
    pose proof (Z.rem_bound_pos (Z.rem i2 4) 2 ltac:(lia) ltac:(lia)).
    lia.
  - injection H1 as <-; injection H2 as <-; simpl; intros He; injection He as Hc Hu.
    quot_rem i1 6. quot_rem i2 6. lia.
  - injection H1 as <-; injection H2 as <-; simpl; intros He; injection He as Hc Hu.
    quot_rem i1 2. quot_rem i2 2. lia.
Qed.

Lemma assign_address_distinct_witness :
  virDomainDiskDefAssignAddress (fun dst => match dst with Some "sdb"%string => 1 | _ => 0 end)
    false (mkDisk 0 VIR_DOMAIN_DISK_BUS_SATA (Some "sdb"%string) None false false
             Singletons.info0) =
    Some (mkDisk 0 VIR_DOMAIN_DISK_BUS_SATA (Some "sdb"%string) None false false
            (mkInfo None (AddrDrive 0 0 1) 0)) /\
  AddrDrive 0 0 0 <> AddrDrive 0 0 1.
Proof.
  set (f := fun dst : option string => match dst with Some "sdb"%string => 1 | _ => 0 end).
  set (d1 := mkDisk 0 VIR_DOMAIN_DISK_BUS_SATA (Some "sda"%string) None false false
               Singletons.info0).
  set (d2 := mkDisk 0 VIR_DOMAIN_DISK_BUS_SATA (Some "sdb"%string) None false false
               Singletons.info0).
  split; [reflexivity|].
  exact (assign_address_distinct f false d1 d2
           (mkDisk 0 VIR_DOMAIN_DISK_BUS_SATA (Some "sda"%string) None false false
              (mkInfo None (AddrDrive 0 0 0) 0))
           (mkDisk 0 VIR_DOMAIN_DISK_BUS_SATA (Some "sdb"%string) None false false
              (mkInfo None (AddrDrive 0 0 1) 0))
           eq_refl ltac:(right; right; left; reflexivity) eq_refl eq_refl
           ltac:(vm_compute; discriminate)).
Defined.

End DiskAddressClaims.

Module DiskNameClaims.
Import DeviceLists RemoveFacts.

Section WithSrc.
Variable disk_src : virDomainDiskDef -> option string.

Lemma indexByName_dst disks name cand :
  startsWithSlash name = false ->
  forall i r, diskIndexByNameFrom disk_src disks name false i cand = Some r ->
  r = cand \/
  exists pre d post, disks = pre ++ d :: post /\ r = i + Z.of_nat (List.length pre) /\
    disk_dst d = Some name /\ (forall d', In d' pre -> disk_dst d' <> Some name).
Proof.
  intros Hs. induction disks as [|vd rest IH]; intros i r Hr; simpl in Hr.
  - injection Hr as <-. left. reflexivity.
  - rewrite Hs in Hr. simpl in Hr.
    destruct (disk_dst vd) as [dst|] eqn:Ed; [|discriminate].
    destruct (String.eqb_spec dst name) as [->|Hne].
    + injection Hr as <-. right. exists [], vd, rest. simpl.
      repeat split; [lia|exact Ed|intros _ []].
    + destruct (IH (i + 1) r Hr) as [Hc|[pre [d [post [-> [Hri [Hd Hpre]]]]]]]; [left; exact Hc|].
      right. exists (vd :: pre), d, post. simpl. repeat split; [lia|exact Hd|].
      intros d' [<-|Hin]; [rewrite Ed; congruence|apply Hpre, Hin].
Qed.

Lemma indexByName_src disks name :
  startsWithSlash name = true ->
  forall i cand r, 0 <= i -> (cand = -1 \/ 0 <= cand < i) ->
  diskIndexByNameFrom disk_src disks name false i cand = Some r -> 0 <= r ->
  (cand = -1 /\ exists pre d post, disks = pre ++ d :: post /\
     r = i + Z.of_nat (List.length pre) /\ disk_src d = Some name /\
     (forall d', In d' (pre ++ post) -> disk_src d' <> Some name)) \/
  (0 <= cand /\ r = cand /\ forall d', In d' disks -> disk_src d' <> Some name).
Proof.
  intros Hs. induction disks as [|vd rest IH]; intros i cand r Hi Hc Hr Hr0; simpl in Hr.
  - injection Hr as <-. right. split; [lia|]. split; [reflexivity|intros _ []].
  - rewrite Hs in Hr. simpl in Hr.
    destruct (disk_src vd) as [src|] eqn:Esrc.
    + destruct (String.eqb_spec src name) as [->|Hne].
      * destruct (Z.geb_spec cand 0) as [Hge|Hlt].
        { injection Hr as <-. lia. }
        destruct (IH (i + 1) i r ltac:(lia) ltac:(lia) Hr Hr0)
          as [[Hm _]|[_ [-> Hnone]]]; [lia|].
        left. split; [lia|]. exists [], vd, rest. simpl.
        repeat split; [lia|exact Esrc|exact Hnone].
      * destruct (IH (i + 1) cand r ltac:(lia) ltac:(lia) Hr Hr0)
          as [[Hm [pre [d [post [-> [Hri [Hd Hother]]]]]]]|[Hge [-> Hnone]]].
        { left. split; [exact Hm|]. exists (vd :: pre), d, post. simpl.
          repeat split; [lia|exact Hd|].
          intros d' [<-|Hin]; [rewrite Esrc; congruence|apply Hother, Hin]. }
        { right. split; [exact Hge|]. split; [reflexivity|].
          intros d' [<-|Hin]; [rewrite Esrc; congruence|apply Hnone, Hin]. }
    + destruct (IH (i + 1) cand r ltac:(lia) ltac:(lia) Hr Hr0)
        as [[Hm [pre [d [post [-> [Hri [Hd Hother]]]]]]]|[Hge [-> Hnone]]].
      * left. split; [exact Hm|]. exists (vd :: pre), d, post. simpl.
        repeat split; [lia|exact Hd|].
        intros d' [<-|Hin]; [rewrite Esrc; discriminate|apply Hother, Hin].
      * right. split; [exact Hge|]. split; [reflexivity|].
        intros d' [<-|Hin]; [rewrite Esrc; discriminate|apply Hnone, Hin].
Qed.

Lemma indexByName_dst_first pre d post name i cand :
  startsWithSlash name = false -> disk_dst d = Some name ->
  (forall d', In d' pre -> disk_dst d' <> None /\ disk_dst d' <> Some name) ->
  diskIndexByNameFrom disk_src (pre ++ d :: post) name false i cand =
    Some (i + Z.of_nat (List.length pre)).
Proof.
  intros Hs Hd. revert i. induction pre as [|vd pre IH]; intros i Hpre; simpl.
  - rewrite Hs, Hd, String.eqb_refl. simpl. f_equal. lia.
  - rewrite Hs. simpl.
    destruct (Hpre vd (or_introl eq_refl)) as [Hn Hne].
    destruct (disk_dst vd) as [dst|]; [|contradiction].
    destruct (String.eqb_spec dst name) as [->|_]; [contradiction|].
    rewrite IH by (intros d' Hin; apply Hpre; right; exact Hin). f_equal. lia.
Qed.

Lemma indexByName_src_none l name i cand :
  startsWithSlash name = true -> (forall d', In d' l -> disk_src d' <> Some name) ->
  diskIndexByNameFrom disk_src l name false i cand = Some cand.
Proof.
  intros Hs. revert i. induction l as [|vd l IH]; intros i Hl; simpl; [reflexivity|].
  rewrite Hs. simpl.
  assert (IH' := IH (i + 1) (fun d' Hin => Hl d' (or_intror Hin))).
  destruct (disk_src vd) as [src|] eqn:E; [|exact IH'].
  destruct (String.eqb_spec src name) as [->|_]; [|exact IH'].
  exfalso. apply (Hl vd (or_introl eq_refl)). exact E.
Qed.

Lemma indexByName_src_unique pre d post name i :
  startsWithSlash name = true -> disk_src d = Some name ->
  (forall d', In d' (pre ++ post) -> disk_src d' <> Some name) ->
  diskIndexByNameFrom disk_src (pre ++ d :: post) name false i (-1) =
    Some (i + Z.of_nat (List.length pre)).
Proof.
  intros Hs Hd. revert i. induction pre as [|vd pre IH]; intros i Hother; simpl.
  - rewrite Hs, Hd, String.eqb_refl. simpl.
    rewrite indexByName_src_none by assumption. f_equal. lia.
  - rewrite Hs. simpl.
    rewrite IH by (intros d' Hin; apply Hother; right; exact Hin).
    destruct (disk_src vd) as [src|] eqn:E; [|f_equal; lia].
    destruct (String.eqb_spec src name) as [->|_]; [|f_equal; lia].
    exfalso. apply (Hother vd (or_introl eq_refl)). exact E.
Qed.

Lemma indexByName_src_again l name i cand :
  startsWithSlash name = true -> 0 <= cand ->
  (exists d', In d' l /\ disk_src d' = Some name) ->
  diskIndexByNameFrom disk_src l name false i cand = Some (-1).
Proof.
  intros Hs Hc. revert i. induction l as [|vd l IH]; intros i [d' [Hin Hd']]; [destruct Hin|].
  simpl. rewrite Hs. simpl.
  destruct Hin as [<-|Hin].
  - rewrite Hd', String.eqb_refl. destruct (Z.geb_spec cand 0); [reflexivity|lia].
  - destruct (disk_src vd) as [src|]; [|apply IH; exists d'; auto].
    destruct (String.eqb src name); [|apply IH; exists d'; auto].
    destruct (Z.geb_spec cand 0); [reflexivity|lia].
Qed.

Lemma indexByName_src_ambiguous pre d1 mid d2 post name i :
  startsWithSlash name = true -> 0 <= i ->
  disk_src d1 = Some name -> disk_src d2 = Some name ->
  diskIndexByNameFrom disk_src (pre ++ d1 :: mid ++ d2 :: post) name false i (-1) = Some (-1).
Proof.
  intros Hs Hi H1 H2. revert i Hi. induction pre as [|vd pre IH]; intros i Hi; simpl.
  - rewrite Hs, H1, String.eqb_refl. simpl.
    apply indexByName_src_again; [exact Hs|exact Hi|].
    exists d2. split; [apply in_or_app; right; left; reflexivity|exact H2].
  - rewrite Hs. simpl.
    destruct (disk_src vd) as [src|]; [|apply IH; lia].
    destruct (String.eqb src name); [|apply IH; lia]. simpl.
    apply indexByName_src_again; [exact Hs|exact Hi|].
    exists d1. split; [apply in_or_app; right; left; reflexivity|exact H1].
Qed.

(** [virDomainDiskRemoveByName] removes the disk the name designates and
    nothing else: the disks that follow it move down one place.  A name
    without a leading '/' is a target name: the first disk with that
    target is removed (the disks before it have a target, as parsed
    disks do).  A name with a leading '/' is a source path: a disk is
    removed when it is the one disk with that source, and nothing is
    removed (NULL is returned) when two disks have it. *)
Theorem remove_by_name_spec (disks : list virDomainDiskDef) (name : string) :
  (forall d rest, virDomainDiskRemoveByName disk_src disks name = Some (Some d, rest) ->
   exists pre post, disks = pre ++ d :: post /\ rest = pre ++ post /\
    (startsWithSlash name = false ->
       disk_dst d = Some name /\ forall d', In d' pre -> disk_dst d' <> Some name) /\
    (startsWithSlash name = true ->
       disk_src d = Some name /\ forall d', In d' (pre ++ post) -> disk_src d' <> Some name)) /\
  (startsWithSlash name = false -> forall pre d post, disks = pre ++ d :: post ->
     disk_dst d = Some name ->
     (forall d', In d' pre -> disk_dst d' <> None /\ disk_dst d' <> Some name) ->
     virDomainDiskRemoveByName disk_src disks name = Some (Some d, pre ++ post)) /\
  (startsWithSlash name = true -> forall pre d post, disks = pre ++ d :: post ->
     disk_src d = Some name -> (forall d', In d' (pre ++ post) -> disk_src d' <> Some name) ->
     virDomainDiskRemoveByName disk_src disks name = Some (Some d, pre ++ post)) /\
  (startsWithSlash name = true -> forall pre d1 mid d2 post,
     disks = pre ++ d1 :: mid ++ d2 :: post ->
     disk_src d1 = Some name -> disk_src d2 = Some name ->
     virDomainDiskRemoveByName disk_src disks name = Some (None, disks)).
Proof.
  split; [|split; [|split]].
  - intros d rest Hrm.
    unfold virDomainDiskRemoveByName, virDomainDiskIndexByName in Hrm.
    destruct (diskIndexByNameFrom disk_src disks name false 0 (-1)) as [r|] eqn:Er;
      [|discriminate].
    destruct (Z.ltb_spec r 0) as [|Hr0]; [discriminate|].
    destruct (startsWithSlash name) eqn:Hs.
    + destruct (indexByName_src disks name Hs 0 (-1) r ltac:(lia) ltac:(lia) Er Hr0)
        as [[_ [pre [d0 [post [-> [Hri [Hd Hother]]]]]]]|[Hge _]]; [|lia].
      rewrite Hri, Z.add_0_l, Nat2Z.id, removeAt_middle in Hrm.
      injection Hrm as <- <-. exists pre, post. repeat split; try reflexivity;
        try discriminate; [exact Hd|exact Hother].
    + destruct (indexByName_dst disks name (-1) Hs 0 r Er)
        as [Hc|[pre [d0 [post [-> [Hri [Hd Hpre]]]]]]]; [lia|].
      rewrite Hri, Z.add_0_l, Nat2Z.id, removeAt_middle in Hrm.
      injection Hrm as <- <-. exists pre, post. repeat split; try reflexivity;
        try discriminate; [exact Hd|exact Hpre].
  - intros Hs pre d post -> Hd Hpre.
    unfold virDomainDiskRemoveByName, virDomainDiskIndexByName.
    rewrite indexByName_dst_first by assumption.
    destruct (Z.ltb_spec (0 + Z.of_nat (List.length pre)) 0); [lia|].
    rewrite Z.add_0_l, Nat2Z.id, removeAt_middle. reflexivity.
  - intros Hs pre d post -> Hd Hother.
    unfold virDomainDiskRemoveByName, virDomainDiskIndexByName.
    rewrite indexByName_src_unique by assumption.
    destruct (Z.ltb_spec (0 + Z.of_nat (List.length pre)) 0); [lia|].
    rewrite Z.add_0_l, Nat2Z.id, removeAt_middle. reflexivity.
  - intros Hs pre d1 mid d2 post Hdisks H1 H2.
    unfold virDomainDiskRemoveByName, virDomainDiskIndexByName.
    rewrite Hdisks at 1. rewrite indexByName_src_ambiguous by (assumption || lia).
    reflexivity.
Qed.

End WithSrc.

Lemma remove_by_name_spec_witness :
  let src := fun d : virDomainDiskDef => disk_serial d in
  let a := mkDisk 0 VIR_DOMAIN_DISK_BUS_SATA (Some "sda"%string) (Some "/img/a"%string)
             false false Singletons.info0 in
  let b := mkDisk 0 VIR_DOMAIN_DISK_BUS_SATA (Some "sdb"%string) (Some "/img/b"%string)
             false false Singletons.info0 in
  virDomainDiskRemoveByName src [a; b; b] "sdb" = Some (Some b, [a; b]) /\
  virDomainDiskRemoveByName src [a; b] "/img/b" = Some (Some b, [a]) /\
  virDomainDiskRemoveByName src [a; b; b] "/img/b" = Some (None, [a; b; b]).
Proof.
  intros src a b.
  split; [|split].
  - apply (proj1 (proj2 (remove_by_name_spec src [a; b; b] "sdb")) eq_refl [a] b [b]
             eq_refl eq_refl).
    intros d' [<-|[]]. split; discriminate.
  - apply (proj1 (proj2 (proj2 (remove_by_name_spec src [a; b] "/img/b"))) eq_refl [a] b []
             eq_refl eq_refl).
    intros d' [<-|[]]. discriminate.
  - apply (proj2 (proj2 (proj2 (remove_by_name_spec src [a; b; b] "/img/b"))) eq_refl
             [a] b [] b [] eq_refl eq_refl eq_refl).
Defined.

End DiskNameClaims.

Module LeaseClaims.
Import Leases RemoveFacts.

(** [vlease] is the entry [virDomainLeaseIndex] accepts for [lease]. *)
Definition leaseMatches (lease vlease : virDomainLeaseDef) : Prop :=
  lease_lockspace vlease = None /\ lease_lockspace lease = None /\
  lease_key vlease <> None /\ lease_key vlease = lease_key lease.

Lemma leaseIndexFrom_lockspace leases lease i :
  lease_lockspace lease <> None -> leaseIndexFrom leases lease i = Some (-1).
Proof.
  intros Hl. revert i. induction leases as [|vl rest IH]; intros i; simpl; [reflexivity|].
  destruct (lease_lockspace lease) as [ls|] eqn:El; [|contradiction].
  destruct (lease_lockspace vl) as [vls|]; simpl.
  - destruct (negb (String.eqb vls ls)); apply IH.
  - apply IH.
Qed.

Lemma leaseIndexFrom_spec leases lease i r :
  leaseIndexFrom leases lease i = Some r ->
  r = -1 \/
  exists pre vl post, leases = pre ++ vl :: post /\ r = i + Z.of_nat (List.length pre) /\
    leaseMatches lease vl /\ forall l', In l' pre -> ~ leaseMatches lease l'.
Proof.
  revert i. induction leases as [|vl rest IH]; intros i Hr; simpl in Hr.
  - injection Hr as <-. left. reflexivity.
  - assert (Hskip : leaseIndexFrom rest lease (i + 1) = Some r -> ~ leaseMatches lease vl ->
              r = -1 \/ exists pre vl' post, vl :: rest = pre ++ vl' :: post /\
                r = i + Z.of_nat (List.length pre) /\ leaseMatches lease vl' /\
                forall l', In l' pre -> ~ leaseMatches lease l').
    { intros H Hn. destruct (IH (i + 1) H) as [Hc|[pre [v [post [-> [Hri [Hm Hpre]]]]]]];
        [left; exact Hc|].
      right. exists (vl :: pre), v, post. simpl.
      split; [reflexivity|]. split; [lia|]. split; [exact Hm|].
      intros l' [<-|Hin]; [exact Hn|apply Hpre, Hin]. }
    destruct (lease_lockspace vl) as [vls|] eqn:Ev.
    + destruct (lease_lockspace lease) as [ls|] eqn:El; simpl in Hr.
      * destruct (negb (String.eqb vls ls)); apply Hskip; try exact Hr;
          intros [Hc _]; congruence.
      * apply Hskip; [exact Hr|intros [Hc _]; congruence].
    + destruct (lease_lockspace lease) as [ls|] eqn:El; simpl in Hr.
      * apply Hskip; [exact Hr|intros [_ [Hc _]]; congruence].
      * destruct (lease_key vl) as [k1|] eqn:Ek1; [|discriminate].
        destruct (lease_key lease) as [k2|] eqn:Ek2; [|discriminate]. simpl in Hr.
        destruct (String.eqb_spec k1 k2) as [<-|Hne]; simpl in Hr.
        { injection Hr as <-. right. exists [], vl, rest. simpl.
          repeat split; [lia|exact Ev|exact El|rewrite Ek1; discriminate|congruence|].
          intros _ []. }
        { apply Hskip; [exact Hr|]. intros [_ [_ [_ Hk]]]. congruence. }
Qed.

Lemma leaseIndexFrom_first pre vl post lease i :
  lease_lockspace lease = None -> lease_key lease <> None ->
  lease_lockspace vl = None -> lease_key vl = lease_key lease ->
  (forall l', In l' pre -> lease_lockspace l' <> None \/
                           (lease_key l' <> None /\ lease_key l' <> lease_key lease)) ->
  leaseIndexFrom (pre ++ vl :: post) lease i = Some (i + Z.of_nat (List.length pre)).
Proof.
  intros Hl Hk Hv Hvk. revert i. induction pre as [|l pre IH]; intros i Hpre; simpl.
  - rewrite Hv, Hl. simpl. rewrite Hvk.
    destruct (lease_key lease) as [k|]; [|contradiction]. simpl.
    rewrite String.eqb_refl. simpl. f_equal. lia.
  - rewrite IH by (intros l' Hin; apply Hpre; right; exact Hin).
    rewrite Hl.
    destruct (lease_lockspace l) as [ls|] eqn:E; simpl.
    + f_equal. lia.
    + destruct (Hpre l (or_introl eq_refl)) as [Hc|[Hn Hne]]; [contradiction|].
      destruct (lease_key l) as [k1|]; [|contradiction].
      destruct (lease_key lease) as [k2|]; [|contradiction]. simpl.
      destruct (String.eqb_spec k1 k2) as [->|_]; [contradiction|]. simpl. f_equal. lia.
Qed.

(** [virDomainLeaseRemove] takes out the first lease of the list that
    has no lockspace and the same key as [lease], when [lease] has no
    lockspace, and only such a lease: the leases after it move down one
    place.  Entries with a lockspace are skipped, and a lease that names
    a lockspace is never found, so removing it returns NULL and leaves
    the lease list unchanged, even when an identical lease is in the
    list (the comment in [virDomainLeaseIndex] says that matching
    lockspaces should match). *)
Theorem lease_remove_spec (leases : list virDomainLeaseDef) (lease : virDomainLeaseDef) :
  (lease_lockspace lease <> None -> virDomainLeaseRemove leases lease = Some (None, leases)) /\
  (forall vl rest, virDomainLeaseRemove leases lease = Some (Some vl, rest) ->
     exists pre post, leases = pre ++ vl :: post /\ rest = pre ++ post /\
       leaseMatches lease vl /\ forall l', In l' pre -> ~ leaseMatches lease l') /\
  (forall pre vl post, leases = pre ++ vl :: post ->
     lease_lockspace lease = None -> lease_key lease <> None ->
     lease_lockspace vl = None -> lease_key vl = lease_key lease ->
     (forall l', In l' pre -> lease_lockspace l' <> None \/
                              (lease_key l' <> None /\ lease_key l' <> lease_key lease)) ->
     virDomainLeaseRemove leases lease = Some (Some vl, pre ++ post)).
Proof.
  split; [|split].
  - intros Hl. unfold virDomainLeaseRemove, virDomainLeaseIndex.
    rewrite leaseIndexFrom_lockspace by exact Hl. reflexivity.
  - intros vl rest Hrm. unfold virDomainLeaseRemove, virDomainLeaseIndex in Hrm.
    destruct (leaseIndexFrom leases lease 0) as [r|] eqn:Er; [|discriminate].
    destruct (Z.ltb_spec r 0) as [|Hr0]; [discriminate|].
    destruct (leaseIndexFrom_spec leases lease 0 r Er)
      as [Hc|[pre [v [post [-> [Hri [Hm Hpre]]]]]]]; [lia|].
    rewrite Hri, Z.add_0_l, Nat2Z.id, removeAt_middle in Hrm.
    injection Hrm as <- <-. exists pre, post.
    split; [reflexivity|]. split; [reflexivity|]. split; assumption.
  - intros pre vl post -> Hl Hk Hv Hvk Hpre.
    unfold virDomainLeaseRemove, virDomainLeaseIndex.
    rewrite leaseIndexFrom_first by assumption.
    destruct (Z.ltb_spec (0 + Z.of_nat (List.length pre)) 0); [lia|].
    rewrite Z.add_0_l, Nat2Z.id, removeAt_middle. reflexivity.
Qed.

Lemma lease_remove_spec_witness :
  let l := mkLease (Some "ls"%string) (Some "k"%string) None 0 in
  let m := mkLease None (Some "k"%string) None 0 in
  virDomainLeaseRemove [l] l = Some (None, [l]) /\
  virDomainLeaseRemove [l; m; m] m = Some (Some m, [l; m]).
Proof.
  intros l m. split.
  - apply (proj1 (lease_remove_spec [l] l)). discriminate.
  - apply (proj2 (proj2 (lease_remove_spec [l; m; m] m)) [l] m [m] eq_refl eq_refl
             ltac:(discriminate) eq_refl eq_refl).
    intros l' [<-|[]]. left. discriminate.
Defined.

End LeaseClaims.

Module VcpuPinFacts.
Import VcpuPin.

Section Facts.
Context {B : Type}.

Lemma find_in (def : list (@virDomainVcpuPinDef B)) v p :
  virDomainVcpuPinFindByVcpu def v = Some p -> In p def /\ pin_vcpuid p = v.
Proof.
  intros H. apply find_some in H as [Hin Hv]. apply Z.eqb_eq in Hv. auto.
Qed.

Lemma find_notin (def : list (@virDomainVcpuPinDef B)) v :
  ~ In v (map pin_vcpuid def) -> virDomainVcpuPinFindByVcpu def v = None.
Proof.
  intros Hn. destruct (virDomainVcpuPinFindByVcpu def v) as [p|] eqn:E; [|reflexivity].
  apply find_in in E as [Hin <-]. exfalso. apply Hn, in_map, Hin.
Qed.

Lemma find_none_notin (def : list (@virDomainVcpuPinDef B)) v :
  virDomainVcpuPinFindByVcpu def v = None -> ~ In v (map pin_vcpuid def).
Proof.
  intros H Hin. apply in_map_iff in Hin as [p [<- Hp]].
  pose proof (find_none _ _ H p Hp) as Hf. simpl in Hf. rewrite Z.eqb_refl in Hf. discriminate.
Qed.

Lemma find_replaceFirstPin (def : list (@virDomainVcpuPinDef B)) vcpu c v :
  virDomainVcpuPinFindByVcpu (replaceFirstPin def vcpu c) v =
  if v =? vcpu then option_map (fun _ => mkPin vcpu c) (virDomainVcpuPinFindByVcpu def vcpu)
  else virDomainVcpuPinFindByVcpu def v.
Proof.
  unfold virDomainVcpuPinFindByVcpu.
  induction def as [|p ps IH]; simpl; [destruct (v =? vcpu); reflexivity|].
  destruct (Z.eqb_spec (pin_vcpuid p) vcpu) as [Hp|Hp]; simpl.
  - destruct (Z.eqb_spec v vcpu) as [Hv|Hv]; [subst v; rewrite Z.eqb_refl; reflexivity|].
    destruct (Z.eqb_spec vcpu v); [congruence|].
    destruct (Z.eqb_spec (pin_vcpuid p) v); [congruence|reflexivity].
  - rewrite IH. destruct (Z.eqb_spec v vcpu) as [Hv|Hv]; [subst v|reflexivity].
    destruct (Z.eqb_spec (pin_vcpuid p) vcpu); [contradiction|reflexivity].
Qed.

Lemma ids_replaceFirstPin (def : list (@virDomainVcpuPinDef B)) vcpu c :
  map pin_vcpuid (replaceFirstPin def vcpu c) = map pin_vcpuid def.
Proof.
  induction def as [|p ps IH]; simpl; [reflexivity|].
  destruct (Z.eqb_spec (pin_vcpuid p) vcpu); simpl; congruence.
Qed.

Lemma find_app_one (def : list (@virDomainVcpuPinDef B)) p v :
  virDomainVcpuPinFindByVcpu (def ++ [p]) v =
  match virDomainVcpuPinFindByVcpu def v with
  | Some x => Some x
  | None => if pin_vcpuid p =? v then Some p else None
  end.
Proof.
  unfold virDomainVcpuPinFindByVcpu.
  induction def as [|q qs IH]; simpl; [reflexivity|].
  destruct (pin_vcpuid q =? v); [reflexivity|exact IH].
Qed.

Lemma del_incl (def : list (@virDomainVcpuPinDef B)) vcpu p : In p (virDomainVcpuPinDel def vcpu) -> In p def.
Proof.
  induction def as [|q qs IH]; simpl; [tauto|].
  destruct (pin_vcpuid q =? vcpu); [tauto|]. intros [<-|H]; [left; reflexivity|right; auto].
Qed.

Lemma find_del_other (def : list (@virDomainVcpuPinDef B)) vcpu v :
  v <> vcpu -> virDomainVcpuPinFindByVcpu (virDomainVcpuPinDel def vcpu) v =
              virDomainVcpuPinFindByVcpu def v.
Proof.
  intros Hv. unfold virDomainVcpuPinFindByVcpu.
  induction def as [|q qs IH]; simpl; [reflexivity|].
  destruct (Z.eqb_spec (pin_vcpuid q) vcpu) as [Hq|Hq].
  - destruct (Z.eqb_spec (pin_vcpuid q) v); [congruence|reflexivity].
  - simpl. destruct (pin_vcpuid q =? v); [reflexivity|exact IH].
Qed.

Lemma find_del_self (def : list (@virDomainVcpuPinDef B)) vcpu :
  NoDup (map pin_vcpuid def) -> virDomainVcpuPinFindByVcpu (virDomainVcpuPinDel def vcpu) vcpu = None.
Proof.
  induction def as [|q qs IH]; intros Hnd; simpl; [reflexivity|].
  simpl in Hnd. apply NoDup_cons_iff in Hnd as [Hq Hnd].
  destruct (Z.eqb_spec (pin_vcpuid q) vcpu) as [<-|Hne].
  - apply find_notin, Hq.
  - unfold virDomainVcpuPinFindByVcpu in *. simpl.
    destruct (Z.eqb_spec (pin_vcpuid q) vcpu); [contradiction|]. apply IH, Hnd.
Qed.

Lemma nodup_del (def : list (@virDomainVcpuPinDef B)) vcpu :
  NoDup (map pin_vcpuid def) -> NoDup (map pin_vcpuid (virDomainVcpuPinDel def vcpu)).
Proof.
  induction def as [|q qs IH]; intros Hnd; simpl; [constructor|].
  simpl in Hnd. apply NoDup_cons_iff in Hnd as [Hq Hnd].
  destruct (pin_vcpuid q =? vcpu); [exact Hnd|].
  simpl. constructor; [|apply IH, Hnd].
  intros Hin. apply Hq. apply in_map_iff in Hin as [p [Hp Hin]].
  rewrite <- Hp. apply in_map, (del_incl qs vcpu p Hin).
Qed.

Definition pinValid (vcpus : Z) (p : @virDomainVcpuPinDef B) : Prop :=
  0 <= pin_vcpuid p < vcpus /\ pin_cpumask p <> None.

Lemma vcpupinLoop_spec vcpus (parsed : list (option (@virDomainVcpuPinDef B))) :
  (forall p, In (Some p) parsed -> 0 <= pin_vcpuid p /\ pin_cpumask p <> None) ->
  forall acc def, NoDup (map pin_vcpuid acc) -> Forall (pinValid vcpus) acc ->
  vcpupinLoop vcpus parsed acc = Some def ->
  NoDup (map pin_vcpuid def) /\ Forall (pinValid vcpus) def.
Proof.
  induction parsed as [|o rest IH]; intros Hp acc def Hnd Hv Hl; simpl in Hl.
  - injection Hl as <-. auto.
  - destruct o as [p|]; [|discriminate].
    destruct (virDomainVcpuPinIsDuplicate acc (pin_vcpuid p)) eqn:Ed; [discriminate|].
    destruct (Z.geb_spec (pin_vcpuid p) vcpus) as [Hge|Hlt].
    + apply (IH (fun q H => Hp q (or_intror H)) acc); assumption.
    + apply (IH (fun q H => Hp q (or_intror H)) (acc ++ [p])); [| |exact Hl].
      * rewrite map_app. simpl. apply NoDup_app; [exact Hnd|constructor; [intros []|constructor]|].
        intros v Hin [<-|[]]. unfold virDomainVcpuPinIsDuplicate in Ed.
        apply in_map_iff in Hin as [q [Hq Hin]].
        assert (existsb (fun p0 => pin_vcpuid p0 =? pin_vcpuid p) acc = true)
          by (apply existsb_exists; exists q; split; [exact Hin|apply Z.eqb_eq, Hq]).
        congruence.
      * apply Forall_app. split; [exact Hv|]. constructor; [|constructor].
        destruct (Hp p (or_introl eq_refl)). split; [lia|assumption].
Qed.

Lemma cpumaskFill_spec vcpus (m : B) (l : list nat) :
  (forall i, In i l -> Z.of_nat i < vcpus) ->
  forall acc : list (@virDomainVcpuPinDef B), NoDup (map pin_vcpuid acc) -> Forall (pinValid vcpus) acc ->
  let r := fold_left (fun def i =>
             if virDomainVcpuPinIsDuplicate def (Z.of_nat i) then def
             else def ++ [mkPin (Z.of_nat i) (Some m)]) l acc in
  NoDup (map pin_vcpuid r) /\ Forall (pinValid vcpus) r /\ (forall p, In p acc -> In p r) /\
  (forall i, In i l -> exists p, In p r /\ pin_vcpuid p = Z.of_nat i).
Proof.
  induction l as [|i l IH]; intros Hl acc Hnd Hv; simpl.
  - split; [exact Hnd|]. split; [exact Hv|]. split; [tauto|intros _ []].
  - destruct (virDomainVcpuPinIsDuplicate acc (Z.of_nat i)) eqn:Ed.
    + destruct (IH (fun j H => Hl j (or_intror H)) acc Hnd Hv) as [H1 [H2 [H3 H4]]].
      split; [exact H1|]. split; [exact H2|]. split; [exact H3|].
      intros j [<-|Hj]; [|apply H4, Hj].
      apply existsb_exists in Ed as [q [Hq Hqi]]. apply Z.eqb_eq in Hqi.
      exists q. split; [apply H3, Hq|exact Hqi].
    + assert (Hnd' : NoDup (map pin_vcpuid (acc ++ [mkPin (Z.of_nat i) (Some m)]))).
      { rewrite map_app. simpl. apply NoDup_app; [exact Hnd|constructor; [intros []|constructor]|].
        intros v Hin [<-|[]]. apply in_map_iff in Hin as [q [Hq Hin]].
        assert (existsb (fun p0 => pin_vcpuid p0 =? Z.of_nat i) acc = true)
          by (apply existsb_exists; exists q; split; [exact Hin|apply Z.eqb_eq, Hq]).
        unfold virDomainVcpuPinIsDuplicate in Ed. congruence. }
      assert (Hv' : Forall (pinValid vcpus) (acc ++ [mkPin (Z.of_nat i) (Some m)])).
      { apply Forall_app. split; [exact Hv|]. constructor; [|constructor].
        split; simpl; [pose proof (Hl i (or_introl eq_refl)); lia|discriminate]. }
      destruct (IH (fun j H => Hl j (or_intror H)) _ Hnd' Hv') as [H1 [H2 [H3 H4]]].
      split; [exact H1|]. split; [exact H2|].
      split; [intros p Hp; apply H3, in_or_app; left; exact Hp|].
      intros j [<-|Hj]; [|apply H4, Hj].
      exists (mkPin (Z.of_nat i) (Some m)). split; [|reflexivity].
      apply H3, in_or_app. right. left. reflexivity.
Qed.

End Facts.

End VcpuPinFacts.

Module VcpuPinClaims.
Import VcpuPin VcpuPinFacts.

(** [virDomainVcpuPinAdd] sets the pinning of one vCPU and leaves the
    others alone: with a bitmap it returns 0 and the vCPU is then pinned
    to that bitmap, whether it had a pin before or not; when the bitmap
    cannot be made it returns -1, and a vCPU that had a pin is left with
    a pin of no cpumask while one that had none still has none.  The
    pins of the other vCPUs are unchanged, and a list with one pin per
    vCPU keeps one pin per vCPU. *)
Theorem vcpupin_add_spec {B : Type} (def : list (@virDomainVcpuPinDef B))
  (newData : option B) (vcpu : Z) :
  let '(ret, def') := virDomainVcpuPinAdd def newData vcpu in
  ret = (if nonNull newData then 0 else -1) /\
  virDomainVcpuPinFindByVcpu def' vcpu =
    match newData, virDomainVcpuPinFindByVcpu def vcpu with
    | Some m, _ => Some (mkPin vcpu (Some m))
    | None, Some _ => Some (mkPin vcpu None)
    | None, None => None
    end /\
  (forall v, v <> vcpu -> virDomainVcpuPinFindByVcpu def' v = virDomainVcpuPinFindByVcpu def v) /\
  (NoDup (map pin_vcpuid def) -> NoDup (map pin_vcpuid def')).
Proof.
  unfold virDomainVcpuPinAdd.
  destruct (virDomainVcpuPinFindByVcpu def vcpu) as [p|] eqn:Ef.
  - split; [reflexivity|]. split.
    + rewrite find_replaceFirstPin, Z.eqb_refl, Ef. destruct newData; reflexivity.
    + split.
      * intros v Hv. rewrite find_replaceFirstPin. destruct (Z.eqb_spec v vcpu); [contradiction|].
        reflexivity.
      * rewrite ids_replaceFirstPin. tauto.
  - destruct newData as [m|].
    + split; [reflexivity|]. split.
      * rewrite find_app_one, Ef. simpl. rewrite Z.eqb_refl. reflexivity.
      * split.
        -- intros v Hv. rewrite find_app_one. simpl.
           destruct (virDomainVcpuPinFindByVcpu def v); [reflexivity|].
           destruct (Z.eqb_spec vcpu v); [congruence|reflexivity].
        -- intros Hnd. rewrite map_app. simpl. apply NoDup_app; [exact Hnd| |].
           ++ constructor; [intros []|constructor].
           ++ intros v Hin [<-|[]]. exact (find_none_notin def vcpu Ef Hin).
    + split; [reflexivity|]. split; [exact Ef|]. split; [reflexivity|tauto].
Qed.

(** [virDomainVcpuPinDel] on a list with one pin per vCPU removes the
    pin of [vcpu]: afterwards no pin of [vcpu] is found, the pins of the
    other vCPUs are found as before, and the list still has one pin per
    vCPU. *)
Theorem vcpupin_del_spec {B : Type} (def : list (@virDomainVcpuPinDef B)) (vcpu : Z)
  (Hnd : NoDup (map pin_vcpuid def)) :
  virDomainVcpuPinFindByVcpu (virDomainVcpuPinDel def vcpu) vcpu = None /\
  (forall v, v <> vcpu ->
     virDomainVcpuPinFindByVcpu (virDomainVcpuPinDel def vcpu) v = virDomainVcpuPinFindByVcpu def v) /\
  NoDup (map pin_vcpuid (virDomainVcpuPinDel def vcpu)).
Proof.
  split; [apply find_del_self, Hnd|]. split; [intros v Hv; apply find_del_other, Hv|].
  apply nodup_del, Hnd.
Qed.

Lemma vcpupin_del_spec_witness :
  NoDup (map (@pin_vcpuid bool) [mkPin 0 (Some true); mkPin 1 (Some false)]) /\
  virDomainVcpuPinFindByVcpu
    (virDomainVcpuPinDel [mkPin 0 (Some true); mkPin 1 (Some false)] 0) 0 = None.
Proof.
  assert (H : NoDup (map (@pin_vcpuid bool) [mkPin 0 (Some true); mkPin 1 (Some false)])).
  { simpl. constructor; [intros [H|[]]; discriminate|constructor; [intros []|constructor]]. }
  split; [exact H|]. exact (proj1 (vcpupin_del_spec _ 0 H)).
Defined.

(** The [<cputune>] pins of a parsed domain: after the [<vcpupin>] loop
    of [virDomainDefParseXML] and the filling from the domain's cpuset,
    there is at most one pin per vCPU, every pin is for an online vCPU
    ([0 <= vcpuid < vcpus]) and has a cpumask, and when the domain has a
    cpuset every online vCPU has a pin. *)
Theorem parse_vcpupins_spec {B : Type} (virBitmapParse : string -> option B)
  (maxvcpus vcpus : Z) (cpumask : option B) (nodes : list (xpathInt * option string))
  (def : list (@virDomainVcpuPinDef B))
  (Hparse : parseVcpuPins maxvcpus vcpus cpumask
              (map (fun '(vcpu, cpuset) =>
                      virDomainVcpuPinDefParseXML virBitmapParse vcpu cpuset maxvcpus) nodes)
            = Some def) :
  NoDup (map pin_vcpuid def) /\
  (forall p, In p def -> 0 <= pin_vcpuid p < vcpus /\ pin_cpumask p <> None) /\
  (cpumask <> None -> forall i, 0 <= i < vcpus -> exists p, In p def /\ pin_vcpuid p = i).
Proof.
  unfold parseVcpuPins in Hparse.
  destruct (_ >? maxvcpus); [discriminate|].
  destruct (vcpupinLoop vcpus _ []) as [def0|] eqn:El; [|discriminate].
  set (parsed := map _ nodes) in El.
  assert (Hpar : forall p, In (Some p) parsed -> 0 <= pin_vcpuid p /\ pin_cpumask p <> None).
  { intros p Hin. apply in_map_iff in Hin as [[v cs] [Hp _]].
    unfold virDomainVcpuPinDefParseXML in Hp.
    destruct v as [| |v]; simpl in Hp; try discriminate.
    destruct (Z.ltb_spec v (-1)); simpl in Hp; [discriminate|].
    destruct (Z.eqb_spec v (-1)); [discriminate|].
    destruct (v >=? maxvcpus); [discriminate|].
    destruct cs as [s|]; [|discriminate].
    destruct (virBitmapParse s); [|discriminate].
    injection Hp as <-. simpl. split; [lia|discriminate]. }
  destruct (vcpupinLoop_spec vcpus parsed Hpar [] def0 (NoDup_nil _) (Forall_nil _) El)
    as [Hnd Hv].
  destruct cpumask as [m|].
  - injection Hparse as <-. unfold cpumaskFill.
    destruct (cpumaskFill_spec vcpus m (seq 0 (Z.to_nat vcpus))
                ltac:(intros i Hi; apply in_seq in Hi; lia) def0 Hnd Hv) as [H1 [H2 [_ H4]]].
    split; [exact H1|]. split; [apply Forall_forall, H2|].
    intros _ i Hi. destruct (H4 (Z.to_nat i) ltac:(apply in_seq; lia)) as [p [Hp Hid]].
    exists p. split; [exact Hp|lia].
  - injection Hparse as <-. split; [exact Hnd|]. split; [apply Forall_forall, Hv|].
    intros Hc; contradiction.
Qed.

Lemma parse_vcpupins_spec_witness :
  parseVcpuPins 4 2 (Some 7)
    (map (fun '(vcpu, cpuset) =>
            virDomainVcpuPinDefParseXML (fun _ => Some 9) vcpu cpuset 4)
         [(IValue 1, Some "0-1"%string); (IValue 3, Some "2"%string)]) =
    Some [mkPin 1 (Some 9); mkPin 0 (Some 7)] /\
  exists p, In p [mkPin 1 (Some 9); mkPin 0 (Some 7)] /\ pin_vcpuid p = 0.
Proof.
  assert (H : parseVcpuPins 4 2 (Some 7)
    (map (fun '(vcpu, cpuset) =>
            virDomainVcpuPinDefParseXML (fun _ => Some 9) vcpu cpuset 4)
         [(IValue 1, Some "0-1"%string); (IValue 3, Some "2"%string)]) =
    Some [mkPin 1 (Some 9); mkPin 0 (Some 7)]) by reflexivity.
  split; [exact H|].
  exact (proj2 (proj2 (parse_vcpupins_spec _ 4 2 (Some 7) _ _ H)) ltac:(discriminate) 0
           ltac:(lia)).
Defined.

End VcpuPinClaims.

Module NetFindClaims.
Import NetFind.

Section WithPci.
Variable virDevicePCIAddressIsValid : Z * Z * Z * Z -> bool.
Variable virDevicePCIAddressEqual : Z * Z * Z * Z -> Z * Z * Z * Z -> bool.
Variable addrPci : virDomainDeviceAddress -> Z * Z * Z * Z.

(** [n] has the MAC address of [net]. *)
Definition macMatches (net n : virDomainNetDef) : Prop := memneq (net_mac n) (net_mac net) = false.

(** [n] has the MAC address and the PCI address of [net]. *)
Definition pciMatches (net n : virDomainNetDef) : Prop :=
  macMatches net n /\
  virDevicePCIAddressEqual (addrPci (info_addr (net_info n))) (addrPci (info_addr (net_info net)))
  = true.

Lemma netFindLoop_nopci nets net :
  forall ii m r, 0 <= ii -> (m = -1 \/ 0 <= m < ii) ->
  netFindLoop virDevicePCIAddressEqual addrPci nets net false ii m = r ->
  (r = m /\ forall n, In n nets -> ~ macMatches net n) \/
  (r = -2 /\ ((0 <= m /\ exists n, In n nets /\ macMatches net n) \/
              exists pre n1 mid n2 post, nets = pre ++ n1 :: mid ++ n2 :: post /\
                macMatches net n1 /\ macMatches net n2)) \/
  (m = -1 /\ exists pre n post, nets = pre ++ n :: post /\ r = ii + Z.of_nat (List.length pre) /\
     macMatches net n /\ forall n', In n' (pre ++ post) -> ~ macMatches net n').
Proof.
  induction nets as [|n rest IH]; intros ii m r Hii Hm Hloop; simpl in Hloop.
  - left. split; [symmetry; exact Hloop|intros _ []].
  - destruct (memneq (net_mac n) (net_mac net)) eqn:Emac.
    + destruct (IH (ii + 1) m r ltac:(lia) ltac:(lia) Hloop)
        as [[Hr Hno]|[[Hr [[Hm0 [n1 [Hin Hmt]]]|[pre [n1 [mid [n2 [post [Heq [H1 H2]]]]]]]]]|
                      [Hm1 [pre [n1 [post [Heq [Hr [Hmt Hno]]]]]]]]].
      * left. split; [exact Hr|]. intros n' [<-|Hin] Hmt; [unfold macMatches in Hmt; congruence|].
        exact (Hno n' Hin Hmt).
      * right. left. split; [exact Hr|]. left. split; [exact Hm0|].
        exists n1. split; [right; exact Hin|exact Hmt].
      * right. left. split; [exact Hr|]. right. exists (n :: pre), n1, mid, n2, post.
        rewrite Heq. split; [reflexivity|]. split; assumption.
      * right. right. split; [exact Hm1|]. exists (n :: pre), n1, post. rewrite Heq.
        split; [reflexivity|]. split; [simpl List.length; lia|]. split; [exact Hmt|].
        intros n' [<-|Hin] Hmt'; [unfold macMatches in Hmt'; congruence|exact (Hno n' Hin Hmt')].
    + destruct (Z.geb_spec m 0) as [Hge|Hlt]; simpl in Hloop.
      * right. left. split; [symmetry; exact Hloop|]. left. split; [exact Hge|].
        exists n. split; [left; reflexivity|exact Emac].
      * assert (m = -1) as -> by lia.
        destruct (IH (ii + 1) ii r ltac:(lia) ltac:(lia) Hloop)
          as [[Hr Hno]|[[Hr [[Hm0 [n1 [Hin Hmt]]]|[pre [n1 [mid [n2 [post [Heq [H1 H2]]]]]]]]]|
                        [Hm1 _]]]; [| | |lia].
        -- right. right. split; [reflexivity|]. exists [], n, rest. simpl.
           split; [reflexivity|]. split; [lia|]. split; [exact Emac|exact Hno].
        -- right. left. split; [exact Hr|]. right.
           apply in_split in Hin as [l1 [l2 ->]].
           exists [], n, l1, n1, l2. split; [reflexivity|]. split; [exact Emac|exact Hmt].
        -- right. left. split; [exact Hr|]. right. exists (n :: pre), n1, mid, n2, post.
           rewrite Heq. split; [reflexivity|]. split; assumption.
Qed.

Lemma netFindLoop_pci nets net :
  forall ii m r,
  netFindLoop virDevicePCIAddressEqual addrPci nets net true ii m = r ->
  (r = m /\ forall n, In n nets -> ~ pciMatches net n) \/
  (exists pre n post, nets = pre ++ n :: post /\ r = ii + Z.of_nat (List.length pre) /\
     pciMatches net n /\ forall n', In n' pre -> ~ pciMatches net n').
Proof.
  induction nets as [|n rest IH]; intros ii m r Hloop; simpl in Hloop.
  - left. split; [symmetry; exact Hloop|intros _ []].
  - assert (Hskip : netFindLoop virDevicePCIAddressEqual addrPci rest net true (ii + 1) m = r ->
              ~ pciMatches net n ->
              (r = m /\ forall n0, In n0 (n :: rest) -> ~ pciMatches net n0) \/
              (exists pre n0 post, n :: rest = pre ++ n0 :: post /\
                 r = ii + Z.of_nat (List.length pre) /\ pciMatches net n0 /\
                 forall n', In n' pre -> ~ pciMatches net n')).
    { intros H Hn. destruct (IH (ii + 1) m r H)
        as [[Hr Hno]|[pre [n1 [post [Heq [Hr [Hmt Hno]]]]]]].
      - left. split; [exact Hr|]. intros n' [<-|Hin]; [exact Hn|exact (Hno n' Hin)].
      - right. exists (n :: pre), n1, post. rewrite Heq. split; [reflexivity|].
        split; [simpl List.length; lia|]. split; [exact Hmt|].
        intros n' [<-|Hin]; [exact Hn|exact (Hno n' Hin)]. }
    destruct (memneq (net_mac n) (net_mac net)) eqn:Emac.
    + apply Hskip; [exact Hloop|]. intros [Hm _]. unfold macMatches in Hm. congruence.
    + rewrite andb_false_r in Hloop.
      destruct (virDevicePCIAddressEqual _ _) eqn:Epci.
      * right. exists [], n, rest. split; [reflexivity|]. split; [simpl; lia|].
        split; [split; assumption|intros _ []].
      * apply Hskip; [exact Hloop|]. intros [_ Hp]. congruence.
Qed.

(** [virDomainNetFindIdx] when [net] has no valid PCI address: it
    returns -1 when no interface has the MAC address of [net], -2 when
    two or more have it, and otherwise the index of the one interface
    that has it. *)
Theorem net_find_idx_by_mac (nets : list virDomainNetDef) (net : virDomainNetDef)
  (Hnopci : pciAddressIsValid virDevicePCIAddressIsValid (net_info net) = false) :
  let r := virDomainNetFindIdx virDevicePCIAddressIsValid virDevicePCIAddressEqual addrPci nets net in
  (r = -1 /\ forall n, In n nets -> ~ macMatches net n) \/
  (r = -2 /\ exists pre n1 mid n2 post, nets = pre ++ n1 :: mid ++ n2 :: post /\
     macMatches net n1 /\ macMatches net n2) \/
  (exists pre n post, nets = pre ++ n :: post /\ r = Z.of_nat (List.length pre) /\
     macMatches net n /\ forall n', In n' (pre ++ post) -> ~ macMatches net n').
Proof.
  intros r. unfold r, virDomainNetFindIdx. rewrite Hnopci.
  destruct (netFindLoop_nopci nets net 0 (-1) _ ltac:(lia) ltac:(lia) eq_refl)
    as [H|[[Hr [[Hm _]|H]]|[_ [pre [n [post [Heq [Hr H]]]]]]]].
  - left. exact H.
  - lia.
  - right. left. split; [exact Hr|exact H].
  - right. right. exists pre, n, post. split; [exact Heq|]. split; [lia|exact H].
Qed.

(** [virDomainNetFindIdx] when [net] has a valid PCI address: it
    returns the index of the first interface with both the MAC address
    and the PCI address of [net], and -1 when there is none; interfaces
    that share the MAC address alone are not an error. *)
Theorem net_find_idx_by_pci (nets : list virDomainNetDef) (net : virDomainNetDef)
  (Hpci : pciAddressIsValid virDevicePCIAddressIsValid (net_info net) = true) :
  let r := virDomainNetFindIdx virDevicePCIAddressIsValid virDevicePCIAddressEqual addrPci nets net in
  (r = -1 /\ forall n, In n nets -> ~ pciMatches net n) \/
  (exists pre n post, nets = pre ++ n :: post /\ r = Z.of_nat (List.length pre) /\
     pciMatches net n /\ forall n', In n' pre -> ~ pciMatches net n').
Proof.
  intros r. unfold r, virDomainNetFindIdx. rewrite Hpci.
  destruct (netFindLoop_pci nets net 0 (-1) _ eq_refl)
    as [H|[pre [n [post [Heq [Hr H]]]]]].
  - left. exact H.
  - right. exists pre, n, post. split; [exact Heq|]. split; [lia|exact H].
Qed.

End WithPci.

Definition examplePci (a : virDomainDeviceAddress) : Z * Z * Z * Z :=
  match a with
  | AddrPCI d b s f => (d, b, s, f)
  | _ => (0, 0, 0, 0)
  end.

Definition examplePciEqual (x y : Z * Z * Z * Z) : bool :=
  let '(d1, b1, s1, f1) := x in
  let '(d2, b2, s2, f2) := y in
  (d1 =? d2) && (b1 =? b2) && (s1 =? s2) && (f1 =? f2).

Definition exampleNic (mac : Z) (addr : virDomainDeviceAddress) : virDomainNetDef :=
  mkNet [82; 84; 0; 0; 0; mac] None (mkInfo None addr 0).

Lemma net_find_idx_by_mac_witness :
  virDomainNetFindIdx (fun _ => true) examplePciEqual examplePci
    [exampleNic 1 AddrNone; exampleNic 2 AddrNone; exampleNic 1 AddrNone]
    (exampleNic 1 AddrNone) = -2 /\
  exists pre n1 mid n2 post,
    [exampleNic 1 AddrNone; exampleNic 2 AddrNone; exampleNic 1 AddrNone] =
      pre ++ n1 :: mid ++ n2 :: post /\
    macMatches (exampleNic 1 AddrNone) n1 /\ macMatches (exampleNic 1 AddrNone) n2.
Proof.
  assert (Hr : virDomainNetFindIdx (fun _ => true) examplePciEqual examplePci
    [exampleNic 1 AddrNone; exampleNic 2 AddrNone; exampleNic 1 AddrNone]
    (exampleNic 1 AddrNone) = -2) by reflexivity.
  split; [exact Hr|].
  pose proof (net_find_idx_by_mac (fun _ => true) examplePciEqual examplePci
    [exampleNic 1 AddrNone; exampleNic 2 AddrNone; exampleNic 1 AddrNone]
    (exampleNic 1 AddrNone) eq_refl) as H.
  cbv zeta in H. rewrite Hr in H.
  destruct H as [[H _]|[[_ H]|[pre [n [post [_ [H _]]]]]]]; [discriminate|exact H|lia].
Defined.

Lemma net_find_idx_by_pci_witness :
  virDomainNetFindIdx (fun _ => true) examplePciEqual examplePci
    [exampleNic 1 (AddrPCI 0 0 3 0); exampleNic 1 (AddrPCI 0 0 4 0)]
    (exampleNic 1 (AddrPCI 0 0 4 0)) = 1 /\
  exists pre n post,
    [exampleNic 1 (AddrPCI 0 0 3 0); exampleNic 1 (AddrPCI 0 0 4 0)] = pre ++ n :: post /\
    1 = Z.of_nat (List.length pre) /\
    pciMatches examplePciEqual examplePci (exampleNic 1 (AddrPCI 0 0 4 0)) n.
Proof.
  assert (Hr : virDomainNetFindIdx (fun _ => true) examplePciEqual examplePci
    [exampleNic 1 (AddrPCI 0 0 3 0); exampleNic 1 (AddrPCI 0 0 4 0)]
    (exampleNic 1 (AddrPCI 0 0 4 0)) = 1) by reflexivity.
  split; [exact Hr|].
  pose proof (net_find_idx_by_pci (fun _ => true) examplePciEqual examplePci
    [exampleNic 1 (AddrPCI 0 0 3 0); exampleNic 1 (AddrPCI 0 0 4 0)]
    (exampleNic 1 (AddrPCI 0 0 4 0)) eq_refl) as H.
  cbv zeta in H. rewrite Hr in H.
  destruct H as [[H _]|[pre [n [post [Heq [Hl [Hm _]]]]]]]; [discriminate|].
  exists pre, n, post. split; [exact Heq|]. split; [exact Hl|exact Hm].
Defined.

End NetFindClaims.

Module StatusParseFacts.
Import Enum EnumFacts Status StatusFacts.

Lemma enumFrom_bound types s :
  0 <= virEnumFromString types (Some s) ->
  virEnumFromString types (Some s) < Z.of_nat (List.length types).
Proof.
  unfold virEnumFromString. intros H.
  destruct (enumIndex_found types s 0) as [k [Hk Hv]]; [lia|exact H|].
  assert (Hl : (k < List.length types)%nat) by (apply nth_error_Some; congruence).
  lia.
Qed.

(** The taint word has no bit at or above [VIR_DOMAIN_TAINT_LAST]. *)
Definition taintsKnown (t : Z) : Prop := Z.land t (Z.ones VIR_DOMAIN_TAINT_LAST) = t.

Lemma taintsKnown_bound t : taintsKnown t -> 0 <= t < 2 ^ VIR_DOMAIN_TAINT_LAST.
Proof.
  unfold taintsKnown. intros H. rewrite Z.land_ones in H by (unfold VIR_DOMAIN_TAINT_LAST; lia).
  rewrite <- H. apply Z.mod_pos_bound. apply Z.pow_pos_nonneg; unfold VIR_DOMAIN_TAINT_LAST; lia.
Qed.

Lemma taintsKnown_taint obj flag :
  0 <= flag < VIR_DOMAIN_TAINT_LAST -> taintsKnown (obj_taint obj) ->
  taintsKnown (obj_taint (snd (virDomainObjTaint obj flag))).
Proof.
  intros Hf Ht. rewrite taint_bit by lia. simpl. unfold taintsKnown in *.
  rewrite Z.land_lor_distr_l, Ht. f_equal.
  rewrite Z.shiftl_1_l, Z.land_ones by (unfold VIR_DOMAIN_TAINT_LAST in *; lia).
  apply Z.mod_small. split; [apply Z.pow_nonneg; lia|].
  apply Z.pow_lt_mono_r; lia.
Qed.

Lemma parseTaints_spec fs :
  forall obj obj', parseTaints obj fs = Some obj' ->
  obj_state obj' = obj_state obj /\ obj_reason obj' = obj_reason obj /\
  (taintsKnown (obj_taint obj) -> taintsKnown (obj_taint obj')).
Proof.
  induction fs as [|[s|] fs IH]; intros obj obj' H; cbn [parseTaints] in H.
  - injection H as <-. auto.
  - destruct (Z.ltb_spec (virDomainTaintTypeFromString (Some s)) 0) as [|Hf]; [discriminate|].
    destruct (IH _ _ H) as [H1 [H2 H3]].
    pose proof (enumFrom_bound virDomainTaintList s Hf) as Hb.
    rewrite (proj2 taintList_ok) in Hb. unfold virDomainTaintTypeFromString in *.
    rewrite H1, H2, taint_bit by lia. simpl. split; [reflexivity|]. split; [reflexivity|].
    intros Ht. apply H3.
    apply taintsKnown_taint; [|exact Ht]. unfold VIR_DOMAIN_TAINT_LAST. lia.
  - apply (IH _ _ H).
Qed.

Lemma parseTaints_unknown fs :
  forall obj f, In (Some f) fs -> virDomainTaintTypeFromString (Some f) < 0 ->
  parseTaints obj fs = None.
Proof.
  induction fs as [|[s|] fs IH]; intros obj f Hin Hf; [destruct Hin|..];
    destruct Hin as [Heq|Hin]; cbn [parseTaints].
  - injection Heq as ->. destruct (Z.ltb_spec (virDomainTaintTypeFromString (Some f)) 0);
      [reflexivity|lia].
  - destruct (_ <? 0); [reflexivity|]. apply (IH _ f Hin Hf).
  - discriminate.
  - apply (IH _ f Hin Hf).
Qed.

End StatusParseFacts.

Module StatusParseClaims.
Import Enum EnumFacts Status StatusFacts StatusParseFacts.

(** What [virDomainObjParseXML] reads from a status document is always
    a valid object: on success the state and reason name entries of the
    enum tables and the taint word has only bits of known taint flags.
    A missing state, an unknown state, an unknown reason for the state
    or an unknown taint flag makes the parse fail. *)
Theorem parse_status_valid (x : statusXML) :
  (forall obj, virDomainObjParseStatus x = Some obj ->
     stateOk obj /\ 0 <= obj_taint obj < 2 ^ VIR_DOMAIN_TAINT_LAST) /\
  (virXPathString (sx_state x) = None -> virDomainObjParseStatus x = None) /\
  (forall tmp, virXPathString (sx_state x) = Some tmp ->
     virDomainStateTypeFromString (Some tmp) < 0 -> virDomainObjParseStatus x = None) /\
  (forall tmp r, virXPathString (sx_state x) = Some tmp -> virXPathString (sx_reason x) = Some r ->
     virDomainStateReasonFromString (virDomainStateTypeFromString (Some tmp)) (Some r) < 0 ->
     virDomainObjParseStatus x = None) /\
  (forall f, In (Some f) (sx_taints x) -> virDomainTaintTypeFromString (Some f) < 0 ->
     virDomainObjParseStatus x = None).
Proof.
  split; [|split; [|split; [|split]]].
  - intros obj Hparse.
    unfold virDomainObjParseStatus in Hparse.
    destruct (virXPathString (sx_state x)) as [tmp|]; [|discriminate].
    set (state := virDomainStateTypeFromString (Some tmp)) in Hparse.
    destruct (Z.ltb_spec state 0) as [|Hs0]; [discriminate|].
    assert (Hs : 0 <= state < VIR_DOMAIN_LAST).
    { unfold state, virDomainStateTypeFromString in Hs0.
      pose proof (enumFrom_bound virDomainStateList tmp Hs0) as Hb.
      rewrite (proj2 (proj2 stateList_ok)) in Hb. unfold VIR_DOMAIN_LAST. unfold state, virDomainStateTypeFromString. lia. }
    destruct (match virXPathString (sx_reason x) with
              | Some tmp0 => _ | None => _ end) as [reason|]; [|discriminate].
    destruct (parseTaints_spec _ _ _ Hparse) as [H1 [H2 H3]].
    rewrite setState_valid in H1, H2, H3 by exact Hs. simpl in H1, H2, H3.
    split.
    + unfold stateOk. rewrite H1, H2.
      destruct (reasonTable_valid state Hs) as [types [_ [Hl [Hnil _]]]].
      split; [exact Hs|].
      destruct ((reason >? 0) && (reason <? stateReasonLast state)) eqn:E.
      * apply andb_true_iff in E as [E1 E2]. apply Z.gtb_lt in E1. apply Z.ltb_lt in E2. lia.
      * rewrite Hl. destruct types; [congruence|]. simpl. lia.
    + apply taintsKnown_bound, H3. reflexivity.
  - intros Hn. unfold virDomainObjParseStatus. rewrite Hn. reflexivity.
  - intros tmp Hs Hneg. unfold virDomainObjParseStatus. rewrite Hs.
    destruct (Z.ltb_spec (virDomainStateTypeFromString (Some tmp)) 0); [reflexivity|lia].
  - intros tmp r Hs Hr Hneg. unfold virDomainObjParseStatus. rewrite Hs, Hr.
    destruct (_ <? 0); [reflexivity|].
    destruct (Z.ltb_spec (virDomainStateReasonFromString
                            (virDomainStateTypeFromString (Some tmp)) (Some r)) 0);
      [reflexivity|lia].
  - intros f Hin Hf. unfold virDomainObjParseStatus.
    destruct (virXPathString (sx_state x)); [|reflexivity].
    destruct (_ <? 0); [reflexivity|].
    destruct (match virXPathString (sx_reason x) with
              | Some tmp0 => _ | None => _ end); [|reflexivity].
    apply (parseTaints_unknown _ _ f Hin Hf).
Qed.

Lemma parse_status_valid_witness :
  virDomainObjParseStatus
    (mkStatusXML (Some "paused"%string) (Some "ioerror"%string)
       [Some "custom-argv"%string; None; Some "high-privileges"%string]) =
    Some (mkObj VIR_DOMAIN_PAUSED 5 5) /\
  stateOk (mkObj VIR_DOMAIN_PAUSED 5 5) /\
  virDomainObjParseStatus
    (mkStatusXML (Some "paused"%string) (Some "booted"%string) []) = None.
Proof.
  assert (H : virDomainObjParseStatus
    (mkStatusXML (Some "paused"%string) (Some "ioerror"%string)
       [Some "custom-argv"%string; None; Some "high-privileges"%string]) =
    Some (mkObj VIR_DOMAIN_PAUSED 5 5)) by reflexivity.
  split; [exact H|]. split; [exact (proj1 (proj1 (parse_status_valid _) _ H))|].
  apply (proj1 (proj2 (proj2 (proj2 (parse_status_valid
           (mkStatusXML (Some "paused"%string) (Some "booted"%string) [])))))
           "paused"%string "booted"%string); reflexivity.
Defined.

(** [virDomainObjTaint] reports a taint flag once: it returns true
    exactly when the flag's bit was clear, sets that bit and no other,
    keeps the state and reason, and a second call with the same flag
    returns false and changes nothing. *)
Theorem taint_once (obj : virDomainObj) (flag : Z)
  (Hflag : 0 <= flag < VIR_DOMAIN_TAINT_LAST) :
  let '(first, obj1) := virDomainObjTaint obj flag in
  first = negb (Z.testbit (obj_taint obj) flag) /\
  obj_state obj1 = obj_state obj /\ obj_reason obj1 = obj_reason obj /\
  Z.testbit (obj_taint obj1) flag = true /\
  (forall m, m <> flag -> Z.testbit (obj_taint obj1) m = Z.testbit (obj_taint obj) m) /\
  virDomainObjTaint obj1 flag = (false, obj1).
Proof.
  assert (Hbit : forall t, (Z.land t (Z.shiftl 1 flag) =? 0) = negb (Z.testbit t flag)).
  { intros t. rewrite Z.shiftl_1_l.
    destruct (Z.testbit t flag) eqn:Hb; simpl.
    - apply Z.eqb_neq. intros H0.
      assert (Z.testbit (Z.land t (2 ^ flag)) flag = false) by (rewrite H0; apply Z.bits_0).
      rewrite Z.land_spec, Z.pow2_bits_true, Hb in H by lia. discriminate.
    - apply Z.eqb_eq. apply Z.bits_inj'. intros j Hj.
      rewrite Z.land_spec, Z.pow2_bits_eqb, Z.bits_0 by lia.
      destruct (Z.eqb_spec flag j); [subst; rewrite Hb; reflexivity|apply andb_false_r]. }
  assert (Hlor : forall t m, Z.testbit (Z.lor t (Z.shiftl 1 flag)) m =
                             (m =? flag) || Z.testbit t m).
  { intros t m. destruct (Z.ltb_spec m 0).
    - rewrite !Z.testbit_neg_r by lia. destruct (Z.eqb_spec m flag); [lia|reflexivity].
    - rewrite Z.lor_spec, Z.shiftl_1_l, Z.pow2_bits_eqb by lia.
      destruct (Z.eqb_spec flag m), (Z.eqb_spec m flag); subst; try lia; simpl;
        rewrite ?orb_true_r, ?orb_false_r; reflexivity. }
  unfold virDomainObjTaint at 1. rewrite Hbit.
  destruct (Z.testbit (obj_taint obj) flag) eqn:Hb; simpl.
  - split; [reflexivity|]. split; [reflexivity|]. split; [reflexivity|].
    split; [exact Hb|]. split; [reflexivity|].
    unfold virDomainObjTaint. rewrite Hbit, Hb. reflexivity.
  - split; [reflexivity|]. split; [reflexivity|]. split; [reflexivity|].
    split; [rewrite Hlor, Z.eqb_refl; reflexivity|]. split.
    + intros m Hm. rewrite Hlor. destruct (Z.eqb_spec m flag); [contradiction|reflexivity].
    + unfold virDomainObjTaint. rewrite Hbit. simpl. rewrite Hlor, Z.eqb_refl. reflexivity.
Qed.

Lemma taint_once_witness :
  virDomainObjTaint (mkObj VIR_DOMAIN_RUNNING 1 4) 2 = (false, mkObj VIR_DOMAIN_RUNNING 1 4) /\
  virDomainObjTaint (mkObj VIR_DOMAIN_RUNNING 1 4) 1 = (true, mkObj VIR_DOMAIN_RUNNING 1 6) /\
  virDomainObjTaint (mkObj VIR_DOMAIN_RUNNING 1 6) 1 = (false, mkObj VIR_DOMAIN_RUNNING 1 6).
Proof.
  split; [reflexivity|]. split; [reflexivity|].
  exact (proj2 (proj2 (proj2 (proj2 (proj2
           (taint_once (mkObj VIR_DOMAIN_RUNNING 1 4) 1 ltac:(unfold VIR_DOMAIN_TAINT_LAST; lia))))))).
Defined.

End StatusParseClaims.
